(** * ShoeSwiper content generator: rendering pipeline

    A shallow embedding of the Python lambdas under
    [aws-infrastructure/lambda/content-generator/]:
    [html_generator.py], [sitemap_handler.py] and [rss_handler.py].

    Python values are modelled the way the code meets them.  A record
    fetched from the table is a dictionary ([gmap string value]) of
    scalar attributes: strings, decimal numbers, booleans, nulls and
    timestamps; a post carries its structured attributes beside them.
    [str] is a sequence of code points, [float] is IEEE binary64 (the
    primitive floats), an exception is a [Raise] result, and the clock,
    the table and the bucket are arguments of the functions that use
    them. *)

From Stdlib Require Import ZArith NArith Bool String Ascii List Lia Sorted.
From Stdlib Require Import Floats.
From stdpp Require Import base option gmap strings.
Import ListNotations.

Local Open Scope Z_scope.

(* ===================================================================== *)
(** * Python values *)
(* ===================================================================== *)

Module Py.

(** ** Exceptions and results *)

Inductive exn :=
| ValueError | TypeError | OverflowError | ZeroDivisionError
| AttributeError | KeyError | UnicodeEncodeError | ExpatError | ClientError.

Inductive result (A : Type) :=
| Ok (a : A)
| Raise (e : exn).
Arguments Ok {A} a.
Arguments Raise {A} e.

Definition bind {A B} (r : result A) (k : A -> result B) : result B :=
  match r with
  | Ok a => k a
  | Raise e => Raise e
  end.

Definition returns {A} (r : result A) : bool :=
  match r with Ok _ => true | Raise _ => false end.

(** [try: body / except: handler] with a bare [except]. *)
Definition try_except {A} (body : result A) (handler : A) : A :=
  match body with
  | Ok a => a
  | Raise _ => handler
  end.

(** Run [f] over a list in order, stopping at the first exception. *)
Fixpoint traverse {A B} (f : A -> result B) (l : list A) : result (list B) :=
  match l with
  | [] => Ok []
  | a :: l' =>
      bind (f a) (fun b => bind (traverse f l') (fun bs => Ok (b :: bs)))
  end.

(** ** Strings: sequences of code points *)

Definition char := N.
Definition str := list char.

Definition lit (s : string) : str :=
  List.map N_of_ascii (list_ascii_of_string s).

(** A surrogate code point: a character no UTF-8 text can hold. *)
Definition is_surrogate (c : char) : bool :=
  ((55296 <=? c) && (c <=? 57343))%N.

Definition dquote : str := [34%N].
Definition squote : str := [39%N].
Definition nl : str := [10%N].

Fixpoint str_eqb (a b : str) : bool :=
  match a, b with
  | [], [] => true
  | x :: a', y :: b' => N.eqb x y && str_eqb a' b'
  | _, _ => false
  end.

Fixpoint str_ltb (a b : str) : bool :=
  match a, b with
  | _, [] => false
  | [], _ :: _ => true
  | x :: a', y :: b' => N.ltb x y || (N.eqb x y && str_ltb a' b')
  end.

Fixpoint startswith (p s : str) : bool :=
  match p, s with
  | [], _ => true
  | _ :: _, [] => false
  | x :: p', y :: s' => N.eqb x y && startswith p' s'
  end.

(** [sub in s] *)
Fixpoint contains (sub s : str) : bool :=
  startswith sub s ||
  match s with
  | [] => false
  | _ :: s' => contains sub s'
  end.

(** [s.replace(c, new)] for a one-character pattern [c], the only kind
    the source uses (['$'] and ['Z']). *)
Definition replace1 (c : char) (new : str) (s : str) : str :=
  List.flat_map (fun x => if N.eqb x c then new else [x]) s.

(** [s[:n]] for [n >= 0] *)
Definition slice_to (n : nat) (s : str) : str := firstn n s.

(** [s * n]: the empty string when [n <= 0], [OverflowError] when [n]
    does not fit a signed 64-bit index.  Storage is not modelled: a
    repeat too long to allocate, for which CPython raises [MemoryError],
    is given here as returned. *)
Definition str_mul (s : str) (n : Z) : result str :=
  if (n <? - 2 ^ 63) || (2 ^ 63 <=? n) then Raise OverflowError
  else Ok (List.concat (List.repeat s (Z.to_nat n))).

Fixpoint join (sep : str) (l : list str) : str :=
  match l with
  | [] => []
  | [x] => x
  | x :: l' => x ++ sep ++ join sep l'
  end.

(** Decimal digits of a natural number, as [str(int)] prints them. *)
Fixpoint str_of_uint (u : Decimal.uint) : str :=
  match u with
  | Decimal.Nil => []
  | Decimal.D0 u' => 48%N :: str_of_uint u'
  | Decimal.D1 u' => 49%N :: str_of_uint u'
  | Decimal.D2 u' => 50%N :: str_of_uint u'
  | Decimal.D3 u' => 51%N :: str_of_uint u'
  | Decimal.D4 u' => 52%N :: str_of_uint u'
  | Decimal.D5 u' => 53%N :: str_of_uint u'
  | Decimal.D6 u' => 54%N :: str_of_uint u'
  | Decimal.D7 u' => 55%N :: str_of_uint u'
  | Decimal.D8 u' => 56%N :: str_of_uint u'
  | Decimal.D9 u' => 57%N :: str_of_uint u'
  end.

Definition digits_of_N (n : N) : str := str_of_uint (N.to_uint n).

Definition str_of_Z (z : Z) : str :=
  if z <? 0 then lit "-" ++ digits_of_N (Z.abs_N z) else digits_of_N (Z.to_N z).

(** [n] printed with at least [w] digits (["%02d"], ["%04d"]) for [n >= 0]. *)
Definition pad0 (w : nat) (n : Z) : str :=
  let d := digits_of_N (Z.to_N n) in
  List.repeat 48%N (w - List.length d) ++ d.

(** Unicode white space, as [str.isspace()] and [str.split()] see it. *)
Definition is_space (c : char) : bool :=
  ((9 <=? c) && (c <=? 13) || (28 <=? c) && (c <=? 32) ||
   (c =? 133) || (c =? 160) || (c =? 5760) ||
   (8192 <=? c) && (c <=? 8202) || (c =? 8232) || (c =? 8233) ||
   (c =? 8239) || (c =? 8287) || (c =? 12288))%N.

(** ASCII white space, as the number parsers skip it ([Py_ISSPACE]):
    space, tab, line feed, vertical tab, form feed, carriage return. *)
Definition is_ascii_space (c : char) : bool :=
  ((9 <=? c) && (c <=? 13) || (c =? 32))%N.

(** A string without the ASCII white space at its start, and at both
    ends: what a number parser is left with. *)
Fixpoint lstrip (s : str) : str :=
  match s with
  | c :: s' => if is_ascii_space c then lstrip s' else s
  | [] => []
  end.

Definition strip (s : str) : str := rev (lstrip (rev (lstrip s))).

(** [s.split()]: the maximal runs of non-space characters. *)
Fixpoint split_ws_aux (cur : str) (s : str) : list str :=
  match s with
  | [] => match cur with [] => [] | _ => [rev cur] end
  | c :: s' =>
      if is_space c
      then match cur with
           | [] => split_ws_aux [] s'
           | _ => rev cur :: split_ws_aux [] s'
           end
      else split_ws_aux (c :: cur) s'
  end.

Definition split_ws (s : str) : list str := split_ws_aux [] s.

Definition is_digit (c : char) : bool := ((48 <=? c) && (c <=? 57))%N.
Definition digit_val (c : char) : Z := Z.of_N c - 48.

(** ASCII lower-casing, for the case-insensitive literals of [float()]. *)
Definition ascii_lower (c : char) : char :=
  if ((65 <=? c) && (c <=? 90))%N then (c + 32)%N else c.

(** ** Decimal numbers

    Numeric attributes arrive as [decimal.Decimal]: a sign, a coefficient
    and a power of ten. *)

Record decimal := Decimal { dec_neg : bool; dec_coeff : N; dec_exp : Z }.

(** [Decimal.__str__] (scientific string of the General Decimal
    Arithmetic specification). *)
Definition decimal_str (d : decimal) : str :=
  let sign := if dec_neg d then lit "-" else [] in
  let int_ := digits_of_N (dec_coeff d) in
  let len := Z.of_nat (List.length int_) in
  let leftdigits := dec_exp d + len in
  let dotplace :=
    if (dec_exp d <=? 0) && (-6 <? leftdigits) then leftdigits else 1 in
  let intpart :=
    if dotplace <=? 0 then lit "0"
    else if len <=? dotplace
         then int_ ++ List.repeat 48%N (Z.to_nat (dotplace - len))
         else firstn (Z.to_nat dotplace) int_ in
  let fracpart :=
    if dotplace <=? 0
    then lit "." ++ List.repeat 48%N (Z.to_nat (- dotplace)) ++ int_
    else if len <=? dotplace then []
         else lit "." ++ skipn (Z.to_nat dotplace) int_ in
  let exp :=
    if leftdigits =? dotplace then []
    else lit "E" ++
         (if 0 <=? leftdigits - dotplace then lit "+" else []) ++
         str_of_Z (leftdigits - dotplace) in
  sign ++ intpart ++ fracpart ++ exp.

(** ** Floats: IEEE binary64 *)

(** The binary64 number nearest to [(-1)^neg * c * 10^e], ties to even;
    infinity on overflow, zero on underflow (what [strtod] returns). *)
Definition float_of_decimal (neg : bool) (c : N) (e : Z) : float :=
  if (c =? 0)%N then (if neg then neg_zero else zero)
  else
    let num := if 0 <=? e then Z.of_N c * 10 ^ e else Z.of_N c in
    let den := if 0 <=? e then 1 else 10 ^ (- e) in
    let quo (k : Z) :=
      if 0 <=? k then num / (den * 2 ^ k) else (num * 2 ^ (- k)) / den in
    let k1 := Z.log2 num - Z.log2 den - 52 in
    let k2 := if 2 ^ 52 <=? quo k1 then k1 else k1 - 1 in
    let k := Z.max k2 (-1074) in
    let n' := if 0 <=? k then num else num * 2 ^ (- k) in
    let d' := if 0 <=? k then den * 2 ^ k else den in
    let m := n' / d' in
    let r := n' - m * d' in
    let m' :=
      if d' <? 2 * r then m + 1
      else if (d' =? 2 * r) && Z.odd m then m + 1
      else m in
    if 972 <=? k then (if neg then neg_infinity else infinity)
    else
      match m' with
      | Zpos p => SF2Prim (S754_finite neg p k)
      | _ => if neg then neg_zero else zero
      end.

(** Underscores in a numeric literal: only between digits. *)
Fixpoint strip_underscores (prev : char) (s : str) : option str :=
  match s with
  | [] => if (prev =? 95)%N then None else Some []
  | c :: s' =>
      if (c =? 95)%N
      then if is_digit prev then strip_underscores c s' else None
      else if (prev =? 95)%N && negb (is_digit c) then None
           else option_map (cons c) (strip_underscores c s')
  end.

Fixpoint span_digits (s : str) : str * str :=
  match s with
  | c :: s' =>
      if is_digit c
      then let (d, r) := span_digits s' in (c :: d, r)
      else ([], s)
  | [] => ([], [])
  end.

Definition N_of_digits (d : str) : N :=
  fold_left (fun acc c => (acc * 10 + (c - 48))%N) d 0%N.

Definition parse_sign (s : str) : bool * str :=
  match s with
  | 45%N :: s' => (true, s')
  | 43%N :: s' => (false, s')
  | _ => (false, s)
  end.

(** The exponent part [(e|E)[sign]digits]; anything else after the
    mantissa is trailing garbage. *)
Definition parse_exponent (s : str) : option Z :=
  match s with
  | [] => Some 0
  | c :: s' =>
      if (ascii_lower c =? 101)%N
      then let (neg, s'') := parse_sign s' in
           let (d, rest) := span_digits s'' in
           match d, rest with
           | _ :: _, [] =>
               Some (if neg then - Z.of_N (N_of_digits d)
                     else Z.of_N (N_of_digits d))
           | _, _ => None
           end
      else None
  end.

(** The code point of the digit zero of every decimal-digit script
    outside ASCII (Unicode 14.0, the database of CPython 3.11); the ten
    digits of a script are consecutive. *)
Definition unicode_decimal_zeros : list N :=
  [1632; 1776; 1984; 2406; 2534; 2662; 2790; 2918; 3046; 3174; 3302; 3430;
   3558; 3664; 3792; 3872; 4160; 4240; 6112; 6160; 6470; 6608; 6784; 6800;
   6992; 7088; 7232; 7248; 42528; 43216; 43264; 43472; 43504; 43600; 44016;
   65296; 66720; 68912; 69734; 69872; 69942; 70096; 70384; 70736; 70864;
   71248; 71360; 71472; 71904; 72016; 72784; 73040; 73120; 92768; 92864;
   93008; 120782; 120792; 120802; 120812; 120822; 123200; 123632; 125264;
   130032]%N.

(** [Py_UNICODE_TODECIMAL] on a character outside ASCII. *)
Definition unicode_decimal (c : char) : option N :=
  match List.find (fun z => (z <=? c) && (c <? z + 10))%N unicode_decimal_zeros with
  | Some z => Some (c - z)%N
  | None => None
  end.

(** White space outside ASCII. *)
Definition is_unicode_space (c : char) : bool :=
  (127 <=? c)%N && is_space c.

(** What [float()] first does to a string: a character below 127 is
    kept, white space outside ASCII becomes a space, a decimal digit
    outside ASCII becomes the ASCII digit, and any other character makes
    the conversion fail. *)
Fixpoint transform_decimal_and_space (s : str) : option str :=
  match s with
  | [] => Some []
  | c :: s' =>
      c' ← (if (c <? 127)%N then Some c
            else if is_unicode_space c then Some 32%N
            else option_map (fun d => (48 + d)%N) (unicode_decimal c));
      option_map (cons c') (transform_decimal_and_space s')
  end.

(** [float(s)] for a string: after the transformation above, surrounding
    ASCII white space, an optional sign, then [inf], [infinity], [nan]
    (any case) or a decimal literal with optional fraction and
    exponent. *)
Definition float_of_str (s : str) : result float :=
  match transform_decimal_and_space s with
  | None => Raise ValueError
  | Some ascii =>
  match strip_underscores 0%N (strip ascii) with
  | None => Raise ValueError
  | Some t =>
      let (neg, body) := parse_sign t in
      let low := List.map ascii_lower body in
      if str_eqb low (lit "inf") || str_eqb low (lit "infinity")
      then Ok (if neg then neg_infinity else infinity)
      else if str_eqb low (lit "nan") then Ok nan
      else
        let (ip, r1) := span_digits body in
        let '(fp, r2) :=
          match r1 with
          | 46%N :: r => span_digits r
          | _ => ([], r1)
          end in
        match ip ++ fp with
        | [] => Raise ValueError
        | ds =>
            match parse_exponent r2 with
            | None => Raise ValueError
            | Some e =>
                Ok (float_of_decimal neg (N_of_digits ds)
                      (e - Z.of_nat (List.length fp)))
            end
        end
  end
  end.

(** [int(f)]: truncation toward zero. *)
Definition int_of_float (f : float) : result Z :=
  match Prim2SF f with
  | S754_zero _ => Ok 0
  | S754_infinity _ => Raise OverflowError
  | S754_nan => Raise ValueError
  | S754_finite s m e =>
      let v := if 0 <=? e then Zpos m * 2 ^ e else Zpos m / 2 ^ (- e) in
      Ok (if s then - v else v)
  end.

(** [round(f)]: the nearest integer, ties to even. *)
Definition round_float (f : float) : result Z :=
  match Prim2SF f with
  | S754_zero _ => Ok 0
  | S754_infinity _ => Raise OverflowError
  | S754_nan => Raise ValueError
  | S754_finite s m e =>
      let v :=
        if 0 <=? e then Zpos m * 2 ^ e
        else
          let q := Zpos m / 2 ^ (- e) in
          let r := Zpos m mod 2 ^ (- e) in
          if 2 ^ (- e) <? 2 * r then q + 1
          else if (2 ^ (- e) =? 2 * r) && Z.odd q then q + 1
          else q in
      Ok (if s then - v else v)
  end.

(** ** Timestamps: [datetime.datetime] *)

(** [tzinfo] is the UTC offset in microseconds of an aware value, [None]
    for a naive one. *)
Record datetime := Datetime {
  year : Z; month : Z; day : Z;
  hour : Z; minute : Z; second : Z; microsecond : Z;
  tzinfo : option Z
}.

Definition is_leap (y : Z) : bool :=
  (y mod 4 =? 0) && (negb (y mod 100 =? 0) || (y mod 400 =? 0)).

Definition days_in_month (y m : Z) : Z :=
  if (m =? 2) && is_leap y then 29
  else nth (Z.to_nat m) [0; 31; 28; 31; 30; 31; 30; 31; 31; 30; 31; 30; 31] 0.

Definition days_before_year (y : Z) : Z :=
  let y' := y - 1 in y' * 365 + y' / 4 - y' / 100 + y' / 400.

Definition days_before_month (y m : Z) : Z :=
  nth (Z.to_nat m) [0; 0; 31; 59; 90; 120; 151; 181; 212; 243; 273; 304; 334] 0
  + (if (2 <? m) && is_leap y then 1 else 0).

Definition ymd2ord (y m d : Z) : Z :=
  days_before_year y + days_before_month y m + d.

Definition check_date_fields (y m d : Z) : bool :=
  (1 <=? y) && (y <=? 9999) && (1 <=? m) && (m <=? 12) &&
  (1 <=? d) && (d <=? days_in_month y m).

Definition check_time_fields (h mi s us : Z) : bool :=
  (0 <=? h) && (h <=? 23) && (0 <=? mi) && (mi <=? 59) &&
  (0 <=? s) && (s <=? 59) && (0 <=? us) && (us <=? 999999).

Definition us_per_day : Z := 86400000000.

(** The constructor: range checks on every field and on the offset. *)
Definition new_datetime (y m d h mi s us : Z) (tz : option Z)
  : result datetime :=
  if check_date_fields y m d && check_time_fields h mi s us &&
     match tz with
     | Some off => (- us_per_day <? off) && (off <? us_per_day)
     | None => true
     end
  then Ok (Datetime y m d h mi s us tz)
  else Raise ValueError.

(** Wall-clock microseconds since the start of the proleptic calendar. *)
Definition wall_us (dt : datetime) : Z :=
  (((ymd2ord (year dt) (month dt) (day dt) * 24 + hour dt) * 60
    + minute dt) * 60 + second dt) * 1000000 + microsecond dt.

(** [a - b] as a [timedelta], in microseconds. *)
Definition dt_sub (a b : datetime) : result Z :=
  match tzinfo a, tzinfo b with
  | Some oa, Some ob => Ok ((wall_us a - oa) - (wall_us b - ob))
  | None, None => Ok (wall_us a - wall_us b)
  | _, _ => Raise TypeError
  end.

(** [timedelta.days] *)
Definition timedelta_days (us : Z) : Z := us / us_per_day.

(** [a >= b] *)
Definition dt_ge (a b : datetime) : result bool :=
  bind (dt_sub a b) (fun d => Ok (0 <=? d)).

(** [dt.replace(day=d)] *)
Definition replace_day (dt : datetime) (d : Z) : result datetime :=
  new_datetime (year dt) (month dt) d (hour dt) (minute dt) (second dt)
    (microsecond dt) (tzinfo dt).

(** [dt.replace(hour=0, minute=0, second=0, microsecond=0)] *)
Definition replace_midnight (dt : datetime) : datetime :=
  Datetime (year dt) (month dt) (day dt) 0 0 0 0 (tzinfo dt).

(** *** [datetime.fromisoformat] (CPython 3.11)

    The parser of [_datetimemodule.c], which reads the UTF-8 bytes of
    the string up to the zero byte that ends them.  Besides the output
    of [isoformat] it accepts the basic format, ISO week dates, any
    number of fraction digits, a comma as decimal mark, and a trailing
    [Z]; it does not check everything it skips. *)

(** Byte [i] of the C string: zero from the end on. *)
Definition byte_at (bs : list Z) (i : nat) : Z := nth i bs 0.

Definition is_digit_byte (c : Z) : bool := (48 <=? c) && (c <=? 57).

(** [parse_digits]: [n] digits from position [p], pushed onto [acc]. *)
Fixpoint parse_digits (bs : list Z) (n : nat) (p : nat) (acc : Z)
  : option (Z * nat) :=
  match n with
  | O => Some (acc, p)
  | S n' =>
      let c := byte_at bs p in
      if is_digit_byte c then parse_digits bs n' (S p) (acc * 10 + (c - 48))
      else None
  end.

(** The first position from [p] on whose byte is not a digit. *)
Fixpoint skip_digits (bs : list Z) (fuel : nat) (p : nat) : nat :=
  match fuel with
  | O => p
  | S fuel' =>
      if is_digit_byte (byte_at bs p) then skip_digits bs fuel' (S p) else p
  end.

(** [_find_isoformat_datetime_separator]: where the date ends, [None]
    for the answer -1. *)
Definition find_isoformat_datetime_separator (bs : list Z) : option nat :=
  let len := List.length bs in
  if (len =? 7)%nat then Some 7%nat
  else if byte_at bs 4 =? 45 then
    if byte_at bs 5 =? 87 then
      if (len <? 8)%nat then None
      else if (8 <? len)%nat && (byte_at bs 8 =? 45) then
        if (len =? 9)%nat then None
        else if (10 <? len)%nat && is_digit_byte (byte_at bs 10) then Some 8%nat
        else Some 10%nat
      else Some 8%nat
    else Some 10%nat
  else if byte_at bs 4 =? 87 then
    let idx := skip_digits bs len 7 in
    if (idx <? 9)%nat then Some idx
    else if Nat.even idx then Some 7%nat
    else Some 8%nat
  else Some 8%nat.

(** [ord_to_ymd], for a positive ordinal. *)
Definition ord_to_ymd (ordinal : Z) : Z * Z * Z :=
  let o := ordinal - 1 in
  let n400 := o / 146097 in
  let n := o mod 146097 in
  let n100 := n / 36524 in
  let n := n mod 36524 in
  let n4 := n / 1461 in
  let n := n mod 1461 in
  let n1 := n / 365 in
  let n := n mod 365 in
  let y := n400 * 400 + 1 + n100 * 100 + n4 * 4 + n1 in
  if (n1 =? 4) || (n100 =? 4) then (y - 1, 12, 31)
  else
    let leapyear := (n1 =? 3) && (negb (n4 =? 24) || (n100 =? 3)) in
    let before (m : Z) :=
      nth (Z.to_nat m) [0; 0; 31; 59; 90; 120; 151; 181; 212; 243; 273; 304; 334] 0
      + (if (2 <? m) && leapyear then 1 else 0) in
    let m := Z.shiftr (n + 50) 5 in
    if n <? before m
    then (y, m - 1, n - (before m - days_in_month y (m - 1)) + 1)
    else (y, m, n - before m + 1).

(** [iso_to_ymd]: the date of day [iso_day] of week [iso_week] of an ISO
    year.  For the ISO year 0 the C arithmetic ends on a month below 1,
    which the constructor refuses: that case is given as a failure. *)
Definition iso_to_ymd (iso_year iso_week iso_day : Z) : option (Z * Z * Z) :=
  let first_day := ymd2ord iso_year 1 1 in
  let first_weekday := (first_day + 6) mod 7 in
  if (iso_year =? 0) then None
  else if ((iso_week <=? 0) || (53 <=? iso_week)) &&
          negb ((iso_week =? 53) &&
                ((first_weekday =? 3) ||
                 (first_weekday =? 2) && is_leap iso_year))
  then None
  else if (iso_day <=? 0) || (8 <=? iso_day) then None
  else
    let week1_monday :=
      first_day - first_weekday + (if 3 <? first_weekday then 7 else 0) in
    Some (ord_to_ymd (week1_monday + (iso_week - 1) * 7 + iso_day - 1)).

(** [parse_isoformat_date], on the bytes before position [len]. *)
Definition parse_isoformat_date (bs : list Z) (len : nat)
  : option (Z * Z * Z) :=
  '(y, p) ← parse_digits bs 4 0 0;
  let uses_separator := byte_at bs p =? 45 in
  let p := if uses_separator then S p else p in
  if byte_at bs p =? 87 then
    '(iso_week, p) ← parse_digits bs 2 (S p) 0;
    if (p <? len)%nat then
      if uses_separator && negb (byte_at bs p =? 45) then None
      else
        let p := if uses_separator then S p else p in
        '(iso_day, _) ← parse_digits bs 1 p 0;
        iso_to_ymd y iso_week iso_day
    else iso_to_ymd y iso_week 1
  else
    '(m, p) ← parse_digits bs 2 p 0;
    if uses_separator && negb (byte_at bs p =? 45) then None
    else
      let p := if uses_separator then S p else p in
      '(d, _) ← parse_digits bs 2 p 0;
      Some (y, m, d).

(** The fraction of [parse_hh_mm_ss_ff], from position [p]: at most six
    digits are read, further digits are skipped.  The flag tells
    whether a non-zero byte follows. *)
Definition parse_fraction (bs : list Z) (p p_end : nat) : option (Z * bool) :=
  let len_remains := (p_end - p)%nat in
  let to_parse := Nat.min len_remains 6 in
  '(us, p') ← parse_digits bs to_parse p 0;
  let us := us * 10 ^ Z.of_nat (6 - to_parse) in
  let p'' := skip_digits bs (List.length bs) p' in
  Some (us, negb (byte_at bs p'' =? 0)).

(** One turn of the loop of [parse_hh_mm_ss_ff] after the first: two
    digits, then the byte that decides how to go on. *)
Inductive hms_step :=
| HmsDone (v : Z) (more : bool)
| HmsNext (v : Z) (p : nat)
| HmsFraction (v : Z) (p : nat).

Definition parse_hms_field (bs : list Z) (has_separator : bool)
  (p p_end : nat) : option hms_step :=
  '(v, p) ← parse_digits bs 2 p 0;
  let c := byte_at bs p in
  if (p_end <=? S p)%nat then Some (HmsDone v (negb (c =? 0)))
  else if has_separator && (c =? 58) then Some (HmsNext v (S p))
  else if (c =? 46) || (c =? 44) then Some (HmsFraction v (S p))
  else if negb has_separator then Some (HmsNext v p)
  else None.

(** [parse_hh_mm_ss_ff] on the bytes from [tstr] to [p_end]: hour,
    minute, second, microsecond, and whether a non-zero byte follows
    what was read. *)
Definition parse_hh_mm_ss_ff (bs : list Z) (tstr p_end : nat)
  : option (Z * Z * Z * Z * bool) :=
  let has_separator :=
    match parse_digits bs 2 tstr 0 with
    | Some (_, p) => byte_at bs p =? 58
    | None => false
    end in
  let fraction (h mi sec : Z) (p : nat) :=
    '(us, more) ← parse_fraction bs p p_end; Some (h, mi, sec, us, more) in
  s1 ← parse_hms_field bs has_separator tstr p_end;
  match s1 with
  | HmsDone h more => Some (h, 0, 0, 0, more)
  | HmsFraction h p => fraction h 0 0 p
  | HmsNext h p =>
      s2 ← parse_hms_field bs has_separator p p_end;
      match s2 with
      | HmsDone mi more => Some (h, mi, 0, 0, more)
      | HmsFraction mi p => fraction h mi 0 p
      | HmsNext mi p =>
          s3 ← parse_hms_field bs has_separator p p_end;
          match s3 with
          | HmsDone sec more => Some (h, mi, sec, 0, more)
          | HmsFraction sec p | HmsNext sec p => fraction h mi sec p
          end
      end
  end.

(** The first position in [p, p_end) holding [Z], [+] or [-]; [p_end]
    when there is none. *)
Fixpoint find_tzinfo (bs : list Z) (fuel : nat) (p p_end : nat) : nat :=
  match fuel with
  | O => p_end
  | S fuel' =>
      if (p_end <=? p)%nat then p_end
      else
        let c := byte_at bs p in
        if (c =? 90) || (c =? 43) || (c =? 45) then p
        else find_tzinfo bs fuel' (S p) p_end
  end.

(** [parse_isoformat_time] on the bytes from [p] to the end, at least
    one: the time of day and the UTC offset in microseconds, if any. *)
Definition parse_isoformat_time (bs : list Z) (p : nat)
  : option (Z * Z * Z * Z * option Z) :=
  let p_end := List.length bs in
  let tzinfo_pos := find_tzinfo bs p_end p p_end in
  match parse_hh_mm_ss_ff bs p tzinfo_pos with
  | None => None
  | Some (h, mi, sec, us, more) =>
      if (tzinfo_pos =? p_end)%nat then
        if more then None else Some (h, mi, sec, us, None)
      else if byte_at bs tzinfo_pos =? 90 then
        if byte_at bs (S tzinfo_pos) =? 0
        then Some (h, mi, sec, us, Some 0)
        else None
      else
        let tzsign := if byte_at bs tzinfo_pos =? 45 then -1 else 1 in
        match parse_hh_mm_ss_ff bs (S tzinfo_pos) p_end with
        | None => None
        | Some (tzh, tzm, tzs, tzus, more) =>
            if more then None
            else
              let tzoffset := tzsign * (tzh * 3600 + tzm * 60 + tzs) in
              Some (h, mi, sec, us,
                    Some (if tzoffset =? 0 then 0
                          else tzoffset * 1000000 + tzsign * tzus))
        end
  end.

(** [s.encode()]: UTF-8, strict; a surrogate cannot be encoded. *)
Definition utf8_char (c : char) : result (list Z) :=
  let z := Z.of_N c in
  if z <? 128 then Ok [z]
  else if z <? 2048 then Ok [192 + z / 64; 128 + z mod 64]
  else if is_surrogate c then Raise UnicodeEncodeError
  else if z <? 65536
       then Ok [224 + z / 4096; 128 + (z / 64) mod 64; 128 + z mod 64]
  else if z <? 1114112
       then Ok [240 + z / 262144; 128 + (z / 4096) mod 64;
                128 + (z / 64) mod 64; 128 + z mod 64]
  else Raise UnicodeEncodeError.

(** [_sanitize_isoformat_str]: a surrogate at position 7, 8 or 10, the
    first of them, is read as [T]. *)
Definition sanitize_isoformat_str (s : str) : str :=
  let surrogate_at (pos : nat) :=
    match nth_error s pos with
    | Some c => is_surrogate c
    | None => false
    end in
  let put (pos : nat) := firstn pos s ++ 84%N :: skipn (S pos) s in
  if surrogate_at 7%nat then put 7%nat
  else if surrogate_at 8%nat then put 8%nat
  else if surrogate_at 10%nat then put 10%nat
  else s.

(** The length in bytes of the character that starts with byte [b]. *)
Definition utf8_width (b : Z) : nat :=
  if Z.land b 128 =? 0 then 1%nat
  else if Z.land b 240 =? 224 then 3%nat
  else if Z.land b 240 =? 240 then 4%nat
  else 2%nat.

Definition encode (s : str) : result (list Z) :=
  bind (traverse utf8_char s) (fun bs => Ok (List.concat bs)).

Definition fromisoformat (s : str) : result datetime :=
  if (List.length s <? 7)%nat then Raise ValueError
  else
    match encode (sanitize_isoformat_str s) with
    | Raise _ => Raise ValueError
    | Ok bs =>
        match find_isoformat_datetime_separator bs with
        | None => Raise ValueError
        | Some separator_location =>
            match parse_isoformat_date bs separator_location with
            | None => Raise ValueError
            | Some (y, m, d) =>
                if (separator_location <? List.length bs)%nat then
                  let p :=
                    (separator_location +
                     utf8_width (byte_at bs separator_location))%nat in
                  match parse_isoformat_time bs p with
                  | None => Raise ValueError
                  | Some (h, mi, sec, us, tz) => new_datetime y m d h mi sec us tz
                  end
                else new_datetime y m d 0 0 0 0 None
            end
        end
    end.
(** *** Formatting *)

(** [dt.strftime('%Y-%m-%d')], the year printed with four digits. *)
Definition strftime_date (dt : datetime) : str :=
  pad0 4 (year dt) ++ lit "-" ++ pad0 2 (month dt) ++ lit "-" ++ pad0 2 (day dt).

(** [dt.strftime('%H:%M:%S')] *)
Definition strftime_time (dt : datetime) : str :=
  pad0 2 (hour dt) ++ lit ":" ++ pad0 2 (minute dt) ++ lit ":" ++
  pad0 2 (second dt).

Definition format_offset (off : Z) : str :=
  let a := Z.abs off in
  let secs := a / 1000000 in
  let us := a mod 1000000 in
  (if off <? 0 then lit "-" else lit "+") ++
  pad0 2 (secs / 3600) ++ lit ":" ++ pad0 2 ((secs / 60) mod 60) ++
  (if (secs mod 60 =? 0) && (us =? 0) then []
   else lit ":" ++ pad0 2 (secs mod 60) ++
        (if us =? 0 then [] else lit "." ++ pad0 6 us)).

(** [dt.isoformat(sep)] *)
Definition isoformat_sep (sep : str) (dt : datetime) : str :=
  strftime_date dt ++ sep ++ strftime_time dt ++
  (if microsecond dt =? 0 then [] else lit "." ++ pad0 6 (microsecond dt)) ++
  match tzinfo dt with
  | Some off => format_offset off
  | None => []
  end.

Definition isoformat (dt : datetime) : str := isoformat_sep (lit "T") dt.

Definition month_name (m : Z) : str :=
  nth (Z.to_nat m)
    [[]; lit "January"; lit "February"; lit "March"; lit "April"; lit "May";
     lit "June"; lit "July"; lit "August"; lit "September"; lit "October";
     lit "November"; lit "December"] [].

(** [dt.strftime('%B %d, %Y')] *)
Definition strftime_long (dt : datetime) : str :=
  month_name (month dt) ++ lit " " ++ pad0 2 (day dt) ++ lit ", " ++
  pad0 4 (year dt).

(** [dt.weekday()]: Monday is 0. *)
Definition weekday (dt : datetime) : Z :=
  (ymd2ord (year dt) (month dt) (day dt) + 6) mod 7.

(** The offset as [%z] prints it: [+HHMM], then the seconds and the
    microseconds when they are not zero. *)
Definition format_offset_basic (off : Z) : str :=
  let a := Z.abs off in
  let secs := a / 1000000 in
  let us := a mod 1000000 in
  (if off <? 0 then lit "-" else lit "+") ++
  pad0 2 (secs / 3600) ++ pad0 2 ((secs / 60) mod 60) ++
  (if (secs mod 60 =? 0) && (us =? 0) then []
   else pad0 2 (secs mod 60) ++
        (if us =? 0 then [] else lit "." ++ pad0 6 us)).

(** [dt.strftime('%a, %d %b %Y %H:%M:%S %z')] in the C locale, the year
    printed with four digits; [%z] is empty for a naive value. *)
Definition strftime_rfc822 (dt : datetime) : str :=
  nth (Z.to_nat (weekday dt))
    [lit "Mon"; lit "Tue"; lit "Wed"; lit "Thu"; lit "Fri"; lit "Sat"; lit "Sun"]
    [] ++ lit ", " ++ pad0 2 (day dt) ++ lit " " ++
  firstn 3 (month_name (month dt)) ++ lit " " ++ pad0 4 (year dt) ++ lit " " ++
  strftime_time dt ++ lit " " ++
  match tzinfo dt with
  | Some off => format_offset_basic off
  | None => []
  end.

(** ** Attribute values *)

Inductive value :=
| VNone
| VBool (b : bool)
| VStr (s : str)
| VNum (d : decimal)
| VDatetime (dt : datetime).

(** A record as fetched: a dictionary of scalar attributes. *)
Abbreviation dict := (gmap string value).

(** [d.get(k, default)] *)
Definition get (d : dict) (k : string) (default : value) : value :=
  match d !! k with
  | Some v => v
  | None => default
  end.

(** [bool(v)] *)
Definition truthy (v : value) : bool :=
  match v with
  | VNone => false
  | VBool b => b
  | VStr s => match s with [] => false | _ => true end
  | VNum d => negb (dec_coeff d =? 0)%N
  | VDatetime _ => true
  end.

(** [str(v)], also what an f-string interpolates. *)
Definition py_str (v : value) : str :=
  match v with
  | VNone => lit "None"
  | VBool true => lit "True"
  | VBool false => lit "False"
  | VStr s => s
  | VNum d => decimal_str d
  | VDatetime dt => isoformat_sep (lit " ") dt
  end.

(** [float(v)] *)
Definition py_float (v : value) : result float :=
  match v with
  | VNone => Raise TypeError
  | VBool b => Ok (if b then one else zero)
  | VStr s => float_of_str s
  | VNum d => Ok (float_of_decimal (dec_neg d) (dec_coeff d) (dec_exp d))
  | VDatetime _ => Raise TypeError
  end.

(** [needle in v] for a string [needle]: defined on strings only. *)
Definition py_in (needle : str) (v : value) : result bool :=
  match v with
  | VStr s => Ok (contains needle s)
  | _ => Raise TypeError
  end.

(** [fromisoformat(v.replace('Z', '+00:00'))] when [v] is a string, [v]
    itself when it is a timestamp; any other value fails at the first
    timestamp operation applied to it. *)
Definition as_datetime (v : value) : result datetime :=
  match v with
  | VStr s => fromisoformat (replace1 90%N (lit "+00:00") s)
  | VDatetime dt => Ok dt
  | _ => Raise AttributeError
  end.

(** [datetime.now(timezone.utc)]: the clock reading, made aware. *)
Definition now_utc (clock : datetime) : datetime :=
  Datetime (year clock) (month clock) (day clock) (hour clock)
    (minute clock) (second clock) (microsecond clock) (Some 0).

(** ** XML documents

    The feeds and sitemaps are element trees, serialised by [tostring]
    and re-read by [minidom.parseString].  A truthy text must be a
    string, else serialising raises (a falsy text is not written); the
    string must encode, and its characters must be legal XML 1.0
    characters, else re-reading raises. *)

Definition is_str (v : value) : bool :=
  match v with VStr _ => true | _ => false end.

Definition xml_char_ok (c : char) : bool :=
  ((c =? 9) || (c =? 10) || (c =? 13) ||
   (32 <=? c) && (c <=? 55295) || (57344 <=? c) && (c <=? 65533) ||
   (65536 <=? c) && (c <=? 1114111))%N.

Definition serialisable (v : value) : bool :=
  negb (truthy v) || is_str v.

Definition encodable (v : value) : bool :=
  match v with
  | VStr s => negb (existsb is_surrogate s)
  | _ => true
  end.

Definition well_formed (v : value) : bool :=
  match v with
  | VStr s => forallb xml_char_ok s
  | _ => true
  end.

Definition prettify_xml (texts : list value) : result unit :=
  if negb (forallb serialisable texts) then Raise TypeError
  else if negb (forallb encodable texts) then Raise UnicodeEncodeError
  else if negb (forallb well_formed texts) then Raise ExpatError
  else Ok tt.

(** *** Namespaces and attributes

    A tag written [{uri}name] is serialised with a prefix, and the root
    element is given one [xmlns:prefix] attribute per namespace met in
    the tree, in document order: the prefix registered for the URI, or
    [ns<i>] when it is the [i]-th namespace and none is registered.
    These attributes come on top of those set on the root.  An
    attribute value must be a string, falsy or not, and the re-reader
    refuses an element that has two attributes of one name. *)

(** [ElementTree._namespace_map] *)
Definition registered_namespaces : list (str * str) :=
  [(lit "http://www.w3.org/XML/1998/namespace", lit "xml");
   (lit "http://www.w3.org/1999/xhtml", lit "html");
   (lit "http://www.w3.org/1999/02/22-rdf-syntax-ns#", lit "rdf");
   (lit "http://schemas.xmlsoap.org/wsdl/", lit "wsdl");
   (lit "http://www.w3.org/2001/XMLSchema", lit "xs");
   (lit "http://www.w3.org/2001/XMLSchema-instance", lit "xsi");
   (lit "http://purl.org/dc/elements/1.1/", lit "dc")].

Definition lookup_str (k : str) (l : list (str * str)) : option str :=
  match List.find (fun e => str_eqb (fst e) k) l with
  | Some e => Some (snd e)
  | None => None
  end.

(** The prefixes [tostring] gives the namespaces [uris], met in this
    order, on top of those in [seen]. *)
Fixpoint assign_prefixes (seen : list (str * str)) (uris : list str)
  : list (str * str) :=
  match uris with
  | [] => seen
  | uri :: rest =>
      match lookup_str uri seen with
      | Some _ => assign_prefixes seen rest
      | None =>
          let prefix :=
            match lookup_str uri registered_namespaces with
            | Some p => p
            | None => lit "ns" ++ digits_of_N (N.of_nat (List.length seen))
            end in
          if str_eqb prefix (lit "xml") then assign_prefixes seen rest
          else assign_prefixes (seen ++ [(uri, prefix)]) rest
      end
  end.

(** The names of the attributes of the serialised root. *)
Definition root_attribute_names (set_on_root : list str) (uris : list str)
  : list str :=
  List.map (fun e => lit "xmlns:" ++ snd e) (assign_prefixes [] uris) ++
  set_on_root.

Fixpoint duplicate_free (names : list str) : bool :=
  match names with
  | [] => true
  | n :: rest => negb (existsb (str_eqb n) rest) && duplicate_free rest
  end.

(** [tostring] then [minidom.parseString] on a tree given by the
    attribute names set on its root, the namespaces of its tags, its
    attribute values and its texts. *)
Definition prettify_document (set_on_root : list str) (uris : list str)
  (attribute_values texts : list value) : result unit :=
  if negb (forallb is_str attribute_values && forallb serialisable texts)
  then Raise TypeError
  else if negb (forallb encodable (attribute_values ++ texts))
  then Raise UnicodeEncodeError
  else if negb (duplicate_free (root_attribute_names set_on_root uris) &&
                forallb well_formed (attribute_values ++ texts))
  then Raise ExpatError
  else Ok tt.

End Py.

(* ===================================================================== *)
(** * Hashing: [str.encode()] and [hashlib.md5] *)
(* ===================================================================== *)

Module Md5.
Import Py.

(** [s.encode()], the input of the digest. *)
Definition utf8_char (c : char) : result (list Z) := Py.utf8_char c.
Definition encode (s : str) : result (list Z) := Py.encode s.

(** ** MD5 (RFC 1321) on a list of bytes *)

Definition add32 (x y : Z) : Z := (x + y) mod 2 ^ 32.
Definition not32 (x : Z) : Z := 2 ^ 32 - 1 - x.
Definition rotl32 (x c : Z) : Z :=
  Z.lor (Z.shiftl x c mod 2 ^ 32) (Z.shiftr x (32 - c)).

Definition K : list Z :=
  [3614090360; 3905402710; 606105819; 3250441966; 4118548399; 1200080426;
   2821735955; 4249261313; 1770035416; 2336552879; 4294925233; 2304563134;
   1804603682; 4254626195; 2792965006; 1236535329; 4129170786; 3225465664;
   643717713; 3921069994; 3593408605; 38016083; 3634488961; 3889429448;
   568446438; 3275163606; 4107603335; 1163531501; 2850285829; 4243563512;
   1735328473; 2368359562; 4294588738; 2272392833; 1839030562; 4259657740;
   2763975236; 1272893353; 4139469664; 3200236656; 681279174; 3936430074;
   3572445317; 76029189; 3654602809; 3873151461; 530742520; 3299628645;
   4096336452; 1126891415; 2878612391; 4237533241; 1700485571; 2399980690;
   4293915773; 2240044497; 1873313359; 4264355552; 2734768916; 1309151649;
   4149444226; 3174756917; 718787259; 3951481745].

Definition shifts : list Z :=
  [7; 12; 17; 22; 7; 12; 17; 22; 7; 12; 17; 22; 7; 12; 17; 22;
   5; 9; 14; 20; 5; 9; 14; 20; 5; 9; 14; 20; 5; 9; 14; 20;
   4; 11; 16; 23; 4; 11; 16; 23; 4; 11; 16; 23; 4; 11; 16; 23;
   6; 10; 15; 21; 6; 10; 15; 21; 6; 10; 15; 21; 6; 10; 15; 21].

Definition state : Type := Z * Z * Z * Z.

Definition step (M : list Z) (st : state) (i : nat) : state :=
  let '(a, b, c, d) := st in
  let iz := Z.of_nat i in
  let '(f, g) :=
    if iz <? 16 then (Z.lor (Z.land b c) (Z.land (not32 b) d), iz)
    else if iz <? 32
         then (Z.lor (Z.land d b) (Z.land (not32 d) c), (5 * iz + 1) mod 16)
    else if iz <? 48 then (Z.lxor (Z.lxor b c) d, (3 * iz + 5) mod 16)
    else (Z.lxor c (Z.lor b (not32 d)), (7 * iz) mod 16) in
  let f' := add32 (add32 (add32 f a) (nth i K 0)) (nth (Z.to_nat g) M 0) in
  (d, add32 b (rotl32 f' (nth i shifts 0)), b, c).

(** Little-endian bytes of a word, and back. *)
Fixpoint le_bytes (n : nat) (x : Z) : list Z :=
  match n with
  | O => []
  | S n' => x mod 256 :: le_bytes n' (x / 256)
  end.

Fixpoint le_word (bs : list Z) : Z :=
  match bs with
  | [] => 0
  | b :: bs' => b + 256 * le_word bs'
  end.

Fixpoint words (n : nat) (bs : list Z) : list Z :=
  match n with
  | O => []
  | S n' => le_word (firstn 4 bs) :: words n' (skipn 4 bs)
  end.

Definition process_block (st : state) (block : list Z) : state :=
  let M := words 16 block in
  let '(a, b, c, d) := fold_left (step M) (seq 0 64) st in
  let '(a0, b0, c0, d0) := st in
  (add32 a0 a, add32 b0 b, add32 c0 c, add32 d0 d).

Fixpoint blocks (n : nat) (bs : list Z) : list (list Z) :=
  match n with
  | O => []
  | S n' => firstn 64 bs :: blocks n' (skipn 64 bs)
  end.

Definition pad (msg : list Z) : list Z :=
  let len := Z.of_nat (List.length msg) in
  msg ++ [128] ++ List.repeat 0 (Z.to_nat ((55 - len) mod 64)) ++
  le_bytes 8 (8 * len).

Definition init : state := (1732584193, 4023233417, 2562383102, 271733878).

Definition digest (msg : list Z) : list Z :=
  let padded := pad msg in
  let '(a, b, c, d) :=
    fold_left process_block (blocks (List.length padded / 64) padded) init in
  le_bytes 4 a ++ le_bytes 4 b ++ le_bytes 4 c ++ le_bytes 4 d.

Definition hex_digit (x : Z) : char :=
  if x <? 10 then Z.to_N (48 + x) else Z.to_N (87 + x).

Definition hex_byte (b : Z) : str := [hex_digit (b / 16); hex_digit (b mod 16)].

(** A character among [0-9a-f]. *)
Definition is_hex_digit (c : char) : bool :=
  ((48 <=? c) && (c <=? 57) || (97 <=? c) && (c <=? 102))%N.

(** [hashlib.md5(bytes).hexdigest()] *)
Definition hexdigest (msg : list Z) : str := List.flat_map hex_byte (digest msg).

End Md5.

(* ===================================================================== *)
(** * Post and product records *)
(* ===================================================================== *)

Module Records.
Import Py.

(** [tags] / [keywords]: a sequence of strings, or one string. *)
Inductive tagsv :=
| TagList (l : list str)
| TagStr (s : str).

(** A post: its scalar attributes, and the structured ones the renderers
    read ([tags], [keywords], [author], [affiliate_products], [products]).
    A product is a dictionary of scalar attributes. *)
Record post := Post {
  attrs : dict;
  tags : option tagsv;
  keywords : option tagsv;
  author : option dict;
  affiliate_products : option (list dict);
  products : option (list dict)
}.

Definition post_of (d : dict) : post := Post d None None None None None.

(** The four blog categories, the keys of every [BLOG_CONFIGS] table. *)
Inductive category := Sneaker | Shoes | Workwear | Music.

Definition category_key (c : category) : str :=
  match c with
  | Sneaker => lit "sneaker"
  | Shoes => lit "shoes"
  | Workwear => lit "workwear"
  | Music => lit "music"
  end.

Definition all_categories : list category := [Sneaker; Shoes; Workwear; Music].

(** [key in BLOG_CONFIGS] *)
Definition category_of_key (k : str) : option category :=
  List.find (fun c => str_eqb (category_key c) k) all_categories.

End Records.

(* ===================================================================== *)
(** * html_generator.py *)
(* ===================================================================== *)

Module HtmlGenerator.
Import Py Records.

Definition default_DOMAIN : str := lit "https://shoeswiper.com".
Definition default_AFFILIATE_TAG : str := lit "shoeswiper-20".

Record config := Config {
  cfg_name : str; cfg_description : str; cfg_path : str;
  cfg_color : str; cfg_icon : str
}.

Definition BLOG_CONFIGS (c : category) : config :=
  match c with
  | Sneaker => Config (lit "Sneaker Blog")
      (lit "Latest sneaker news, releases, and reviews")
      (lit "blog/sneaker") (lit "#FF6B35") [128095%N]
  | Shoes => Config (lit "Shoe Blog")
      (lit "Comprehensive shoe guides and fashion tips")
      (lit "blog/shoes") (lit "#4A90D9") [128094%N]
  | Workwear => Config (lit "Workwear & Boots Blog")
      (lit "Work boots, safety gear, and workwear reviews")
      (lit "blog/workwear") (lit "#8B4513") [129406%N]
  | Music => Config (lit "Music & Artists Blog")
      (lit "Music fashion, artist style, and culture")
      (lit "blog/music") (lit "#9B59B6") [127925%N]
  end.

(** [html.escape(s)], quotes included *)
Definition html_escape (s : str) : str :=
  List.flat_map (fun c =>
    if (c =? 38)%N then lit "&amp;"
    else if (c =? 60)%N then lit "&lt;"
    else if (c =? 62)%N then lit "&gt;"
    else if (c =? 34)%N then lit "&quot;"
    else if (c =? 39)%N then lit "&#x27;"
    else [c]) s.

Definition escape_html (text : value) : str :=
  if negb (truthy text) then []
  else html_escape (py_str text).

(** A character other than [<], [>], the double quote and the single
    quote: one that can neither open or close a tag nor end a quoted
    attribute value. *)
Definition markup_free (c : char) : Prop :=
  c <> 60%N /\ c <> 62%N /\ c <> 34%N /\ c <> 39%N.

Definition star_filled : str := [9733%N].
Definition star_empty : str := [9734%N].

Section Rendering.

(** Process configuration, read from the environment at start-up. *)
Variable DOMAIN : str.
Variable AFFILIATE_TAG : str.

(** ** Affiliate product card *)

(** Lines 223 to 230: the purchase link. *)
Definition affiliate_link (product : dict) : result str :=
  let asin := get product "asin" (VStr []) in
  if truthy asin
  then Ok (lit "https://www.amazon.com/dp/" ++ py_str asin ++
           lit "?tag=" ++ AFFILIATE_TAG)
  else
    let link := get product "affiliate_link" (get product "url" (VStr (lit "#"))) in
    bind (py_in (lit "amazon.com") link) (fun amazon =>
    bind (if amazon
          then bind (py_in AFFILIATE_TAG link) (fun t => Ok (negb t))
          else Ok false) (fun untagged =>
    if untagged
    then bind (py_in (lit "?") link) (fun has_query =>
         let separator := if has_query then lit "&" else lit "?" in
         Ok (py_str link ++ separator ++ lit "tag=" ++ AFFILIATE_TAG))
    else Ok (py_str link))).

(** [float(str(v).replace('$', ''))] *)
Definition price_number (v : value) : result float :=
  float_of_str (replace1 36%N [] (py_str v)).

Definition span (cls : str) (body : str) : str :=
  lit "<span class=" ++ dquote ++ cls ++ dquote ++ lit ">" ++ body ++
  lit "</span>".

(** Lines 235 to 241: the price block. *)
Definition price_html (product : dict) : result str :=
  let price := get product "price" (get product "current_price" (VStr [])) in
  let original_price := get product "original_price" (VStr []) in
  if truthy price then
    let current := span (lit "current-price") (lit "$" ++ py_str price) in
    bind (if truthy original_price
          then bind (price_number original_price) (fun o =>
               bind (price_number price) (fun p => Ok (PrimFloat.ltb p o)))
          else Ok false) (fun cheaper =>
    if cheaper then
      bind (price_number price) (fun p =>
      bind (price_number original_price) (fun o =>
      if PrimFloat.is_zero o then Raise ZeroDivisionError else
      bind (int_of_float
              (PrimFloat.mul (PrimFloat.sub one (PrimFloat.div p o))
                             100%float)) (fun discount =>
      Ok (current ++
          lit " " ++ span (lit "original-price") (lit "$" ++ py_str original_price) ++
          lit " " ++ span (lit "discount-badge")
                       (lit "-" ++ str_of_Z discount ++ lit "%")))))
    else Ok current)
  else Ok [].

(** The stars of the rating block, line 245: [n] filled, then [5 - n]
    empty. *)
Definition stars (n : Z) : result str :=
  bind (str_mul star_filled n) (fun filled =>
  bind (str_mul star_empty (5 - n)) (fun empty =>
  Ok (filled ++ empty))).

Definition rating_block (n : Z) (reviews : value) : result str :=
  bind (stars n) (fun stars =>
  Ok (lit "<div class=" ++ dquote ++ lit "rating" ++ dquote ++ lit ">" ++
      span (lit "stars") stars ++
      (if truthy reviews
       then lit " " ++ span (lit "review-count")
                         (lit "(" ++ py_str reviews ++ lit " reviews)")
       else []) ++
      lit "</div>")).

(** Lines 243 to 249: the rating block. *)
Definition rating_html (product : dict) : result str :=
  let rating := get product "rating" (VStr []) in
  let reviews := get product "review_count" (VStr []) in
  if truthy rating then
    bind (py_float rating) (fun f =>
    bind (int_of_float f) (fun n =>
    rating_block n reviews))
  else Ok [].

(** The values interpolated into the card template. *)
Record card := Card {
  c_link : str; c_asin : str; c_image : str; c_name : str;
  c_rating_html : str; c_price_html : str
}.

Definition indent (n : nat) : str := List.repeat 32%N n.
Definition attr (name : string) (v : str) : str :=
  lit name ++ lit "=" ++ dquote ++ v ++ dquote.

(** The template of lines 251 to 265. *)
Definition render_card (c : card) : str :=
  nl ++ indent 4 ++ lit "<div " ++ attr "class" (lit "affiliate-product-card") ++ lit ">" ++
  nl ++ indent 8 ++ lit "<a " ++ attr "href" (c_link c) ++ lit " " ++
    attr "target" (lit "_blank") ++ lit " " ++
    attr "rel" (lit "nofollow sponsored noopener") ++ lit " " ++
    attr "class" (lit "product-link") ++ lit " " ++
    attr "data-asin" (c_asin c) ++ lit ">" ++
  nl ++ indent 12 ++ lit "<div " ++ attr "class" (lit "product-image") ++ lit ">" ++
  nl ++ indent 16 ++ lit "<img " ++ attr "src" (c_image c) ++ lit " " ++
    attr "alt" (c_name c) ++ lit " " ++ attr "loading" (lit "lazy") ++ lit ">" ++
  nl ++ indent 12 ++ lit "</div>" ++
  nl ++ indent 12 ++ lit "<div " ++ attr "class" (lit "product-info") ++ lit ">" ++
  nl ++ indent 16 ++ lit "<h4 " ++ attr "class" (lit "product-name") ++ lit ">" ++
    c_name c ++ lit "</h4>" ++
  nl ++ indent 16 ++ c_rating_html c ++
  nl ++ indent 16 ++ lit "<div " ++ attr "class" (lit "product-price") ++ lit ">" ++
    c_price_html c ++ lit "</div>" ++
  nl ++ indent 16 ++ lit "<span " ++ attr "class" (lit "buy-button") ++ lit ">" ++
    [128722%N] ++ lit " Buy Now</span>" ++
  nl ++ indent 12 ++ lit "</div>" ++
  nl ++ indent 8 ++ lit "</a>" ++
  nl ++ indent 4 ++ lit "</div>" ++
  nl ++ indent 4.

Definition product_card (product : dict) : result card :=
  let name := escape_html (get product "name" (VStr (lit "Product"))) in
  let image := get product "image_url" (get product "image" (VStr [])) in
  let asin := get product "asin" (VStr []) in
  bind (affiliate_link product) (fun link =>
  bind (price_html product) (fun price =>
  bind (rating_html product) (fun rating =>
  Ok (Card link (py_str asin) (py_str image) name rating price)))).

Definition generate_affiliate_product_html (product : dict) : result str :=
  bind (product_card product) (fun c => Ok (render_card c)).

(** ** Shared helpers *)

(** The display date: ['%B %d, %Y'], or ['Recently'] on any failure. *)
Definition format_display_date (published : value) : str :=
  try_except
    (bind (as_datetime published) (fun dt => Ok (strftime_long dt)))
    (lit "Recently").

Definition post_url (cfg : config) (slug : value) : str :=
  DOMAIN ++ lit "/" ++ cfg_path cfg ++ lit "/" ++ py_str slug.

(** ** Meta tags *)

(** The values interpolated into the head template of lines 83 to 141. *)
Record meta_tags := MetaTags {
  mt_title : str; mt_description : str; mt_image : str; mt_url : str;
  mt_published : str; mt_updated : str; mt_author : str; mt_keywords : str
}.

Definition generate_meta_tags (clock : datetime) (p : post) (cfg : config)
  : meta_tags :=
  let title := escape_html (get (attrs p) "title" (VStr (lit "ShoeSwiper Blog"))) in
  let description :=
    slice_to 160
      (escape_html (get (attrs p) "meta_description"
                      (get (attrs p) "excerpt" (VStr [])))) in
  let image :=
    get (attrs p) "featured_image"
      (get (attrs p) "image_url" (VStr (DOMAIN ++ lit "/og-image.jpg"))) in
  let url := post_url cfg (get (attrs p) "slug" (get (attrs p) "id" VNone)) in
  let published := get (attrs p) "published_at" (VStr (isoformat (now_utc clock))) in
  let author_name :=
    get (default ∅ (author p)) "name" (VStr (lit "ShoeSwiper Team")) in
  let kw :=
    match default (default (TagList []) (tags p)) (keywords p) with
    | TagList l => join (lit ", ") l
    | TagStr s => s
    end in
  MetaTags title description (py_str image) url (py_str published)
    (py_str (get (attrs p) "updated_at" published))
    (escape_html author_name) (escape_html (VStr kw)).

(** ** Article *)

(** The values interpolated into the article template of lines 322 to 354:
    [a_figure] is the alternative text and the caption of the image block,
    present when the featured image is truthy; [a_tags] keeps the text of
    the tag links (their slugs are left out). *)
Record article := Article {
  a_title : str; a_content : str;
  a_author_name : str; a_author_avatar : str;
  a_published : str; a_formatted_date : str; a_reading_time : Z;
  a_featured_image : str; a_figure : option (str * str);
  a_tags : list str; a_products_html : str; a_slug : str
}.

Fixpoint cards_html (l : list dict) : result str :=
  match l with
  | [] => Ok []
  | product :: l' =>
      bind (generate_affiliate_product_html product) (fun c =>
      bind (cards_html l') (fun rest => Ok (c ++ rest)))
  end.

Definition products_html (l : list dict) : result str :=
  match l with
  | [] => Ok []
  | _ =>
      bind (cards_html (firstn 6 l)) (fun cards =>
      Ok (lit "<div class=" ++ dquote ++ lit "affiliate-products" ++ dquote ++
          lit "><h3>Featured Products</h3><div class=" ++ dquote ++
          lit "products-grid" ++ dquote ++ lit ">" ++ cards ++
          lit "</div></div>"))
  end.

Definition generate_article_html (clock : datetime) (p : post) (cfg : config)
  : result article :=
  let title := escape_html (get (attrs p) "title" (VStr (lit "Untitled"))) in
  let content := get (attrs p) "content" (get (attrs p) "body" (VStr [])) in
  let au := default ∅ (author p) in
  let author_name := escape_html (get au "name" (VStr (lit "ShoeSwiper Team"))) in
  let author_avatar := get au "avatar" (VStr (DOMAIN ++ lit "/default-avatar.png")) in
  let published := get (attrs p) "published_at" (VStr (isoformat (now_utc clock))) in
  let formatted_date := format_display_date published in
  bind (match content with
        | VStr c => Ok (Z.of_nat (List.length (split_ws c)))
        | _ => Raise AttributeError
        end) (fun word_count =>
  let reading_time := Z.max 1 (word_count / 200) in
  let featured_image :=
    get (attrs p) "featured_image" (get (attrs p) "image_url" (VStr [])) in
  let figure :=
    if truthy featured_image
    then Some (escape_html (get (attrs p) "image_alt" (VStr title)),
               escape_html (get (attrs p) "image_caption" (VStr [])))
    else None in
  let tag_texts :=
    match default (TagList []) (tags p) with
    | TagList l => List.map (fun t => escape_html (VStr t)) (firstn 5 l)
    | TagStr s => List.map (fun c => escape_html (VStr [c])) (firstn 5 s)
    end in
  bind (products_html
          (default (default [] (products p)) (affiliate_products p)))
       (fun prods =>
  Ok (Article title (py_str content) author_name (py_str author_avatar)
        (py_str published) formatted_date reading_time
        (py_str featured_image) figure tag_texts prods
        (py_str (get (attrs p) "slug" VNone))))).

(** ** Full page *)

Record page := Page {
  page_meta : meta_tags;
  page_article : article;
  page_post_id : str
}.

Definition generate_full_html_page (clock : datetime) (p : post) (c : category)
  : result page :=
  let cfg := BLOG_CONFIGS c in
  let meta := generate_meta_tags clock p cfg in
  bind (generate_article_html clock p cfg) (fun art =>
  Ok (Page meta art (py_str (get (attrs p) "id" VNone)))).

(** ** Index page *)

(** One post card of the listing, lines 836 to 865. *)
Record index_card := IndexCard {
  i_title : str; i_excerpt : str; i_slug : str; i_image : str;
  i_formatted_date : str
}.

Definition index_card_of (p : post) : index_card :=
  let title := escape_html (get (attrs p) "title" (VStr (lit "Untitled"))) in
  let excerpt := slice_to 200 (escape_html (get (attrs p) "excerpt" (VStr []))) in
  let slug := get (attrs p) "slug" (get (attrs p) "id" VNone) in
  let image :=
    get (attrs p) "featured_image"
      (get (attrs p) "image_url" (VStr (DOMAIN ++ lit "/placeholder.jpg"))) in
  IndexCard title excerpt (py_str slug) (py_str image)
    (format_display_date (get (attrs p) "published_at" (VStr []))).

(** The excerpt paragraph of a card: [<p>{excerpt}...</p>]. *)
Definition index_excerpt_paragraph (c : index_card) : str :=
  lit "<p>" ++ i_excerpt c ++ lit "...</p>".

Definition generate_index_page (posts : list post) (c : category)
  : list index_card :=
  List.map index_card_of (firstn 20 posts).

(** ** Site header *)

(** The four blog links of the navigation bar, lines 154 to 157: path,
    class and label.  A link is [active] when the configuration's path is
    its own. *)
Definition nav_links (cfg : config) : list (str * str * str) :=
  List.map
    (fun '(path, label) =>
       (path, (if str_eqb (cfg_path cfg) path then lit "active" else []), label))
    [(lit "blog/sneaker", lit "Sneakers"); (lit "blog/shoes", lit "Shoes");
     (lit "blog/workwear", lit "Workwear"); (lit "blog/music", lit "Music")].

Definition nav_link_html (l : str * str * str) : str :=
  let '(path, cls, label) := l in
  nl ++ indent 16 ++ lit "<a " ++ attr "href" (DOMAIN ++ lit "/" ++ path) ++
  lit " " ++ attr "class" cls ++ lit ">" ++ label ++ lit "</a>".

(** The template of lines 146 to 162. *)
Definition generate_header (cfg : config) : str :=
  nl ++ indent 4 ++ lit "<header " ++ attr "class" (lit "site-header") ++ lit ">" ++
  nl ++ indent 8 ++ lit "<nav " ++ attr "class" (lit "nav-container") ++ lit ">" ++
  nl ++ indent 12 ++ lit "<a " ++ attr "href" DOMAIN ++ lit " " ++
    attr "class" (lit "logo") ++ lit ">" ++
  nl ++ indent 16 ++ lit "<span " ++ attr "class" (lit "logo-icon") ++ lit ">" ++
    [128095%N] ++ lit "</span>" ++
  nl ++ indent 16 ++ lit "<span " ++ attr "class" (lit "logo-text") ++
    lit ">ShoeSwiper</span>" ++
  nl ++ indent 12 ++ lit "</a>" ++
  nl ++ indent 12 ++ lit "<div " ++ attr "class" (lit "nav-links") ++ lit ">" ++
  List.flat_map nav_link_html (nav_links cfg) ++
  nl ++ indent 12 ++ lit "</div>" ++
  nl ++ indent 12 ++ lit "<a " ++ attr "href" (DOMAIN ++ lit "/app") ++ lit " " ++
    attr "class" (lit "cta-button") ++ lit ">Get the App</a>" ++
  nl ++ indent 8 ++ lit "</nav>" ++
  nl ++ indent 4 ++ lit "</header>" ++
  nl ++ indent 4.

(** ** The handler *)

(** The invocation payload, after the notification envelope is opened. *)
Record event := Event {
  ev_generate_all : bool;
  ev_category : option str;
  ev_generate_index : option bool;
  ev_post_id : option str
}.

Inductive artifact :=
| IndexArtifact (c : category) (url : str)
| PostArtifact (c : category) (slug : str) (url : str).

Inductive failure :=
| IndexFailure (c : category) (e : exn)
| PostFailure (post_id : str) (e : exn).

Record results := Results {
  generated : list artifact;
  errors : list failure;
  puts : nat
}.

Record response := Response { statusCode : Z; body : results }.

Section Handler.

(** The storage collaborators: the indexed query, the single-item read,
    and the outcome of the [n]-th upload of the invocation. *)
Variable query : category -> result (list post).
Variable get_item : str -> result (option post).
Variable put_object : nat -> str -> result unit.

Definition fetch_posts (c : category) : list post :=
  try_except (query c) [].

Definition upload_to_s3 (n : nat) (key : str) : bool :=
  returns (put_object n key).

Definition generate_post (clock : datetime) (c : category) (r : results) (p : post)
  : results :=
  match generate_full_html_page clock p c with
  | Ok _ =>
      let slug := py_str (get (attrs p) "slug" (get (attrs p) "id" VNone)) in
      let cfg := BLOG_CONFIGS c in
      let post_key := cfg_path cfg ++ lit "/" ++ slug ++ lit "/index.html" in
      if upload_to_s3 (puts r) post_key
      then Results
             (generated r ++
              [PostArtifact c slug (DOMAIN ++ lit "/" ++ cfg_path cfg ++ lit "/" ++ slug)])
             (errors r) (S (puts r))
      else Results (generated r) (errors r) (S (puts r))
  | Raise e =>
      Results (generated r)
        (errors r ++ [PostFailure (py_str (get (attrs p) "id" VNone)) e])
        (puts r)
  end.

Definition generate_category (clock : datetime) (ev : event) (r : results)
  (c : category) : results :=
  let cfg := BLOG_CONFIGS c in
  let posts := fetch_posts c in
  let r1 :=
    if default true (ev_generate_index ev)
    then
      let index_html := generate_index_page posts c in
      let index_key := cfg_path cfg ++ lit "/index.html" in
      if upload_to_s3 (puts r) index_key
      then Results (generated r ++ [IndexArtifact c (DOMAIN ++ lit "/" ++ index_key)])
             (errors r) (S (puts r))
      else Results (generated r) (errors r) (S (puts r))
    else r in
  let posts' :=
    match ev_post_id ev with
    | Some (_ :: _ as post_id) =>
        match get_item post_id with
        | Ok (Some item) => [item]
        | Ok None => []
        | Raise _ => []
        end
    | _ => posts
    end in
  fold_left (generate_post clock c) posts' r1.

Definition lambda_handler (clock : datetime) (ev : event) : response :=
  let categories :=
    if ev_generate_all ev then List.map category_key all_categories
    else [default (lit "sneaker") (ev_category ev)] in
  let r :=
    fold_left
      (fun r key =>
         match category_of_key key with
         | None => r
         | Some c => generate_category clock ev r c
         end)
      categories (Results [] [] 0) in
  Response 200 r.

End Handler.
End Rendering.
End HtmlGenerator.

(* ===================================================================== *)
(** * sitemap_handler.py *)
(* ===================================================================== *)

Module SitemapHandler.
Import Py Records.

Record config := Config {
  cfg_path : str; cfg_priority : str; cfg_changefreq : str
}.

Definition BLOG_CONFIGS (c : category) : config :=
  match c with
  | Sneaker => Config (lit "blog/sneaker") (lit "0.8") (lit "daily")
  | Shoes => Config (lit "blog/shoes") (lit "0.8") (lit "daily")
  | Workwear => Config (lit "blog/workwear") (lit "0.7") (lit "weekly")
  | Music => Config (lit "blog/music") (lit "0.7") (lit "weekly")
  end.

(** ** Fetching *)

(** The responses of the paginated index query, in order: a page carries
    a continuation key exactly when another page follows it. *)
Inductive pages :=
| LastPage (r : result (list post))
| MorePages (r : result (list post)) (next : pages).

(** The [while True] loop of [fetch_posts]; [scan] is the response of
    the unindexed fallback scan. *)
Fixpoint fetch_loop (limit : Z) (scan : result (list post))
  (posts : list post) (q : pages) : result (list post) :=
  match q with
  | LastPage (Ok items) => Ok (posts ++ items)
  | MorePages (Ok items) next =>
      let posts' := posts ++ items in
      if limit <=? Z.of_nat (List.length posts') then Ok posts'
      else fetch_loop limit scan posts' next
  | LastPage (Raise _) | MorePages (Raise _) _ => scan
  end.

Definition fetch_posts (q : pages) (scan : result (list post)) (limit : Z)
  : result (list post) :=
  bind (fetch_loop limit scan [] q) (fun posts =>
  Ok (firstn (Z.to_nat limit) posts)).

(** An index query that answers every request: the page [first], then
    the pages [rest]. *)
Fixpoint answered (first : list post) (rest : list (list post)) : pages :=
  match rest with
  | [] => LastPage (Ok first)
  | next :: rest' => MorePages (Ok first) (answered next rest')
  end.

(** An index query that answers the pages [read] and fails on the
    request after them. *)
Fixpoint failing (read : list (list post)) (e : exn) : pages :=
  match read with
  | [] => LastPage (Raise e)
  | items :: read' => MorePages (Ok items) (failing read' e)
  end.

Section Rendering.

Variable DOMAIN : str.

(** ** Sitemap *)

Record image_entry := ImageEntry {
  img_loc : value; img_title : value; img_caption : str
}.

Record url_entry := UrlEntry {
  u_loc : str; u_lastmod : str; u_changefreq : str; u_priority : str;
  u_image : option image_entry
}.

(** Lines 136 to 148. *)
Definition lastmod_of (now : datetime) (p : post) : result str :=
  let lastmod := get (attrs p) "updated_at" (get (attrs p) "published_at" (VStr [])) in
  if truthy lastmod then
    match lastmod with
    | VStr s =>
        Ok (try_except
              (bind (fromisoformat (replace1 90%N (lit "+00:00") s))
                 (fun dt => Ok (strftime_date dt)))
              (strftime_date now))
    | VDatetime dt => Ok (strftime_date dt)
    | _ => Raise AttributeError
    end
  else Ok (strftime_date now).

Definition changefreq_of_age (days_old : Z) : str :=
  if days_old <? 7 then lit "daily"
  else if days_old <? 30 then lit "weekly"
  else if days_old <? 180 then lit "monthly"
  else lit "yearly".

(** Lines 151 to 173. *)
Definition changefreq_of (now : datetime) (cfg : config) (p : post) : str :=
  let published_at := get (attrs p) "published_at" (VStr []) in
  if truthy published_at then
    try_except
      (bind (as_datetime published_at) (fun pub_dt =>
       bind (dt_sub now pub_dt) (fun age =>
       Ok (changefreq_of_age (timedelta_days age)))))
      (cfg_changefreq cfg)
  else cfg_changefreq cfg.

(** Lines 178 to 190. *)
Definition image_of (p : post) : result (option image_entry) :=
  let featured_image := get (attrs p) "featured_image" (get (attrs p) "image_url" VNone) in
  if truthy featured_image then
    let image_title := get (attrs p) "image_alt" (get (attrs p) "title" (VStr [])) in
    let image_caption := get (attrs p) "image_caption" (get (attrs p) "excerpt" (VStr [])) in
    bind (if truthy image_caption
          then match image_caption with
               | VStr s => Ok (slice_to 1000 s)
               | _ => Raise TypeError
               end
          else Ok []) (fun caption =>
    Ok (Some (ImageEntry featured_image
                (if truthy image_title then image_title else VNone) caption)))
  else Ok None.

Definition url_entry_of (clock : datetime) (c : category) (p : post)
  : result url_entry :=
  let cfg := BLOG_CONFIGS c in
  let now := now_utc clock in
  let slug := get (attrs p) "slug" (get (attrs p) "id" VNone) in
  let loc := DOMAIN ++ lit "/" ++ cfg_path cfg ++ lit "/" ++ py_str slug in
  bind (lastmod_of now p) (fun lastmod =>
  let changefreq := changefreq_of now cfg p in
  bind (image_of p) (fun image =>
  Ok (UrlEntry loc lastmod changefreq (cfg_priority cfg) image))).

Definition url_texts (u : url_entry) : list value :=
  [VStr (u_loc u); VStr (u_lastmod u); VStr (u_changefreq u); VStr (u_priority u)] ++
  match u_image u with
  | Some i => [img_loc i; img_title i; VStr (img_caption i)]
  | None => []
  end.

(** The document: the category index entry, then one entry per post.
    One clock reading stands for the readings taken during the render. *)
Definition generate_sitemap (clock : datetime) (c : category) (posts : list post)
  : result (list url_entry) :=
  let cfg := BLOG_CONFIGS c in
  let index_url :=
    UrlEntry (DOMAIN ++ lit "/" ++ cfg_path cfg) (strftime_date (now_utc clock))
      (lit "daily") (lit "1.0") None in
  bind (traverse (url_entry_of clock c) posts) (fun entries =>
  let doc := index_url :: entries in
  bind (prettify_xml (List.flat_map url_texts doc)) (fun _ => Ok doc)).

(** ** News sitemap *)

Record news_entry := NewsEntry {
  n_loc : str; n_publication_date : str; n_title : value;
  n_keywords : option str
}.

(** Lines 201 and 202. *)
Definition news_cutoff (clock : datetime) : result datetime :=
  let cutoff := replace_midnight (now_utc clock) in
  replace_day cutoff (day cutoff - 2).

(** The body of the filter loop, lines 206 to 217. *)
Definition is_recent (cutoff : datetime) (p : post) : bool :=
  let published_at := get (attrs p) "published_at" (VStr []) in
  if truthy published_at then
    try_except
      (bind (as_datetime published_at) (fun pub_dt => dt_ge pub_dt cutoff))
      false
  else false.

Definition news_entry_of (clock : datetime) (c : category) (p : post)
  : result news_entry :=
  let cfg := BLOG_CONFIGS c in
  let slug := get (attrs p) "slug" (get (attrs p) "id" VNone) in
  let published_at :=
    get (attrs p) "published_at" (VStr (isoformat (now_utc clock))) in
  bind (as_datetime published_at) (fun pub_dt =>
  let kw :=
    match default (default (TagList []) (tags p)) (keywords p) with
    | TagList [] | TagStr [] => None
    | TagList l => Some (join (lit ", ") (firstn 10 l))
    | TagStr s => Some s
    end in
  Ok (NewsEntry (DOMAIN ++ lit "/" ++ cfg_path cfg ++ lit "/" ++ py_str slug)
        (strftime_date pub_dt ++ lit "T" ++ strftime_time pub_dt ++ lit "+00:00")
        (get (attrs p) "title" (VStr (lit "Untitled"))) kw)).

Definition news_texts (n : news_entry) : list value :=
  [VStr (n_loc n); VStr (lit "ShoeSwiper"); VStr (lit "en");
   VStr (n_publication_date n); n_title n] ++
  match n_keywords n with
  | Some k => [VStr k]
  | None => []
  end.

(** [None] when no post is recent enough: the caller then publishes no
    news sitemap. *)
Definition generate_news_sitemap (clock : datetime) (c : category)
  (posts : list post) : result (option (list news_entry)) :=
  bind (news_cutoff clock) (fun cutoff =>
  let recent_posts := List.filter (is_recent cutoff) posts in
  match recent_posts with
  | [] => Ok None
  | _ =>
      bind (traverse (news_entry_of clock c) recent_posts) (fun entries =>
      bind (prettify_xml (List.flat_map news_texts entries)) (fun _ =>
      Ok (Some entries)))
  end).

(** ** Static pages, robots.txt *)

(** The fixed pages, then the landing page of every category. *)
Definition static_pages : list (str * str * str) :=
  [(DOMAIN, lit "1.0", lit "daily");
   (DOMAIN ++ lit "/app", lit "0.9", lit "weekly");
   (DOMAIN ++ lit "/about", lit "0.7", lit "monthly");
   (DOMAIN ++ lit "/contact", lit "0.6", lit "monthly");
   (DOMAIN ++ lit "/privacy", lit "0.3", lit "yearly");
   (DOMAIN ++ lit "/terms", lit "0.3", lit "yearly");
   (DOMAIN ++ lit "/blog", lit "0.9", lit "daily")] ++
  List.map
    (fun c => (DOMAIN ++ lit "/" ++ cfg_path (BLOG_CONFIGS c), lit "0.9", lit "daily"))
    all_categories.

Definition generate_static_pages_sitemap (clock : datetime)
  : result (list url_entry) :=
  let doc :=
    List.map
      (fun '(loc, priority, changefreq) =>
         UrlEntry loc (strftime_date (now_utc clock)) changefreq priority None)
      static_pages in
  bind (prettify_xml (List.flat_map url_texts doc)) (fun _ => Ok doc).

(** The lines of [robots.txt], each ended by a newline in the file. *)
Definition robots_lines (clock : datetime) : list str :=
  [lit "# ShoeSwiper Robots.txt";
   lit "# Generated: " ++ isoformat (now_utc clock);
   [];
   lit "User-agent: *";
   lit "Allow: /";
   [];
   lit "# Sitemaps";
   lit "Sitemap: " ++ DOMAIN ++ lit "/sitemap.xml";
   lit "Sitemap: " ++ DOMAIN ++ lit "/sitemap-static.xml"] ++
  List.map
    (fun c => lit "Sitemap: " ++ DOMAIN ++ lit "/" ++ cfg_path (BLOG_CONFIGS c) ++
              lit "/sitemap.xml")
    all_categories ++
  [[];
   lit "# Crawl-delay for polite crawlers";
   lit "Crawl-delay: 1";
   [];
   lit "# Disallow admin and API paths";
   lit "Disallow: /api/";
   lit "Disallow: /admin/";
   lit "Disallow: /_next/";
   lit "Disallow: /supabase/";
   [];
   lit "# Allow important paths";
   lit "Allow: /blog/";
   lit "Allow: /app";
   lit "Allow: /about";
   lit "Allow: /contact";
   [];
   lit "# Block AI training bots (optional)";
   lit "User-agent: GPTBot";
   lit "Disallow: /";
   [];
   lit "User-agent: ChatGPT-User";
   lit "Disallow: /";
   [];
   lit "User-agent: CCBot";
   lit "Disallow: /"].

Definition generate_robots_txt (clock : datetime) : str :=
  List.flat_map (fun line => line ++ nl) (robots_lines clock).

(** ** The handler *)

Record event := Event {
  ev_ping_only : bool;
  ev_category : option str;
  ev_skip_ping : bool
}.

Inductive sitemap_record :=
| MainSitemap (c : category) (url : str) (posts_count : nat)
| NewsSitemap (c : category) (url : str)
| StaticSitemap (url : str)
| SitemapError (c : category) (e : exn).

Record results := Results {
  sitemaps : list sitemap_record;
  sitemaps_info : list str;
  sitemap_index : option str;
  robots_txt : option str;
  pings : list (str * bool);
  puts : nat
}.

Record response := Response { statusCode : Z; body : results }.

Definition is_error (r : sitemap_record) : bool :=
  match r with SitemapError _ _ => true | _ => false end.

(** A record whose URL is the address its kind of sitemap is published
    at. *)
Definition canonical (r : sitemap_record) : Prop :=
  match r with
  | MainSitemap c url _ =>
      url = DOMAIN ++ lit "/" ++ cfg_path (BLOG_CONFIGS c) ++ lit "/sitemap.xml"
  | NewsSitemap c url =>
      url = DOMAIN ++ lit "/" ++ cfg_path (BLOG_CONFIGS c) ++ lit "/sitemap-news.xml"
  | StaticSitemap url => url = DOMAIN ++ lit "/sitemap-static.xml"
  | SitemapError _ _ => True
  end.

(** The URL a record reports, none for an error record. *)
Definition record_urls (r : sitemap_record) : list str :=
  match r with
  | MainSitemap _ url _ | NewsSitemap _ url | StaticSitemap url => [url]
  | SitemapError _ _ => []
  end.

Section Handler.

(** The collaborators: the paginated query and the fallback scan of each
    category, the outcome of the [n]-th upload, the answer of each search
    engine to a ping. *)
Variable query : category -> pages.
Variable scan : category -> result (list post).
Variable put_object : nat -> str -> result unit.
Variable ping : str -> bool.

Definition upload_to_s3 (n : nat) (key : str) : bool :=
  returns (put_object n key).

Definition SEARCH_ENGINES : list str := [lit "google"; lit "bing"; lit "yandex"].

Definition ping_search_engines : list (str * bool) :=
  List.map (fun e => (e, ping e)) SEARCH_ENGINES.

Definition record_upload (r : results) (key : str) (rec : str -> sitemap_record)
  : results :=
  if upload_to_s3 (puts r) key
  then Results (sitemaps r ++ [rec (DOMAIN ++ lit "/" ++ key)])
         (sitemaps_info r ++ [DOMAIN ++ lit "/" ++ key])
         (sitemap_index r) (robots_txt r) (pings r) (S (puts r))
  else Results (sitemaps r) (sitemaps_info r) (sitemap_index r) (robots_txt r)
         (pings r) (S (puts r)).

Definition record_error (r : results) (c : category) (e : exn) : results :=
  Results (sitemaps r ++ [SitemapError c e]) (sitemaps_info r)
    (sitemap_index r) (robots_txt r) (pings r) (puts r).

(** The body of the per-category [try], lines 448 to 490. *)
Definition generate_category (clock : datetime) (r : results) (c : category)
  : results :=
  let cfg := BLOG_CONFIGS c in
  match fetch_posts (query c) (scan c) 50000 with
  | Raise e => record_error r c e
  | Ok posts =>
      match generate_sitemap clock c posts with
      | Raise e => record_error r c e
      | Ok _ =>
          let r1 :=
            record_upload r (cfg_path cfg ++ lit "/sitemap.xml")
              (fun url => MainSitemap c url (List.length posts)) in
          match generate_news_sitemap clock c posts with
          | Raise e => record_error r1 c e
          | Ok None => r1
          | Ok (Some _) =>
              record_upload r1 (cfg_path cfg ++ lit "/sitemap-news.xml")
                (NewsSitemap c)
          end
      end
  end.

Definition lambda_handler (clock : datetime) (ev : event) : response :=
  let r0 := Results [] [] None None [] 0 in
  if ev_ping_only ev
  then Response 200
         (Results [] [] None None ping_search_engines 0)
  else
    let categories :=
      match ev_category ev with
      | Some k => [k]
      | None => List.map category_key all_categories
      end in
    let r1 :=
      fold_left
        (fun r key =>
           match category_of_key key with
           | None => r
           | Some c => generate_category clock r c
           end)
        categories r0 in
    let r2 := record_upload r1 (lit "sitemap-static.xml") StaticSitemap in
    let r3 :=
      match sitemaps_info r2 with
      | [] => r2
      | _ =>
          Results (sitemaps r2) (sitemaps_info r2)
            (if upload_to_s3 (puts r2) (lit "sitemap.xml")
             then Some (DOMAIN ++ lit "/sitemap.xml") else None)
            (robots_txt r2) (pings r2) (S (puts r2))
      end in
    let r4 :=
      Results (sitemaps r3) (sitemaps_info r3) (sitemap_index r3)
        (if upload_to_s3 (puts r3) (lit "robots.txt")
         then Some (DOMAIN ++ lit "/robots.txt") else None)
        (pings r3) (S (puts r3)) in
    let r5 :=
      match sitemap_index r4 with
      | Some _ =>
          if ev_skip_ping ev then r4
          else Results (sitemaps r4) (sitemaps_info r4) (sitemap_index r4)
                 (robots_txt r4) ping_search_engines (puts r4)
      | None => r4
      end in
    Response 200 r5.

End Handler.
End Rendering.
End SitemapHandler.

(* ===================================================================== *)
(** * rss_handler.py *)
(* ===================================================================== *)

Module RssHandler.
Import Py Records.

Record config := Config {
  cfg_title : str; cfg_description : str; cfg_category : str;
  cfg_language : str; cfg_path : str; cfg_image : str
}.

Section Rendering.

Variable DOMAIN : str.

Definition BLOG_CONFIGS (c : category) : config :=
  match c with
  | Sneaker => Config (lit "ShoeSwiper Sneaker Blog")
      (lit "Latest sneaker news, releases, reviews, and style guides from ShoeSwiper")
      (lit "Fashion/Sneakers") (lit "en-us") (lit "blog/sneaker")
      (DOMAIN ++ lit "/images/blogs/sneaker-blog-logo.png")
  | Shoes => Config (lit "ShoeSwiper Shoes Blog")
      (lit "Comprehensive shoe guides, reviews, and recommendations for every occasion")
      (lit "Fashion/Footwear") (lit "en-us") (lit "blog/shoes")
      (DOMAIN ++ lit "/images/blogs/shoes-blog-logo.png")
  | Workwear => Config (lit "ShoeSwiper Workwear Blog")
      (lit "Professional footwear guides, work boot reviews, and safety shoe recommendations")
      (lit "Fashion/Workwear") (lit "en-us") (lit "blog/workwear")
      (DOMAIN ++ lit "/images/blogs/workwear-blog-logo.png")
  | Music => Config (lit "ShoeSwiper Music & Style Blog")
      (lit "Where music meets sneaker culture - artist collaborations, concert style, and more")
      (lit "Entertainment/Music") (lit "en-us") (lit "blog/music")
      (DOMAIN ++ lit "/images/blogs/music-blog-logo.png")
  end.

(** ** Fetching *)

(** The sort key of the fallback: [x.get('published_at', '')]. *)
Definition sort_key (p : post) : value :=
  get (attrs p) "published_at" (VStr []).

(** [a < b] on attribute values: strings with strings, timestamps with
    timestamps, numbers with numbers; otherwise [TypeError]. *)
Definition number_of (v : value) : option (Z * Z) :=
  match v with
  | VBool b => Some (if b then 1 else 0, 0)
  | VNum d =>
      Some (if dec_neg d then - Z.of_N (dec_coeff d) else Z.of_N (dec_coeff d),
            dec_exp d)
  | _ => None
  end.

Definition value_lt (a b : value) : result bool :=
  match a, b with
  | VStr x, VStr y => Ok (str_ltb x y)
  | VDatetime x, VDatetime y => bind (dt_sub x y) (fun d => Ok (d <? 0))
  | _, _ =>
      match number_of a, number_of b with
      | Some (ca, ea), Some (cb, eb) =>
          let e := Z.min ea eb in
          Ok (ca * 10 ^ (ea - e) <? cb * 10 ^ (eb - e))
      | _, _ => Raise TypeError
      end
  end.

(** [items.sort(key=..., reverse=True)]: a stable sort, greatest key
    first; a comparison that raises aborts the sort. *)
Fixpoint insert_desc (x : post) (l : list post) : result (list post) :=
  match l with
  | [] => Ok [x]
  | y :: l' =>
      bind (value_lt (sort_key x) (sort_key y)) (fun lt =>
      if lt then bind (insert_desc x l') (fun r => Ok (y :: r))
      else Ok (x :: l))
  end.

Fixpoint sort_desc (l : list post) : result (list post) :=
  match l with
  | [] => Ok []
  | x :: l' => bind (sort_desc l') (insert_desc x)
  end.

(** Descending key order between neighbours: the earlier post's key is
    not less than the later one's. *)
Definition not_less (a b : post) : Prop :=
  value_lt (sort_key a) (sort_key b) = Ok false.

Definition fetch_posts (query scan : result (list post)) (limit : Z)
  : result (list post) :=
  match query with
  | Ok items => Ok items
  | Raise _ =>
      bind scan (fun items =>
      bind (sort_desc items) (fun sorted =>
      Ok (firstn (Z.to_nat limit) sorted)))
  end.

(** ** Atom entries *)

(** The texts of an entry set by lines 271 to 309 (the identifier hash,
    the category terms and the media block are left out). *)
Record atom_entry := AtomEntry {
  e_title : value; e_href : str; e_published : str; e_updated : str;
  e_author_name : value; e_summary : value; e_content : value
}.

Definition isoformat_of (v : value) : result str :=
  bind (as_datetime v) (fun dt => Ok (isoformat dt)).

Definition add_atom_entry (clock : datetime) (c : category) (p : post)
  : result atom_entry :=
  let cfg := BLOG_CONFIGS c in
  let post_url :=
    DOMAIN ++ lit "/" ++ cfg_path cfg ++ lit "/" ++
    py_str (get (attrs p) "slug" (get (attrs p) "id" VNone)) in
  let pub_date :=
    get (attrs p) "published_at"
      (get (attrs p) "created_at" (VStr (isoformat (now_utc clock)))) in
  bind (isoformat_of pub_date) (fun published =>
  bind (isoformat_of (get (attrs p) "updated_at" pub_date)) (fun updated =>
  Ok (AtomEntry (get (attrs p) "title" (VStr (lit "Untitled"))) post_url
        published updated
        (get (attrs p) "author_name" (VStr (lit "ShoeSwiper Team")))
        (get (attrs p) "excerpt" (get (attrs p) "meta_description" (VStr [])))
        (get (attrs p) "content_html" (get (attrs p) "content" (VStr [])))))).

(** ** Helpers of the item and entry builders *)

(** [s.endswith(suffix)] *)
Definition endswith (suffix s : str) : bool :=
  (List.length suffix <=? List.length s)%nat &&
  str_eqb suffix (skipn (List.length s - List.length suffix) s).

(** Lines 211 to 220.  [url.lower()] is taken on the ASCII letters: no
    other character lower-cases to a character of the three suffixes
    next to its neighbours, so the tests are the same. *)
Definition _get_mime_type (url : str) : str :=
  let url_lower := List.map ascii_lower url in
  if endswith (lit ".png") url_lower then lit "image/png"
  else if endswith (lit ".gif") url_lower then lit "image/gif"
  else if endswith (lit ".webp") url_lower then lit "image/webp"
  else lit "image/jpeg".

(** Lines 327 to 331: the MD5 digest of the content in hexadecimal, cut
    into groups of 8, 4, 4, 4 and 12 characters. *)
Definition _generate_uuid (content : str) : result str :=
  bind (Md5.encode content) (fun bytes =>
  let hex_dig := Md5.hexdigest bytes in
  Ok (firstn 8 hex_dig ++ lit "-" ++ firstn 4 (skipn 8 hex_dig) ++ lit "-" ++
      firstn 4 (skipn 12 hex_dig) ++ lit "-" ++ firstn 4 (skipn 16 hex_dig) ++
      lit "-" ++ skipn 20 hex_dig)).

(** ** RSS feed *)

(** [json.loads] on the text of a [tags] attribute that starts with
    [[]: the elements of the list it decodes to, or the exception it
    raises. *)
Variable json_loads : str -> result (list value).

(** Lines 205 to 209. *)
Definition _format_rfc822 (dt : datetime) : str :=
  strftime_rfc822
    (match tzinfo dt with
     | Some _ => dt
     | None =>
         Datetime (year dt) (month dt) (day dt) (hour dt) (minute dt)
           (second dt) (microsecond dt) (Some 0)
     end).

Record enclosure := Enclosure {
  en_url : str; en_type : str; en_length : str; en_media_title : value
}.

(** The texts and attribute values of an item, lines 153 to 203. *)
Record rss_item := RssItem {
  r_title : value; r_link : str; r_description : value;
  r_content_encoded : str; r_guid : str; r_pubDate : str; r_author : str;
  r_creator : value; r_categories : list value;
  r_enclosure : option enclosure
}.

Definition _add_item (clock : datetime) (c : category) (p : post)
  : result rss_item :=
  let cfg := BLOG_CONFIGS c in
  let post_url :=
    DOMAIN ++ lit "/" ++ cfg_path cfg ++ lit "/" ++
    py_str (get (attrs p) "slug" (get (attrs p) "id" VNone)) in
  let content := get (attrs p) "content_html" (get (attrs p) "content" (VStr [])) in
  let pub_date :=
    get (attrs p) "published_at"
      (get (attrs p) "created_at" (VStr (isoformat (now_utc clock)))) in
  bind (as_datetime pub_date) (fun pub_dt =>
  let author_email :=
    get (attrs p) "author_email" (VStr (lit "hello@shoeswiper.com")) in
  let author_name := get (attrs p) "author_name" (VStr (lit "ShoeSwiper Team")) in
  bind (match tags p with
        | None => Ok []
        | Some (TagList l) => Ok (List.map VStr l)
        | Some (TagStr t) =>
            if startswith (lit "[") t then json_loads t else Ok [VStr t]
        end) (fun categories =>
  let featured_image :=
    get (attrs p) "featured_image" (get (attrs p) "image_url" VNone) in
  bind (if truthy featured_image
        then match featured_image with
             | VStr url =>
                 Ok (Some (Enclosure url (_get_mime_type url)
                             (py_str (get (attrs p) "image_size"
                                        (VNum (Decimal false 0 0))))
                             (get (attrs p) "image_alt"
                                (get (attrs p) "title" (VStr [])))))
             | _ => Raise AttributeError
             end
        else Ok None) (fun enclosure =>
  Ok (RssItem (get (attrs p) "title" (VStr (lit "Untitled"))) post_url
        (get (attrs p) "excerpt" (get (attrs p) "meta_description" (VStr [])))
        (lit "<![CDATA[" ++ py_str content ++ lit "]]>") post_url
        (_format_rfc822 pub_dt)
        (py_str author_email ++ lit " (" ++ py_str author_name ++ lit ")")
        author_name categories enclosure)))).

Definition atom_namespace : str := lit "http://www.w3.org/2005/Atom".
Definition media_namespace : str := lit "http://search.yahoo.com/mrss/".
Definition dc_namespace : str := lit "http://purl.org/dc/elements/1.1/".
Definition content_namespace : str :=
  lit "http://purl.org/rss/1.0/modules/content/".

(** The attributes set on the [rss] element, lines 107 to 111. *)
Definition rss_attributes : list (str * str) :=
  [(lit "version", lit "2.0");
   (lit "xmlns:atom", atom_namespace);
   (lit "xmlns:media", media_namespace);
   (lit "xmlns:dc", dc_namespace);
   (lit "xmlns:content", content_namespace)].

(** The namespaces of the tags of an item, in document order:
    [content:encoded], [dc:creator], and the two media elements that
    come with an enclosure. *)
Definition item_namespaces (i : rss_item) : list str :=
  [content_namespace; dc_namespace] ++
  match r_enclosure i with
  | Some _ => [media_namespace; media_namespace]
  | None => []
  end.

Definition item_attribute_values (i : rss_item) : list value :=
  [VStr (lit "true")] ++
  match r_enclosure i with
  | Some e =>
      [VStr (en_url e); VStr (en_type e); VStr (en_length e);
       VStr (en_url e); VStr (en_type e)]
  | None => []
  end.

Definition item_texts (i : rss_item) : list value :=
  [r_title i; VStr (r_link i); r_description i; VStr (r_content_encoded i);
   VStr (r_guid i); VStr (r_pubDate i); VStr (r_author i); r_creator i] ++
  r_categories i ++
  match r_enclosure i with
  | Some e => [en_media_title e]
  | None => []
  end.

(** The texts of the channel, lines 116 to 138. *)
Definition channel_texts (clock : datetime) (cfg : config) : list value :=
  List.map VStr
    [cfg_title cfg; DOMAIN ++ lit "/" ++ cfg_path cfg; cfg_description cfg;
     cfg_language cfg; cfg_category cfg; lit "ShoeSwiper RSS Generator v1.0";
     lit "https://www.rssboard.org/rss-specification"; lit "60";
     _format_rfc822 (now_utc clock);
     cfg_image cfg; cfg_title cfg; DOMAIN ++ lit "/" ++ cfg_path cfg;
     lit "144"; lit "144"].

(** The attribute values of the [rss] element and of the channel's
    [atom:link], lines 107 to 131. *)
Definition channel_attribute_values (cfg : config) : list value :=
  List.map (fun a => VStr (snd a)) rss_attributes ++
  List.map VStr
    [DOMAIN ++ lit "/" ++ cfg_path cfg ++ lit "/feed.xml"; lit "self";
     lit "application/rss+xml"].

(** Lines 104 to 149: the items of the feed that was built, serialised
    and re-read.  One clock reading stands for the readings taken
    during the render. *)
Definition generate_rss (clock : datetime) (c : category) (posts : list post)
  : result (list rss_item) :=
  let cfg := BLOG_CONFIGS c in
  bind (traverse (_add_item clock c) posts) (fun items =>
  bind (prettify_document (List.map fst rss_attributes)
          (atom_namespace :: List.flat_map item_namespaces items)
          (channel_attribute_values cfg ++
           List.flat_map item_attribute_values items)
          (channel_texts clock cfg ++ List.flat_map item_texts items))
       (fun _ => Ok items)).

(** ** The handler *)

(** The invocation: the [blog_type] path parameter, and the [blog_type]
    of each notification record, when present. *)
Record event := Event {
  ev_path_blog_type : option str;
  ev_sns_blog_types : list (option str)
}.

Inductive artifact :=
| RssFeed (blog : str) (url : str)
| AtomFeed (blog : str) (url : str)
| Opml (url : str).

Inductive failure :=
| NoPosts (blog : str)
| BlogError (blog : str) (e : exn)
| OpmlError (e : exn).

Record results := Results {
  success : list artifact;
  failed : list failure;
  puts : nat
}.

Record response := Response { statusCode : Z; body : results }.

Section Handler.

(** The collaborators: the indexed query and the fallback scan of each
    category, the outcome of the [n]-th upload, and the three renderers,
    which the handler observes only by whether they return or raise. *)
Variable query : category -> result (list post).
Variable scan : category -> result (list post).
Variable put_object : nat -> str -> result unit.
Variable generate_rss : category -> list post -> result str.
Variable generate_atom : category -> list post -> result str.
Variable generate_opml : result str.

Definition upload_to_s3 (n : nat) (key : str) : bool :=
  returns (put_object n key).

Definition record_upload (r : results) (key : str) (a : str -> artifact)
  : results :=
  if upload_to_s3 (puts r) key
  then Results (success r ++ [a (DOMAIN ++ lit "/" ++ key)]) (failed r) (S (puts r))
  else Results (success r) (failed r) (S (puts r)).

Definition record_failure (r : results) (f : failure) : results :=
  Results (success r) (failed r ++ [f]) (puts r).

(** The body of the per-blog [try], lines 414 to 453. *)
Definition process_blog (r : results) (blog_type : str) : results :=
  match category_of_key blog_type with
  | None => record_failure r (BlogError blog_type KeyError)
  | Some c =>
      match fetch_posts (query c) (scan c) 50 with
      | Raise e => record_failure r (BlogError blog_type e)
      | Ok [] => record_failure r (NoPosts blog_type)
      | Ok posts =>
          match generate_rss c posts with
          | Raise e => record_failure r (BlogError blog_type e)
          | Ok _ =>
              let r1 :=
                record_upload r (cfg_path (BLOG_CONFIGS c) ++ lit "/feed.xml")
                  (RssFeed blog_type) in
              match generate_atom c posts with
              | Raise e => record_failure r1 (BlogError blog_type e)
              | Ok _ =>
                  record_upload r1 (cfg_path (BLOG_CONFIGS c) ++ lit "/atom.xml")
                    (AtomFeed blog_type)
              end
          end
      end
  end.

Definition blogs_to_process (ev : event) : list str :=
  let from_path :=
    match ev_path_blog_type ev with
    | Some b =>
        match b, category_of_key b with
        | _ :: _, Some _ => [b]
        | _, _ => List.map category_key all_categories
        end
    | None => List.map category_key all_categories
    end in
  fold_left
    (fun acc m => match m with Some b => [b] | None => acc end)
    (ev_sns_blog_types ev) from_path.

Definition lambda_handler (ev : event) : response :=
  let r1 := fold_left process_blog (blogs_to_process ev) (Results [] [] 0) in
  let r2 :=
    match generate_opml with
    | Ok _ => record_upload r1 (lit "blog/feeds.opml") Opml
    | Raise e => record_failure r1 (OpmlError e)
    end in
  let status_code :=
    match failed r2 with
    | [] => 200
    | _ => 207
    end in
  Response status_code r2.

End Handler.
End Rendering.
End RssHandler.

(* ===================================================================== *)
(** * Sample records *)
(* ===================================================================== *)

Module Samples.
Import Py Records.

Definition TAG : str := HtmlGenerator.default_AFFILIATE_TAG.
Definition DOMAIN : str := HtmlGenerator.default_DOMAIN.

Definition product_asin : dict := {[ "asin" := VStr (lit "B000X") ]}.

Definition product_link (url : string) : dict :=
  {[ "affiliate_link" := VStr (lit url) ]}.

(** [{'name': 'Air Max', 'price': '129.99', 'rating': Decimal('4.7')}] *)
Definition product_rating_47 : dict :=
  <[ "name" := VStr (lit "Air Max") ]>
  (<[ "price" := VStr (lit "129.99") ]>
  {[ "rating" := VNum (Decimal false 47 (-1)) ]}).

(** [{'name': 'Air Max', 'price': '129.99', 'rating': 'N/A'}] *)
Definition product_rating_text : dict :=
  <[ "name" := VStr (lit "Air Max") ]>
  (<[ "price" := VStr (lit "129.99") ]>
  {[ "rating" := VStr (lit "N/A") ]}).

(** [{'price': '$129.99', 'original_price': 'TBD'}] *)
Definition product_original_text : dict :=
  <[ "price" := VStr (lit "$129.99") ]>
  {[ "original_price" := VStr (lit "TBD") ]}.

(** [{'price': 'Call for price'}] *)
Definition product_price_text : dict :=
  {[ "price" := VStr (lit "Call for price") ]}.

(** A clock reading: 15 May 2024, 12:00. *)
Definition clock_mid_month : datetime := Datetime 2024 5 15 12 0 0 0 None.

(** A post with no [title], and one whose description has 161 characters. *)
Definition post_untitled : post :=
  post_of {[ "slug" := VStr (lit "air-max-review") ]}.

Definition post_long_description : post :=
  post_of {[ "meta_description" := VStr (List.repeat 97%N 161) ]}.

(** A clock reading on the first day of a month: 1 March 2024, 12:00. *)
Definition clock_first_of_month : datetime := Datetime 2024 3 1 12 0 0 0 None.

Definition post_published (slug published_at : string) : post :=
  post_of (<[ "slug" := VStr (lit slug) ]>
           (<[ "title" := VStr (lit "Air Max review") ]>
            {[ "published_at" := VStr (lit published_at) ]})).

(** Posts aged 1, 10, 40 and 200 days on 15 May 2024, 12:00 UTC. *)
Definition post_1_day : post := post_published "one" "2024-05-14T12:00:00Z".
Definition post_10_days : post := post_published "ten" "2024-05-05T12:00:00+00:00".
Definition post_40_days : post := post_published "forty" "2024-04-05T12:00:00Z".
Definition post_200_days : post := post_published "two-hundred" "2023-10-28T12:00:00Z".

(** Published three days before 15 May 2024, 12:00 UTC. *)
Definition post_3_days : post := post_published "three" "2024-05-12T12:00:00Z".

(** Published one day before 15 May 2024, 12:00, with no UTC offset. *)
Definition post_naive : post := post_published "naive" "2024-05-14T12:00:00".

(** Published one day before 15 May 2024, 12:00 UTC, the offset written
    without colon. *)
Definition post_basic_offset : post :=
  post_published "basic-offset" "2024-05-14T12:00:00+0000".

(** Published one day before 1 March 2024, 12:00 UTC. *)
Definition post_end_of_february : post :=
  post_published "leap-day" "2024-02-29T12:00:00Z".

(** A post whose first product has the rating ['N/A']. *)
Definition post_bad_product : post :=
  Post (<[ "id" := VStr (lit "p1") ]>
        (<[ "slug" := VStr (lit "air-max-review") ]>
         (<[ "title" := VStr (lit "Air Max review") ]>
          {[ "content" := VStr (lit "<p>Two words</p>") ]})))
       None None None (Some [product_rating_text]) None.

(** Storage collaborators for one invocation: every upload succeeds. *)
Definition s3_ok (n : nat) (key : str) : result unit := Ok tt.
Definition no_item (post_id : str) : result (option post) := Ok None.
Definition table_bad_product (c : category) : result (list post) :=
  Ok [post_bad_product].
Definition index_leap_day (c : category) : SitemapHandler.pages :=
  SitemapHandler.LastPage (Ok [post_end_of_february]).
Definition scan_empty (c : category) : result (list post) := Ok [].
Definition ping_ok (engine : str) : bool := true.

(** [{"category": "sneaker"}] *)
Definition html_event_sneaker : HtmlGenerator.event :=
  HtmlGenerator.Event false (Some (lit "sneaker")) None None.

(** [{"category": "sneaker", "skip_ping": true}] *)
Definition sitemap_event_sneaker : SitemapHandler.event :=
  SitemapHandler.Event false (Some (lit "sneaker")) true.

(** Six well-formed products. *)
Definition six_products : list dict := List.repeat product_rating_47 6.

(** Every upload fails. *)
Definition s3_down (n : nat) (key : str) : result unit := Raise ClientError.

(** What the handler sees of the feed renderers: [generate_rss], which
    it calls on non-empty lists only, raises on each of them. *)
Definition render_raises (c : category) (posts : list post) : result str :=
  Raise ExpatError.
Definition opml_ok : result str := Ok [].

(** A [json.loads] that refuses every text. *)
Definition json_refused (t : str) : result (list value) := Raise ValueError.


(** The scheduled invocation: no path parameter, no notification. *)
Definition rss_event_all : RssHandler.event := RssHandler.Event None [].

(** A table whose every category holds the one post [post_1_day]. *)
Definition table_one_post (c : category) : result (list post) := Ok [post_1_day].
Definition index_one_post (c : category) : SitemapHandler.pages :=
  SitemapHandler.LastPage (Ok [post_1_day]).

(** [{}] *)
Definition sitemap_event_all : SitemapHandler.event :=
  SitemapHandler.Event false None false.

(** Midnight UTC of 13 May 2024: the news cutoff on 15 May 2024. *)
Definition cutoff_mid_month : datetime := Datetime 2024 5 13 0 0 0 0 (Some 0).

End Samples.

(* ===================================================================== *)
(** * Properties *)
(* ===================================================================== *)

Import Py Records.

(** ** Strings *)

Lemma str_mul_single (c : char) (n : Z) :
  - 2 ^ 63 <= n < 2 ^ 63 -> str_mul [c] n = Ok (List.repeat c (Z.to_nat n)).
Proof.
  intros H. unfold str_mul.
  destruct (Z.ltb_spec n (- 2 ^ 63)); [lia|].
  destruct (Z.leb_spec (2 ^ 63) n); [lia|]. cbn [orb]. f_equal.
  induction (Z.to_nat n) as [|k IH]; simpl; [reflexivity|]. now rewrite IH.
Qed.

Lemma str_mul_overflow (s : str) (n : Z) :
  n < - 2 ^ 63 \/ 2 ^ 63 <= n -> str_mul s n = Raise OverflowError.
Proof.
  intros H. unfold str_mul.
  destruct (Z.ltb_spec n (- 2 ^ 63)); [reflexivity|].
  destruct (Z.leb_spec (2 ^ 63) n); [reflexivity|]. lia.
Qed.

(** The stars of a rating of integer part [n]: the two repeats when
    [n] and [5 - n] fit the index range, [OverflowError] otherwise. *)
Lemma stars_cases (n : Z) :
  (6 - 2 ^ 63 <= n < 2 ^ 63 ->
   HtmlGenerator.stars n =
   Ok (List.repeat 9733%N (Z.to_nat n) ++ List.repeat 9734%N (Z.to_nat (5 - n)))) /\
  (n < 6 - 2 ^ 63 \/ 2 ^ 63 <= n ->
   HtmlGenerator.stars n = Raise OverflowError).
Proof.
  unfold HtmlGenerator.stars, HtmlGenerator.star_filled, HtmlGenerator.star_empty.
  split; intros H.
  - rewrite !str_mul_single by lia. reflexivity.
  - destruct (Z.ltb_spec n (- 2 ^ 63)) as [Hlow|Hlow].
    + now rewrite str_mul_overflow by lia.
    + destruct (Z.leb_spec (2 ^ 63) n) as [Hhigh|Hhigh].
      * now rewrite str_mul_overflow by lia.
      * rewrite str_mul_single by lia. cbn [bind].
        now rewrite str_mul_overflow by lia.
Qed.

Lemma html_escape_length (s : str) :
  (List.length s <= List.length (HtmlGenerator.html_escape s))%nat.
Proof.
  induction s as [|c s IH]; simpl; [lia|].
  rewrite List.length_app.
  repeat match goal with
         | |- context [if ?b then _ else _] => destruct b
         end; simpl; lia.
Qed.

Lemma slice_to_length (n : nat) (s : str) :
  (List.length (slice_to n s) <= n)%nat.
Proof. unfold slice_to. rewrite List.length_firstn. lia. Qed.

Lemma slice_to_exact (n : nat) (s : str) :
  (n <= List.length s)%nat -> List.length (slice_to n s) = n.
Proof. intros H. unfold slice_to. rewrite List.length_firstn. lia. Qed.

(** ** Affiliate product card *)

Section ProductCard.

Variable AFFILIATE_TAG : str.

Lemma product_card_link (product : dict) (c : HtmlGenerator.card) :
  HtmlGenerator.product_card AFFILIATE_TAG product = Ok c ->
  HtmlGenerator.affiliate_link AFFILIATE_TAG product = Ok (HtmlGenerator.c_link c).
Proof.
  unfold HtmlGenerator.product_card.
  destruct (HtmlGenerator.affiliate_link AFFILIATE_TAG product) as [l|]; simpl; [|discriminate].
  destruct (HtmlGenerator.price_html product); simpl; [|discriminate].
  destruct (HtmlGenerator.rating_html product); simpl; [|discriminate].
  intros [= <-]. reflexivity.
Qed.

Lemma product_card_rating (product : dict) (c : HtmlGenerator.card) :
  HtmlGenerator.product_card AFFILIATE_TAG product = Ok c ->
  HtmlGenerator.rating_html product = Ok (HtmlGenerator.c_rating_html c).
Proof.
  unfold HtmlGenerator.product_card.
  destruct (HtmlGenerator.affiliate_link AFFILIATE_TAG product); simpl; [|discriminate].
  destruct (HtmlGenerator.price_html product); simpl; [|discriminate].
  destruct (HtmlGenerator.rating_html product); simpl; [|discriminate].
  intros [= <-]. reflexivity.
Qed.

(** The renderer returns exactly when its three blocks do. *)
Lemma generate_affiliate_product_html_returns (product : dict) :
  returns (HtmlGenerator.generate_affiliate_product_html AFFILIATE_TAG product) =
  returns (HtmlGenerator.affiliate_link AFFILIATE_TAG product) &&
  returns (HtmlGenerator.price_html product) &&
  returns (HtmlGenerator.rating_html product).
Proof.
  unfold HtmlGenerator.generate_affiliate_product_html, HtmlGenerator.product_card.
  destruct (HtmlGenerator.affiliate_link AFFILIATE_TAG product); simpl; [|reflexivity].
  destruct (HtmlGenerator.price_html product); simpl; [|reflexivity].
  destruct (HtmlGenerator.rating_html product); reflexivity.
Qed.

(** C1. Link resolution of the product card: a present (truthy) [asin]
    gives [https://www.amazon.com/dp/{asin}?tag={AFFILIATE_TAG}];
    otherwise the stored link is reused, and [?tag=...] (no [?] in the
    link) or [&tag=...] (a [?] in the link) is appended exactly when the
    link contains [amazon.com] and does not contain the tag, so that a
    tagged link and a link elsewhere stay as they are.  A stored link
    that is not a string has no link at all ([TypeError]).  The link of
    a rendered card is the link so resolved. *)
Theorem affiliate_link_resolution (product : dict) :
  let asin := get product "asin" (VStr []) in
  let stored := get product "affiliate_link" (get product "url" (VStr (lit "#"))) in
  (truthy asin = true ->
   HtmlGenerator.affiliate_link AFFILIATE_TAG product =
   Ok (lit "https://www.amazon.com/dp/" ++ py_str asin ++ lit "?tag=" ++ AFFILIATE_TAG)) /\
  (forall link : str,
   truthy asin = false -> stored = VStr link ->
   HtmlGenerator.affiliate_link AFFILIATE_TAG product =
   Ok (if contains (lit "amazon.com") link && negb (contains AFFILIATE_TAG link)
       then link ++ (if contains (lit "?") link then lit "&" else lit "?") ++
            lit "tag=" ++ AFFILIATE_TAG
       else link)) /\
  (truthy asin = false -> is_str stored = false ->
   HtmlGenerator.affiliate_link AFFILIATE_TAG product = Raise TypeError) /\
  (forall c : HtmlGenerator.card,
   HtmlGenerator.product_card AFFILIATE_TAG product = Ok c ->
   HtmlGenerator.affiliate_link AFFILIATE_TAG product = Ok (HtmlGenerator.c_link c)).
Proof.
  intros asin stored. split; [|split; [|split]].
  - intros Hasin. unfold HtmlGenerator.affiliate_link. fold asin. now rewrite Hasin.
  - intros link Hasin Hstored. unfold HtmlGenerator.affiliate_link.
    fold asin. rewrite Hasin. fold stored. rewrite Hstored. simpl.
    destruct (contains (lit "amazon.com") link); simpl; [|reflexivity].
    destruct (contains AFFILIATE_TAG link); simpl; [reflexivity|].
    destruct (contains (lit "?") link); reflexivity.
  - intros Hasin Hstored. unfold HtmlGenerator.affiliate_link.
    fold asin. rewrite Hasin. fold stored.
    destruct stored; try reflexivity; discriminate.
  - apply product_card_link.
Qed.

End ProductCard.

(** The spec's examples of link rewriting. *)
Example affiliate_link_examples :
  HtmlGenerator.affiliate_link Samples.TAG
    (Samples.product_link "https://amazon.com/dp/B000X?ref=abc") =
  Ok (lit "https://amazon.com/dp/B000X?ref=abc&tag=shoeswiper-20") /\
  HtmlGenerator.affiliate_link Samples.TAG
    (Samples.product_link "https://amazon.com/dp/B000X") =
  Ok (lit "https://amazon.com/dp/B000X?tag=shoeswiper-20") /\
  HtmlGenerator.affiliate_link Samples.TAG
    (Samples.product_link "https://amazon.com/dp/B000X?tag=shoeswiper-20") =
  Ok (lit "https://amazon.com/dp/B000X?tag=shoeswiper-20") /\
  HtmlGenerator.affiliate_link Samples.TAG
    (Samples.product_link "https://example.com/shoe") =
  Ok (lit "https://example.com/shoe").
Proof. repeat split; vm_compute; reflexivity. Qed.

(** C1 at a product with an [asin] and at one with a stored link. *)
Lemma affiliate_link_resolution_witness :
  HtmlGenerator.affiliate_link Samples.TAG Samples.product_asin =
  Ok (lit "https://www.amazon.com/dp/B000X?tag=shoeswiper-20") /\
  HtmlGenerator.affiliate_link Samples.TAG
    (Samples.product_link "https://amazon.com/dp/B000X?ref=abc") =
  Ok (lit "https://amazon.com/dp/B000X?ref=abc&tag=shoeswiper-20").
Proof.
  split.
  - exact (proj1 (affiliate_link_resolution Samples.TAG Samples.product_asin)
             eq_refl).
  - exact (proj1 (proj2 (affiliate_link_resolution Samples.TAG
                           (Samples.product_link "https://amazon.com/dp/B000X?ref=abc")))
             (lit "https://amazon.com/dp/B000X?ref=abc") eq_refl eq_refl).
Defined.

(** ** Rating block *)

(** C2, as stated, fails: a rating of 4.7 is rendered with four filled
    stars and one empty star, where [round(4.7)] is five. *)
Lemma rating_stars_not_rounded :
  ~ (forall (f : float) (n : Z),
       py_float (get Samples.product_rating_47 "rating" (VStr [])) = Ok f ->
       round_float f = Ok n ->
       HtmlGenerator.rating_html Samples.product_rating_47 =
       HtmlGenerator.rating_block n
         (get Samples.product_rating_47 "review_count" (VStr []))).
Proof.
  intros H.
  specialize (H (float_of_decimal false 47 (-1)) 5 eq_refl eq_refl).
  vm_compute in H. discriminate H.
Qed.

(** The rating block for [n] filled stars, as a literal. *)
Lemma rating_block_stars (n : Z) (reviews : value) (stars : str) :
  HtmlGenerator.stars n = Ok stars ->
  HtmlGenerator.rating_block n reviews =
  Ok (lit "<div class=" ++ dquote ++ lit "rating" ++ dquote ++ lit ">" ++
      lit "<span class=" ++ dquote ++ lit "stars" ++ dquote ++ lit ">" ++
      stars ++ lit "</span>" ++
      (if truthy reviews
       then lit " <span class=" ++ dquote ++ lit "review-count" ++ dquote ++
            lit ">(" ++ py_str reviews ++ lit " reviews)</span>"
       else []) ++
      lit "</div>").
Proof.
  intros Hs. unfold HtmlGenerator.rating_block. rewrite Hs. cbn [bind].
  unfold HtmlGenerator.span.
  destruct (truthy reviews);
    cbn [lit list_ascii_of_string List.map N_of_ascii app dquote];
    repeat rewrite <- List.app_assoc; reflexivity.
Qed.

(** C2, amended. The rating block of a rendered card is the one computed
    from the record's rating.  A falsy rating (absent, empty or zero)
    gives no rating block.  Otherwise the rating is converted to a float
    [f] and truncated toward zero, not rounded.  When [0 <= int(f) <= 5]
    the block holds [int(f)] filled stars followed by [5 - int(f)] empty
    stars, and the parenthesized review count when that is truthy.  For
    any other [int(f)], a block that is rendered holds [int(f)] filled
    stars (none when negative) and [5 - int(f)] empty ones (none when
    negative).  The renderer raises when the rating is not a number,
    when [f] is not finite, and when [int(f)] or [5 - int(f)] does not
    fit a signed 64-bit index. *)
Theorem rating_block_truncates (tag : str) (product : dict) :
  let rating := get product "rating" (VStr []) in
  let reviews := get product "review_count" (VStr []) in
  let block (n : Z) :=
    lit "<div class=" ++ dquote ++ lit "rating" ++ dquote ++ lit ">" ++
    lit "<span class=" ++ dquote ++ lit "stars" ++ dquote ++ lit ">" ++
    List.repeat 9733%N (Z.to_nat n) ++
    List.repeat 9734%N (Z.to_nat (5 - n)) ++
    lit "</span>" ++
    (if truthy reviews
     then lit " <span class=" ++ dquote ++ lit "review-count" ++ dquote ++
          lit ">(" ++ py_str reviews ++ lit " reviews)</span>"
     else []) ++
    lit "</div>" in
  (forall c : HtmlGenerator.card,
   HtmlGenerator.product_card tag product = Ok c ->
   HtmlGenerator.rating_html product = Ok (HtmlGenerator.c_rating_html c)) /\
  (truthy rating = false -> HtmlGenerator.rating_html product = Ok []) /\
  (forall (f : float) (n : Z),
   truthy rating = true -> py_float rating = Ok f -> int_of_float f = Ok n ->
   (0 <= n <= 5 -> HtmlGenerator.rating_html product = Ok (block n)) /\
   (forall html, HtmlGenerator.rating_html product = Ok html -> html = block n) /\
   (n < 6 - 2 ^ 63 \/ 2 ^ 63 <= n ->
    HtmlGenerator.rating_html product = Raise OverflowError)) /\
  (forall (f : float) (e : exn),
   truthy rating = true -> py_float rating = Ok f -> int_of_float f = Raise e ->
   HtmlGenerator.rating_html product = Raise e) /\
  (forall e : exn,
   truthy rating = true -> py_float rating = Raise e ->
   HtmlGenerator.rating_html product = Raise e).
Proof.
  intros rating reviews block. split; [|split; [|split; [|split]]].
  - apply product_card_rating.
  - intros Hr. unfold HtmlGenerator.rating_html. fold rating. now rewrite Hr.
  - intros f n Hr Hf Hn.
    assert (Hhtml : HtmlGenerator.rating_html product =
                    HtmlGenerator.rating_block n reviews).
    { unfold HtmlGenerator.rating_html. fold rating reviews.
      rewrite Hr, Hf. cbn [bind]. now rewrite Hn. }
    rewrite Hhtml. destruct (stars_cases n) as [Hin Hout].
    assert (Hblock : 6 - 2 ^ 63 <= n < 2 ^ 63 ->
                     HtmlGenerator.rating_block n reviews = Ok (block n)).
    { intros Hrange. rewrite (rating_block_stars n reviews _ (Hin Hrange)).
      subst block. cbv beta. now rewrite <- !List.app_assoc. }
    split; [|split].
    + intros H05. apply Hblock. lia.
    + intros html Hok.
      destruct (Z.ltb_spec n (6 - 2 ^ 63)) as [Hlow|Hlow];
        [|destruct (Z.leb_spec (2 ^ 63) n) as [Hhigh|Hhigh]].
      * unfold HtmlGenerator.rating_block in Hok.
        rewrite Hout in Hok by lia. discriminate Hok.
      * unfold HtmlGenerator.rating_block in Hok.
        rewrite Hout in Hok by lia. discriminate Hok.
      * rewrite Hblock in Hok by lia. now injection Hok as <-.
    + intros Hrange. unfold HtmlGenerator.rating_block. now rewrite Hout.
  - intros f e Hr Hf He. unfold HtmlGenerator.rating_html. fold rating.
    rewrite Hr, Hf. cbn [bind]. now rewrite He.
  - intros e Hr He. unfold HtmlGenerator.rating_html. fold rating.
    now rewrite Hr, He.
Qed.

(** C2, amended, at a rating of 4.7: four filled stars, one empty. *)
Lemma rating_block_truncates_witness :
  HtmlGenerator.rating_html Samples.product_rating_47 =
  Ok (lit "<div class=" ++ dquote ++ lit "rating" ++ dquote ++ lit ">" ++
      lit "<span class=" ++ dquote ++ lit "stars" ++ dquote ++ lit ">" ++
      List.repeat 9733%N 4 ++ List.repeat 9734%N 1 ++ lit "</span>" ++
      lit "</div>").
Proof.
  exact (proj1 (proj1 (proj2 (proj2
           (rating_block_truncates Samples.TAG Samples.product_rating_47)))
           (float_of_decimal false 47 (-1)) 4 eq_refl eq_refl eq_refl)
           ltac:(lia)).
Defined.

(** The rating ['1e19'] is beyond the index range, ['inf'] and ['nan']
    have no integer part: the renderer raises on the three.  A rating of
    7 gives seven filled stars and no empty one. *)
Example rating_block_raises :
  HtmlGenerator.rating_html {[ "rating" := VStr (lit "1e19") ]} =
  Raise OverflowError /\
  HtmlGenerator.rating_html {[ "rating" := VStr (lit "inf") ]} =
  Raise OverflowError /\
  HtmlGenerator.rating_html {[ "rating" := VStr (lit "nan") ]} =
  Raise ValueError /\
  HtmlGenerator.rating_html {[ "rating" := VNum (Decimal false 7 0) ]} =
  Ok (lit "<div class=" ++ dquote ++ lit "rating" ++ dquote ++ lit ">" ++
      lit "<span class=" ++ dquote ++ lit "stars" ++ dquote ++ lit ">" ++
      List.repeat 9733%N 7 ++ lit "</span>" ++ lit "</div>").
Proof. repeat split; vm_compute; reflexivity. Qed.

(** [float] reads a decimal digit of any script and skips white space
    around the number, but not the separators U+001C to U+001F: a rating
    written in full-width digits renders, one led by U+001C raises. *)
Example rating_of_other_scripts :
  HtmlGenerator.rating_html
    {[ "rating" := VStr [65300; 46; 65303]%N ]} =
  HtmlGenerator.rating_html {[ "rating" := VStr (lit "4.7") ]} /\
  returns (HtmlGenerator.rating_html
             {[ "rating" := VStr (160 :: lit "4.7 ")%N ]}) = true /\
  HtmlGenerator.rating_html {[ "rating" := VStr (28 :: lit "4.5")%N ]} =
  Raise ValueError.
Proof. repeat split; vm_compute; reflexivity. Qed.

(** ** Unparseable prices and ratings *)

(** C3, as stated, fails: a rating of ['N/A'], or an original price of
    ['TBD'] next to a price, makes the renderer raise [ValueError]. *)
Lemma product_card_raises :
  HtmlGenerator.generate_affiliate_product_html Samples.TAG
    Samples.product_rating_text = Raise ValueError /\
  HtmlGenerator.generate_affiliate_product_html Samples.TAG
    Samples.product_original_text = Raise ValueError.
Proof. split; vm_compute; reflexivity. Qed.

Lemma price_html_nonempty (product : dict) :
  truthy (get product "price" (get product "current_price" (VStr []))) = true ->
  HtmlGenerator.price_html product <> Ok [].
Proof.
  intros Hp. unfold HtmlGenerator.price_html. rewrite Hp.
  destruct (truthy (get product "original_price" (VStr []))).
  - destruct (HtmlGenerator.price_number (get product "original_price" (VStr [])))
      as [o|]; cbn [bind]; [|discriminate].
    destruct (HtmlGenerator.price_number _) as [p|]; cbn [bind]; [|discriminate].
    destruct (PrimFloat.ltb p o); [|discriminate].
    destruct (PrimFloat.is_zero o); [discriminate|].
    destruct (int_of_float _); cbn [bind]; discriminate.
  - discriminate.
Qed.

Lemma rating_html_nonempty (product : dict) :
  truthy (get product "rating" (VStr [])) = true ->
  HtmlGenerator.rating_html product <> Ok [].
Proof.
  intros Hr. unfold HtmlGenerator.rating_html. rewrite Hr.
  destruct (py_float _); cbn [bind]; [|discriminate].
  destruct (int_of_float _); cbn [bind]; [|discriminate].
  unfold HtmlGenerator.rating_block.
  destruct (HtmlGenerator.stars _); cbn [bind]; discriminate.
Qed.

(** C3, amended. The product-card renderer raises, rather than omitting
    the block, when a truthy rating does not convert to a float, and when
    price and original price are both truthy and one of them is not
    parseable as a number after [$] is removed.  A block is omitted
    exactly when its value is falsy (absent or empty): a block that is
    empty comes from a falsy value, and a price with no original price
    is rendered as given, parseable or not. *)
Theorem product_card_unparseable_number (tag : str) (product : dict) :
  let price := get product "price" (get product "current_price" (VStr [])) in
  let original_price := get product "original_price" (VStr []) in
  let rating := get product "rating" (VStr []) in
  (truthy rating = true -> returns (py_float rating) = false ->
   returns (HtmlGenerator.generate_affiliate_product_html tag product) = false) /\
  (truthy price = true -> truthy original_price = true ->
   returns (HtmlGenerator.price_number original_price) &&
   returns (HtmlGenerator.price_number price) = false ->
   returns (HtmlGenerator.generate_affiliate_product_html tag product) = false) /\
  (truthy price = true -> truthy original_price = false ->
   HtmlGenerator.price_html product =
   Ok (lit "<span class=" ++ dquote ++ lit "current-price" ++ dquote ++
       lit ">$" ++ py_str price ++ lit "</span>")) /\
  (truthy price = false <-> HtmlGenerator.price_html product = Ok []) /\
  (truthy rating = false <-> HtmlGenerator.rating_html product = Ok []).
Proof.
  intros price original_price rating. repeat split.
  - intros Hr Hf. rewrite generate_affiliate_product_html_returns.
    unfold HtmlGenerator.rating_html. fold rating. rewrite Hr.
    destruct (py_float rating); [discriminate|]. simpl. apply andb_false_r.
  - intros Hp Ho Hn. rewrite generate_affiliate_product_html_returns.
    unfold HtmlGenerator.price_html. fold price original_price. rewrite Hp, Ho.
    destruct (HtmlGenerator.price_number original_price);
      destruct (HtmlGenerator.price_number price); simpl in *;
      try discriminate; rewrite ?andb_false_r; reflexivity.
  - intros Hp Ho. unfold HtmlGenerator.price_html.
    fold price original_price. rewrite Hp, Ho. simpl.
    unfold HtmlGenerator.span.
    cbn [lit list_ascii_of_string List.map N_of_ascii app dquote].
    repeat rewrite <- List.app_assoc. reflexivity.
  - intros Hp. unfold HtmlGenerator.price_html. fold price. now rewrite Hp.
  - intros Hempty. destruct (truthy price) eqn:Hp; [|reflexivity].
    now destruct (price_html_nonempty product Hp).
  - intros Hr. unfold HtmlGenerator.rating_html. fold rating. now rewrite Hr.
  - intros Hempty. destruct (truthy rating) eqn:Hr; [|reflexivity].
    now destruct (rating_html_nonempty product Hr).
Qed.

(** C3, amended, at a rating of ['N/A'], at an original price of
    ['TBD'], and at a price of ['Call for price'] on its own. *)
Lemma product_card_unparseable_number_witness :
  returns (HtmlGenerator.generate_affiliate_product_html Samples.TAG
             Samples.product_rating_text) = false /\
  returns (HtmlGenerator.generate_affiliate_product_html Samples.TAG
             Samples.product_original_text) = false /\
  HtmlGenerator.price_html Samples.product_price_text =
  Ok (lit "<span class=" ++ dquote ++ lit "current-price" ++ dquote ++
      lit ">$Call for price</span>").
Proof.
  split; [|split].
  - exact (proj1 (product_card_unparseable_number Samples.TAG
                    Samples.product_rating_text) eq_refl eq_refl).
  - exact (proj1 (proj2 (product_card_unparseable_number Samples.TAG
                           Samples.product_original_text))
             eq_refl eq_refl eq_refl).
  - exact (proj1 (proj2 (proj2 (product_card_unparseable_number Samples.TAG
                                  Samples.product_price_text)))
             eq_refl eq_refl).
Defined.

(** ** Descriptions and titles *)

(** C6. The meta-tag description is [meta_description], else [excerpt],
    else the empty string, escaped and then cut to its first 160
    characters: at most 160 characters, and exactly 160 when the stored
    text is longer than that.  The index excerpt is the escaped [excerpt]
    cut to its first 200 characters, and the card's paragraph always
    appends the literal [...] to it.  Both cuts are plain prefixes. *)
Theorem description_truncation (DOMAIN : str) (clock : datetime) (p : post)
  (cfg : HtmlGenerator.config) :
  let description :=
    get (attrs p) "meta_description" (get (attrs p) "excerpt" (VStr [])) in
  let meta :=
    HtmlGenerator.mt_description (HtmlGenerator.generate_meta_tags DOMAIN clock p cfg) in
  let card := HtmlGenerator.index_card_of DOMAIN p in
  ((forall v, attrs p !! "meta_description" = Some v -> description = v) /\
   (forall v, attrs p !! "meta_description" = None ->
              attrs p !! "excerpt" = Some v -> description = v) /\
   (attrs p !! "meta_description" = None -> attrs p !! "excerpt" = None ->
    description = VStr [])) /\
  meta = firstn 160 (HtmlGenerator.escape_html description) /\
  (List.length meta <= 160)%nat /\
  (forall s : str, description = VStr s -> (160 < List.length s)%nat ->
                   List.length meta = 160%nat) /\
  HtmlGenerator.i_excerpt card =
    firstn 200 (HtmlGenerator.escape_html (get (attrs p) "excerpt" (VStr []))) /\
  (List.length (HtmlGenerator.i_excerpt card) <= 200)%nat /\
  HtmlGenerator.index_excerpt_paragraph card =
    lit "<p>" ++ HtmlGenerator.i_excerpt card ++ lit "...</p>".
Proof.
  intros description meta card.
  assert (Hmeta : meta = firstn 160 (HtmlGenerator.escape_html description))
    by reflexivity.
  split; [|split; [exact Hmeta|split; [|split; [|split; [reflexivity|split]]]]].
  - unfold description, get. repeat split.
    + intros v ->. reflexivity.
    + intros v -> ->. reflexivity.
    + intros -> ->. reflexivity.
  - rewrite Hmeta. apply slice_to_length.
  - intros s Hs Hlen. rewrite Hmeta, Hs.
    apply slice_to_exact. unfold HtmlGenerator.escape_html.
    destruct s as [|c s]; [simpl in Hlen; lia|]. cbn [truthy negb py_str].
    pose proof (html_escape_length (c :: s)). lia.
  - apply slice_to_length.
  - reflexivity.
Qed.

(** C6 at a description of 161 characters. *)
Lemma description_truncation_witness :
  List.length
    (HtmlGenerator.mt_description
       (HtmlGenerator.generate_meta_tags Samples.DOMAIN Samples.clock_mid_month
          Samples.post_long_description (HtmlGenerator.BLOG_CONFIGS Sneaker))) =
  160%nat.
Proof.
  refine (proj1 (proj2 (proj2 (proj2
            (description_truncation Samples.DOMAIN Samples.clock_mid_month
               Samples.post_long_description (HtmlGenerator.BLOG_CONFIGS Sneaker)))))
            (List.repeat 97%N 161) eq_refl _).
  vm_compute. lia.
Defined.

(** C7, as stated, fails: for a post with no title the meta tags carry
    ['ShoeSwiper Blog'], not ['Untitled']. *)
Lemma meta_title_not_untitled :
  attrs Samples.post_untitled !! "title" = None /\
  HtmlGenerator.mt_title
    (HtmlGenerator.generate_meta_tags Samples.DOMAIN Samples.clock_mid_month
       Samples.post_untitled (HtmlGenerator.BLOG_CONFIGS Sneaker)) <>
  lit "Untitled".
Proof. split; [vm_compute; reflexivity|]. vm_compute. discriminate. Qed.

(** C7, amended. For every post whose [title] is absent, the article
    heading, the index card and the Atom entry carry the literal
    ['Untitled'], the meta tags carry the literal ['ShoeSwiper Blog'], and
    so no rendered title is empty. *)
Theorem missing_title_fallbacks (DOMAIN tag : str) (clock : datetime) (p : post)
  (c : category) :
  attrs p !! "title" = None ->
  HtmlGenerator.mt_title
    (HtmlGenerator.generate_meta_tags DOMAIN clock p (HtmlGenerator.BLOG_CONFIGS c)) =
  lit "ShoeSwiper Blog" /\
  (forall a,
   HtmlGenerator.generate_article_html DOMAIN tag clock p (HtmlGenerator.BLOG_CONFIGS c) = Ok a ->
   HtmlGenerator.a_title a = lit "Untitled") /\
  HtmlGenerator.i_title (HtmlGenerator.index_card_of DOMAIN p) = lit "Untitled" /\
  (forall e,
   RssHandler.add_atom_entry DOMAIN clock c p = Ok e ->
   RssHandler.e_title e = VStr (lit "Untitled")) /\
  lit "Untitled" <> [] /\ lit "ShoeSwiper Blog" <> [].
Proof.
  intros Htitle. repeat split.
  - unfold HtmlGenerator.generate_meta_tags, get. rewrite Htitle. reflexivity.
  - intros a. unfold HtmlGenerator.generate_article_html.
    destruct (get (attrs p) "content" (get (attrs p) "body" (VStr [])));
      simpl; try discriminate.
    destruct (HtmlGenerator.products_html _ _); simpl; [|discriminate].
    intros [= <-]. simpl. unfold get. rewrite Htitle. reflexivity.
  - unfold HtmlGenerator.index_card_of, get. rewrite Htitle. reflexivity.
  - intros e. unfold RssHandler.add_atom_entry.
    destruct (RssHandler.isoformat_of _); simpl; [|discriminate].
    destruct (RssHandler.isoformat_of _); simpl; [|discriminate].
    intros [= <-]. simpl. unfold get. rewrite Htitle. reflexivity.
  - discriminate.
  - discriminate.
Qed.

(** C7, amended, at a post with no title. *)
Lemma missing_title_fallbacks_witness :
  HtmlGenerator.i_title (HtmlGenerator.index_card_of Samples.DOMAIN Samples.post_untitled) =
  lit "Untitled".
Proof.
  exact (proj1 (proj2 (proj2
           (missing_title_fallbacks Samples.DOMAIN Samples.TAG
              Samples.clock_mid_month Samples.post_untitled Sneaker eq_refl)))).
Defined.

(** ** Sitemap change frequency *)

(** [datetime.fromisoformat] as CPython 3.11 reads it: the extended and
    the basic format, an offset with or without colon, a fraction of any
    length cut to microseconds, a week date; and what it refuses. *)
Example fromisoformat_examples :
  fromisoformat (lit "2024-05-14T12:00:00+0000") =
  Ok (Datetime 2024 5 14 12 0 0 0 (Some 0)) /\
  fromisoformat (lit "20240514T120000") =
  Ok (Datetime 2024 5 14 12 0 0 0 None) /\
  fromisoformat (lit "2024-05-14T12:00:00.5") =
  Ok (Datetime 2024 5 14 12 0 0 500000 None) /\
  fromisoformat (lit "2024-05-14T12:00:00,123456789") =
  Ok (Datetime 2024 5 14 12 0 0 123456 None) /\
  fromisoformat (lit "2024-W20-2") = Ok (Datetime 2024 5 14 0 0 0 0 None) /\
  fromisoformat (lit "2024-05-14 12:00") =
  Ok (Datetime 2024 5 14 12 0 0 0 None) /\
  fromisoformat (lit "2024-05-14T12:00:00+05:30") =
  Ok (Datetime 2024 5 14 12 0 0 0 (Some 19800000000)) /\
  fromisoformat (lit "2024-05-14T12:00:00Z") =
  Ok (Datetime 2024 5 14 12 0 0 0 (Some 0)) /\
  fromisoformat (lit "2024-5-14") = Raise ValueError /\
  fromisoformat (lit "2024-05-14T24:00:00") = Raise ValueError /\
  fromisoformat (lit "N/A") = Raise ValueError.
Proof. repeat split; vm_compute; reflexivity. Qed.

Lemma changefreq_of_age_cases (days_old : Z) :
  (days_old < 7 -> SitemapHandler.changefreq_of_age days_old = lit "daily") /\
  (7 <= days_old < 30 -> SitemapHandler.changefreq_of_age days_old = lit "weekly") /\
  (30 <= days_old < 180 -> SitemapHandler.changefreq_of_age days_old = lit "monthly") /\
  (180 <= days_old -> SitemapHandler.changefreq_of_age days_old = lit "yearly").
Proof.
  unfold SitemapHandler.changefreq_of_age.
  destruct (Z.ltb_spec days_old 7), (Z.ltb_spec days_old 30),
    (Z.ltb_spec days_old 180); repeat split; intros; try lia; reflexivity.
Qed.

Lemma url_entry_changefreq (DOMAIN : str) (clock : datetime) (c : category)
  (p : post) (u : SitemapHandler.url_entry) :
  SitemapHandler.url_entry_of DOMAIN clock c p = Ok u ->
  SitemapHandler.u_changefreq u =
  SitemapHandler.changefreq_of (now_utc clock) (SitemapHandler.BLOG_CONFIGS c) p.
Proof.
  unfold SitemapHandler.url_entry_of.
  destruct (SitemapHandler.lastmod_of _ _); simpl; [|discriminate].
  destruct (SitemapHandler.image_of _); simpl; [|discriminate].
  intros [= <-]. reflexivity.
Qed.

(** C4 at its failing input.  A workwear post published one day before
    the render, whose [published_at] ['2024-05-14T12:00:00'] parses but
    carries no UTC offset, gets the category default [weekly]: the
    subtraction of line 160 raises inside the bare [try].  The same
    instant written with [Z] gets [daily], which is what the comment
    "Change frequency based on post age" announces for both. *)
Lemma changefreq_naive_timestamp :
  exists pub_dt : datetime,
    as_datetime (get (attrs Samples.post_naive) "published_at" (VStr [])) = Ok pub_dt /\
    timedelta_days (wall_us (now_utc Samples.clock_mid_month) - wall_us pub_dt) = 1 /\
    SitemapHandler.changefreq_of (now_utc Samples.clock_mid_month)
      (SitemapHandler.BLOG_CONFIGS Workwear) Samples.post_naive <> lit "daily" /\
    SitemapHandler.changefreq_of (now_utc Samples.clock_mid_month)
      (SitemapHandler.BLOG_CONFIGS Workwear) Samples.post_naive = lit "weekly" /\
    SitemapHandler.changefreq_of (now_utc Samples.clock_mid_month)
      (SitemapHandler.BLOG_CONFIGS Workwear) Samples.post_1_day = lit "daily".
Proof.
  eexists. split; [vm_compute; reflexivity|].
  split; [vm_compute; reflexivity|].
  split; [vm_compute; discriminate|].
  split; vm_compute; reflexivity.
Qed.

(** The change frequency, case by case.  For every post whose
    [published_at] is truthy and is, or parses to, a timestamp with a UTC
    offset, the sitemap renderer assigns [changefreq] from the post's age
    at rendering time: under 7 days [daily], from 7 to under 30 [weekly],
    from 30 to under 180 [monthly], 180 or more [yearly].  When
    [published_at] is absent, falsy, unparseable, or parses to a
    timestamp without UTC offset, the category's configured default is
    used. *)
Theorem changefreq_by_age (clock : datetime) (c : category) (p : post) :
  let now := now_utc clock in
  let cfg := SitemapHandler.BLOG_CONFIGS c in
  let published_at := get (attrs p) "published_at" (VStr []) in
  let changefreq := SitemapHandler.changefreq_of now cfg p in
  (forall (pub_dt : datetime) (off : Z),
   truthy published_at = true ->
   as_datetime published_at = Ok pub_dt -> tzinfo pub_dt = Some off ->
   let age := wall_us now - (wall_us pub_dt - off) in
   (age < 7 * us_per_day -> changefreq = lit "daily") /\
   (7 * us_per_day <= age < 30 * us_per_day -> changefreq = lit "weekly") /\
   (30 * us_per_day <= age < 180 * us_per_day -> changefreq = lit "monthly") /\
   (180 * us_per_day <= age -> changefreq = lit "yearly")) /\
  (truthy published_at = false -> changefreq = SitemapHandler.cfg_changefreq cfg) /\
  (forall e : exn,
   as_datetime published_at = Raise e ->
   changefreq = SitemapHandler.cfg_changefreq cfg) /\
  (forall pub_dt : datetime,
   as_datetime published_at = Ok pub_dt -> tzinfo pub_dt = None ->
   changefreq = SitemapHandler.cfg_changefreq cfg) /\
  (forall (DOMAIN : str) (u : SitemapHandler.url_entry),
   SitemapHandler.url_entry_of DOMAIN clock c p = Ok u ->
   SitemapHandler.u_changefreq u = changefreq).
Proof.
  intros now cfg published_at changefreq.
  split; [|split; [|split; [|split]]].
  - intros pub_dt off Ht Hp Hoff age.
    assert (Hc : changefreq =
                 SitemapHandler.changefreq_of_age (age / us_per_day)).
    { unfold changefreq, SitemapHandler.changefreq_of. fold published_at.
      rewrite Ht, Hp. simpl. unfold dt_sub. rewrite Hoff. simpl.
      unfold timedelta_days, age. now rewrite Z.sub_0_r. }
    assert (HD : 0 < us_per_day) by reflexivity.
    destruct (changefreq_of_age_cases (age / us_per_day)) as (H1 & H2 & H3 & H4).
    rewrite Hc. repeat split; intros Hage.
    + apply H1. apply Z.div_lt_upper_bound; lia.
    + apply H2. split.
      * apply Z.div_le_lower_bound; lia.
      * apply Z.div_lt_upper_bound; lia.
    + apply H3. split.
      * apply Z.div_le_lower_bound; lia.
      * apply Z.div_lt_upper_bound; lia.
    + apply H4. apply Z.div_le_lower_bound; lia.
  - intros Ht. unfold changefreq, SitemapHandler.changefreq_of.
    fold published_at. now rewrite Ht.
  - intros e He. unfold changefreq, SitemapHandler.changefreq_of.
    fold published_at. rewrite He. now destruct (truthy published_at).
  - intros pub_dt Hp Hoff. unfold changefreq, SitemapHandler.changefreq_of.
    fold published_at. rewrite Hp. simpl. unfold dt_sub. rewrite Hoff.
    now destruct (truthy published_at).
  - intros DOMAIN u. apply url_entry_changefreq.
Qed.

(** The cases at a post one day old, with and without UTC offset. *)
Lemma changefreq_by_age_witness :
  SitemapHandler.changefreq_of (now_utc Samples.clock_mid_month)
    (SitemapHandler.BLOG_CONFIGS Workwear) Samples.post_1_day = lit "daily" /\
  SitemapHandler.changefreq_of (now_utc Samples.clock_mid_month)
    (SitemapHandler.BLOG_CONFIGS Workwear) Samples.post_naive = lit "weekly".
Proof.
  split.
  - refine (proj1 (proj1 (changefreq_by_age Samples.clock_mid_month Workwear
                            Samples.post_1_day)
                     (Datetime 2024 5 14 12 0 0 0 (Some 0)) 0 eq_refl eq_refl eq_refl) _).
    vm_compute. reflexivity.
  - exact (proj1 (proj2 (proj2 (proj2
             (changefreq_by_age Samples.clock_mid_month Workwear Samples.post_naive))))
             (Datetime 2024 5 14 12 0 0 0 None) eq_refl eq_refl).
Defined.

(** The spec's example: posts aged 1, 10, 40 and 200 days. *)
Example changefreq_examples :
  List.map (SitemapHandler.changefreq_of (now_utc Samples.clock_mid_month)
              (SitemapHandler.BLOG_CONFIGS Sneaker))
    [Samples.post_1_day; Samples.post_10_days; Samples.post_40_days;
     Samples.post_200_days] =
  [lit "daily"; lit "weekly"; lit "monthly"; lit "yearly"].
Proof. vm_compute. reflexivity. Qed.

(** ** News sitemap *)

Lemma replace_day_ok (dt r : datetime) (d : Z) :
  replace_day dt d = Ok r -> 1 <= d.
Proof.
  unfold replace_day, new_datetime, check_date_fields.
  destruct (Z.leb_spec 1 d) as [H|H]; [intros _; exact H|].
  rewrite !andb_false_r. simpl. discriminate.
Qed.

Lemma replace_day_out_of_range (dt : datetime) (d : Z) :
  d < 1 -> replace_day dt d = Raise ValueError.
Proof.
  intros H. unfold replace_day, new_datetime, check_date_fields.
  destruct (Z.leb_spec 1 d); [lia|]. rewrite !andb_false_r. reflexivity.
Qed.

(** From the 3rd of a month on, the cutoff is midnight UTC two days
    earlier in the same month. *)
Lemma news_cutoff_mid_month (clock : datetime) :
  check_date_fields (year clock) (month clock) (day clock) = true ->
  3 <= day clock ->
  SitemapHandler.news_cutoff clock =
  Ok (Datetime (year clock) (month clock) (day clock - 2) 0 0 0 0 (Some 0)).
Proof.
  intros Hv Hd. unfold SitemapHandler.news_cutoff, replace_day, new_datetime.
  simpl. unfold check_date_fields in *.
  repeat match goal with
         | H : _ && _ = true |- _ => apply andb_prop in H; destruct H
         end.
  repeat match goal with
         | H : (_ <=? _) = true |- _ => apply Z.leb_le in H
         end.
  repeat match goal with
         | H : (?a <=? ?b) = true |- context [?a <=? ?b] => rewrite H
         end.
  replace (1 <=? year clock) with true by (symmetry; apply Z.leb_le; lia).
  replace (year clock <=? 9999) with true by (symmetry; apply Z.leb_le; lia).
  replace (1 <=? month clock) with true by (symmetry; apply Z.leb_le; lia).
  replace (month clock <=? 12) with true by (symmetry; apply Z.leb_le; lia).
  replace (1 <=? day clock - 2) with true by (symmetry; apply Z.leb_le; lia).
  replace (day clock - 2 <=? days_in_month (year clock) (month clock))
    with true by (symmetry; apply Z.leb_le; lia).
  reflexivity.
Qed.

(** C10. The cutoff of the news sitemap is the start of the current UTC
    day with its day-of-month replaced by that day minus 2.  On the 1st
    and on the 2nd of a month this raises [ValueError], and with it the
    whole news-sitemap render, whatever the posts; a render that returns
    therefore ran on a day-of-month of at least 3, where the cutoff is
    midnight two days earlier. *)
Theorem news_cutoff_day_of_month (DOMAIN : str) (clock : datetime) :
  SitemapHandler.news_cutoff clock =
    replace_day (replace_midnight (now_utc clock)) (day clock - 2) /\
  (day clock = 1 \/ day clock = 2 ->
   SitemapHandler.news_cutoff clock = Raise ValueError /\
   forall (c : category) (posts : list post),
     SitemapHandler.generate_news_sitemap DOMAIN clock c posts = Raise ValueError) /\
  (forall (c : category) (posts : list post) r,
     SitemapHandler.generate_news_sitemap DOMAIN clock c posts = Ok r ->
     3 <= day clock) /\
  (check_date_fields (year clock) (month clock) (day clock) = true ->
   3 <= day clock ->
   SitemapHandler.news_cutoff clock =
   Ok (Datetime (year clock) (month clock) (day clock - 2) 0 0 0 0 (Some 0))).
Proof.
  split; [reflexivity|]. split; [|split; [|apply news_cutoff_mid_month]].
  - intros Hday.
    assert (Hc : SitemapHandler.news_cutoff clock = Raise ValueError).
    { unfold SitemapHandler.news_cutoff. apply replace_day_out_of_range.
      simpl. lia. }
    split; [exact Hc|]. intros c posts.
    unfold SitemapHandler.generate_news_sitemap. now rewrite Hc.
  - intros c posts r. unfold SitemapHandler.generate_news_sitemap.
    destruct (SitemapHandler.news_cutoff clock) as [cutoff|] eqn:Hc;
      simpl; [|discriminate].
    intros _. unfold SitemapHandler.news_cutoff in Hc.
    apply replace_day_ok in Hc. simpl in Hc. lia.
Qed.

(** C10 on 1 March 2024. *)
Lemma news_cutoff_day_of_month_witness :
  SitemapHandler.generate_news_sitemap Samples.DOMAIN Samples.clock_first_of_month
    Sneaker [Samples.post_end_of_february] = Raise ValueError.
Proof.
  exact (proj2 (proj1 (proj2 (news_cutoff_day_of_month Samples.DOMAIN
                                Samples.clock_first_of_month))
                  (or_introl eq_refl))
           Sneaker [Samples.post_end_of_february]).
Defined.

(** C5 at its failing input: on 1 March 2024 a post published the day
    before is not included; the render raises instead. *)
Lemma news_sitemap_first_of_month :
  SitemapHandler.generate_news_sitemap Samples.DOMAIN Samples.clock_first_of_month
    Sneaker [Samples.post_end_of_february] = Raise ValueError /\
  SitemapHandler.generate_news_sitemap Samples.DOMAIN Samples.clock_first_of_month
    Sneaker [] = Raise ValueError.
Proof. split; vm_compute; reflexivity. Qed.

(** The spec's example, mid-month: a post published three days ago is
    excluded, one published a day ago is included, and with no recent
    post there is no document. *)
Example news_sitemap_examples :
  bind (SitemapHandler.generate_news_sitemap Samples.DOMAIN Samples.clock_mid_month
          Sneaker [Samples.post_3_days; Samples.post_1_day])
       (fun doc => Ok (option_map (List.map SitemapHandler.n_loc) doc)) =
  Ok (Some [lit "https://shoeswiper.com/blog/sneaker/one"]) /\
  SitemapHandler.generate_news_sitemap Samples.DOMAIN Samples.clock_mid_month
    Sneaker [Samples.post_3_days] = Ok None.
Proof. split; vm_compute; reflexivity. Qed.

(** ** Status codes *)

Section StatusCodes.

Variable DOMAIN : str.

(** The feed handler: 200 exactly when no failure was recorded, 207
    otherwise. *)
Lemma rss_status_code
  (query scan : category -> result (list post))
  (put_object : nat -> str -> result unit)
  (generate_rss generate_atom : category -> list post -> result str)
  (generate_opml : result str) (ev : RssHandler.event) :
  let r := RssHandler.lambda_handler DOMAIN query scan put_object
             generate_rss generate_atom generate_opml ev in
  (RssHandler.statusCode r = 200 <-> RssHandler.failed (RssHandler.body r) = []) /\
  (RssHandler.statusCode r = 207 <-> RssHandler.failed (RssHandler.body r) <> []).
Proof.
  intros r. unfold r, RssHandler.lambda_handler. simpl.
  destruct (RssHandler.failed _); simpl; repeat split;
    intros; try discriminate; try reflexivity; congruence.
Qed.

(** The page handler and the sitemap handler answer 200 on every path. *)
Lemma html_status_code (tag : str)
  (query : category -> result (list post))
  (get_item : str -> result (option post))
  (put_object : nat -> str -> result unit)
  (clock : datetime) (ev : HtmlGenerator.event) :
  HtmlGenerator.statusCode
    (HtmlGenerator.lambda_handler DOMAIN tag query get_item put_object clock ev) = 200.
Proof. reflexivity. Qed.

Lemma sitemap_status_code
  (query : category -> SitemapHandler.pages)
  (scan : category -> result (list post))
  (put_object : nat -> str -> result unit) (ping : str -> bool)
  (clock : datetime) (ev : SitemapHandler.event) :
  SitemapHandler.statusCode
    (SitemapHandler.lambda_handler DOMAIN query scan put_object ping clock ev) = 200.
Proof.
  unfold SitemapHandler.lambda_handler. destruct (SitemapHandler.ev_ping_only ev); reflexivity.
Qed.

End StatusCodes.

(** C8 at its failing inputs.  The page handler, asked for the sneaker
    category when the table holds a post whose product rating is
    ['N/A'], records the failure of that post and still answers 200; the
    sitemap handler, run on the first of a month, records the failure of
    the category and still answers 200. *)
Lemma status_200_with_recorded_failures :
  (let r := HtmlGenerator.lambda_handler Samples.DOMAIN Samples.TAG
              Samples.table_bad_product Samples.no_item Samples.s3_ok
              Samples.clock_mid_month Samples.html_event_sneaker in
   HtmlGenerator.errors (HtmlGenerator.body r) =
     [HtmlGenerator.PostFailure (lit "p1") ValueError] /\
   HtmlGenerator.statusCode r = 200) /\
  (let r := SitemapHandler.lambda_handler Samples.DOMAIN
              Samples.index_leap_day Samples.scan_empty Samples.s3_ok
              Samples.ping_ok Samples.clock_first_of_month
              Samples.sitemap_event_sneaker in
   List.filter SitemapHandler.is_error (SitemapHandler.sitemaps (SitemapHandler.body r)) =
     [SitemapHandler.SitemapError Sneaker ValueError] /\
   SitemapHandler.statusCode r = 200).
Proof. split; split; vm_compute; reflexivity. Qed.

(** ** Order of the fallback scan *)

(** [value_lt] never holds both ways. *)
Lemma str_ltb_asym (a b : str) : str_ltb a b = true -> str_ltb b a = false.
Proof.
  revert b. induction a as [|x a IH]; intros [|y b]; simpl; try reflexivity;
    try discriminate.
  intros H. apply orb_true_iff in H.
  destruct (N.ltb_spec y x) as [Hyx|Hyx]; simpl.
  - destruct H as [H|H].
    + apply N.ltb_lt in H. lia.
    + apply andb_true_iff in H. destruct H as [H _]. apply N.eqb_eq in H. lia.
  - destruct (N.eqb_spec y x) as [->|Hne]; simpl; [|reflexivity].
    destruct H as [H|H].
    + apply N.ltb_lt in H. lia.
    + apply andb_true_iff in H. destruct H as [_ H]. now apply IH.
Qed.

Lemma value_lt_asym (a b : value) :
  RssHandler.value_lt a b = Ok true -> RssHandler.value_lt b a = Ok false.
Proof.
  assert (Hnum : forall ca ea cb eb,
             (ca * 10 ^ (ea - Z.min ea eb) <? cb * 10 ^ (eb - Z.min ea eb)) = true ->
             (cb * 10 ^ (eb - Z.min eb ea) <? ca * 10 ^ (ea - Z.min eb ea)) = false).
  { intros ca ea cb eb H. rewrite (Z.min_comm eb ea).
    apply Z.ltb_lt in H. apply Z.ltb_ge. lia. }
  destruct a as [|ba|sa|da|ta], b as [|bb|sb|db|tb]; simpl;
    try discriminate;
    try (intros [= H]; f_equal; now apply Hnum).
  - intros [= H]. f_equal. now apply str_ltb_asym.
  - unfold dt_sub.
    destruct (tzinfo ta), (tzinfo tb); simpl; try discriminate;
      intros [= H]; f_equal; apply Z.ltb_lt in H; apply Z.ltb_ge; lia.
Qed.

Lemma insert_desc_sorted (x : post) (l r : list post) :
  Sorted RssHandler.not_less l -> RssHandler.insert_desc x l = Ok r ->
  Sorted RssHandler.not_less r /\
  (forall z, HdRel RssHandler.not_less z l -> RssHandler.not_less z x ->
             HdRel RssHandler.not_less z r).
Proof.
  revert r. induction l as [|y l IH]; intros r Hs; simpl.
  - intros [= <-]. split; [repeat constructor|]. intros z _ Hz. now constructor.
  - destruct (RssHandler.value_lt (RssHandler.sort_key x) (RssHandler.sort_key y))
      as [[|]|] eqn:Hlt; simpl; try discriminate.
    + destruct (RssHandler.insert_desc x l) as [r'|] eqn:Hi; simpl; [|discriminate].
      intros [= <-]. inversion Hs as [|? ? Hs' Hhd]; subst.
      destruct (IH r' Hs' eq_refl) as [Hr' Hrel].
      split.
      * constructor; [exact Hr'|]. apply Hrel; [exact Hhd|].
        now apply value_lt_asym.
      * intros z Hz _. inversion Hz; subst. now constructor.
    + intros [= <-]. split.
      * constructor; [exact Hs|]. now constructor.
      * intros z _ Hz. now constructor.
Qed.

Lemma sort_desc_sorted (l r : list post) :
  RssHandler.sort_desc l = Ok r -> Sorted RssHandler.not_less r.
Proof.
  revert r. induction l as [|x l IH]; intros r; simpl.
  - intros [= <-]. constructor.
  - destruct (RssHandler.sort_desc l) as [r'|]; simpl; [|discriminate].
    intros Hi. eapply insert_desc_sorted; [|exact Hi]. now apply IH.
Qed.

Lemma firstn_sorted (n : nat) (l : list post) :
  Sorted RssHandler.not_less l -> Sorted RssHandler.not_less (firstn n l).
Proof.
  revert l. induction n as [|n IH]; intros [|x l] Hs; simpl; try constructor.
  - apply IH. now inversion Hs.
  - inversion Hs as [|? ? _ Hhd]; subst.
    destruct n; simpl; [constructor|].
    destruct l; [constructor|]. inversion Hhd; subst. now constructor.
Qed.

(** The feed generator's fallback returns the scanned posts newest key
    first. *)
Lemma rss_fallback_sorted (e : exn) (scan : result (list post)) (limit : Z)
  (l : list post) :
  RssHandler.fetch_posts (Raise e) scan limit = Ok l -> Sorted RssHandler.not_less l.
Proof.
  unfold RssHandler.fetch_posts. destruct scan as [items|]; simpl; [|discriminate].
  destruct (RssHandler.sort_desc items) as [r|] eqn:Hs; simpl; [|discriminate].
  intros [= <-]. apply firstn_sorted. now apply sort_desc_sorted in Hs.
Qed.

(** The sitemap generator's fallback returns the scan as it came. *)
Lemma sitemap_fallback_unsorted (e : exn) (items : list post) (limit : Z) :
  SitemapHandler.fetch_posts (SitemapHandler.LastPage (Raise e)) (Ok items) limit =
  Ok (firstn (Z.to_nat limit) items).
Proof. reflexivity. Qed.

(** C9 at its failing input.  The indexed query fails and the scan
    returns an older post before a newer one: the feed generator's fetch
    puts the newer first, the sitemap generator's fetch keeps the scan
    order, older first. *)
Lemma sitemap_fetch_keeps_scan_order :
  RssHandler.fetch_posts (Raise ClientError)
    (Ok [Samples.post_3_days; Samples.post_1_day]) 50 =
  Ok [Samples.post_1_day; Samples.post_3_days] /\
  SitemapHandler.fetch_posts (SitemapHandler.LastPage (Raise ClientError))
    (Ok [Samples.post_3_days; Samples.post_1_day]) 50000 =
  Ok [Samples.post_3_days; Samples.post_1_day] /\
  RssHandler.value_lt (RssHandler.sort_key Samples.post_3_days)
    (RssHandler.sort_key Samples.post_1_day) = Ok true.
Proof. repeat split; vm_compute; reflexivity. Qed.

(** ** The news filter from the 3rd of a month on *)

Lemma traverse_map {A B C} (f : A -> result B) (g : B -> C) (h : A -> C)
  (l : list A) (r : list B) :
  (forall a b, f a = Ok b -> g b = h a) ->
  traverse f l = Ok r -> List.map g r = List.map h l.
Proof.
  intros Hf. revert r. induction l as [|a l IH]; intros r; simpl.
  - intros [= <-]. reflexivity.
  - destruct (f a) as [b|] eqn:Hb; simpl; [|discriminate].
    destruct (traverse f l) as [bs|]; simpl; [|discriminate].
    intros [= <-]. simpl. f_equal; [now apply Hf|now apply IH].
Qed.

(** X11. A post passes the filter exactly when its publish instant is at or
    after the cutoff, for a publish time carrying a UTC offset; without
    one the comparison fails and the post is dropped. *)
Lemma is_recent_spec (cutoff : datetime) (coff : Z) (p : post) :
  tzinfo cutoff = Some coff ->
  let published_at := get (attrs p) "published_at" (VStr []) in
  (truthy published_at = false -> SitemapHandler.is_recent cutoff p = false) /\
  (forall e, as_datetime published_at = Raise e ->
             SitemapHandler.is_recent cutoff p = false) /\
  (forall pub_dt, as_datetime published_at = Ok pub_dt -> tzinfo pub_dt = None ->
                  SitemapHandler.is_recent cutoff p = false) /\
  (forall pub_dt off,
     truthy published_at = true ->
     as_datetime published_at = Ok pub_dt -> tzinfo pub_dt = Some off ->
     SitemapHandler.is_recent cutoff p = (wall_us cutoff - coff <=? wall_us pub_dt - off)).
Proof.
  intros Hc published_at. unfold SitemapHandler.is_recent. fold published_at.
  repeat split.
  - now intros ->.
  - intros e ->. now destruct (truthy published_at).
  - intros pub_dt -> Hn. simpl. unfold dt_ge, dt_sub. rewrite Hn, Hc.
    now destruct (truthy published_at).
  - intros pub_dt off -> -> Ho. simpl. unfold dt_ge, dt_sub. rewrite Ho, Hc. simpl.
    destruct (Z.leb_spec 0 (wall_us pub_dt - off - (wall_us cutoff - coff)));
      destruct (Z.leb_spec (wall_us cutoff - coff) (wall_us pub_dt - off));
      try reflexivity; lia.
Qed.

(** X12. Once the cutoff is computed, the document lists exactly the posts
    that pass the filter, in order, and there is no document when none
    passes. *)
Lemma news_sitemap_selection (DOMAIN : str) (clock cutoff : datetime)
  (c : category) (posts : list post) :
  SitemapHandler.news_cutoff clock = Ok cutoff ->
  let recent := List.filter (SitemapHandler.is_recent cutoff) posts in
  (recent = [] <->
   SitemapHandler.generate_news_sitemap DOMAIN clock c posts = Ok None) /\
  (forall doc,
   SitemapHandler.generate_news_sitemap DOMAIN clock c posts = Ok (Some doc) ->
   List.map SitemapHandler.n_title doc =
   List.map (fun p => get (attrs p) "title" (VStr (lit "Untitled"))) recent).
Proof.
  intros Hc recent. unfold SitemapHandler.generate_news_sitemap.
  rewrite Hc. simpl. fold recent. split.
  - split.
    + now intros ->.
    + destruct recent as [|p l]; [reflexivity|].
      destruct (traverse _ (p :: l)) as [es|]; simpl; [|discriminate].
      destruct (prettify_xml _); simpl; discriminate.
  - intros doc. destruct recent as [|p l] eqn:Hr; [discriminate|].
    destruct (traverse _ (p :: l)) as [es|] eqn:Ht; cbn [bind]; [|discriminate].
    destruct (prettify_xml _); cbn [bind]; [|discriminate].
    intros [= <-]. eapply traverse_map; [|exact Ht].
    intros q b. unfold SitemapHandler.news_entry_of.
    destruct (as_datetime _); cbn [bind]; [|discriminate].
    intros [= <-]. reflexivity.
Qed.

(* ===================================================================== *)
(** * Further properties of the page generator *)
(* ===================================================================== *)

(** ** Escaping *)

Lemma html_escape_markup_free (s : str) (c : char) :
  In c (HtmlGenerator.html_escape s) -> HtmlGenerator.markup_free c.
Proof.
  unfold HtmlGenerator.html_escape. rewrite in_flat_map.
  intros (x & _ & Hc).
  destruct (N.eqb_spec x 38); [|destruct (N.eqb_spec x 60);
    [|destruct (N.eqb_spec x 62); [|destruct (N.eqb_spec x 34);
      [|destruct (N.eqb_spec x 39)]]]];
    simpl in Hc; unfold HtmlGenerator.markup_free;
    repeat (destruct Hc as [Hc|Hc]; [lia|]);
    destruct Hc.
Qed.

Lemma html_escape_plain (s : str) :
  (forall c, In c s -> HtmlGenerator.markup_free c /\ c <> 38%N) ->
  HtmlGenerator.html_escape s = s.
Proof.
  induction s as [|x s IH]; intros H; [reflexivity|].
  destruct (H x (or_introl eq_refl)) as ((H1 & H2 & H3 & H4) & H5).
  unfold HtmlGenerator.html_escape in *. cbn [List.flat_map].
  rewrite IH by (intros c Hc; apply H; now right).
  destruct (N.eqb_spec x 38); [congruence|].
  destruct (N.eqb_spec x 60); [congruence|].
  destruct (N.eqb_spec x 62); [congruence|].
  destruct (N.eqb_spec x 34); [congruence|].
  destruct (N.eqb_spec x 39); [congruence|]. reflexivity.
Qed.

(** X1. What [escape_html] returns never contains [<], [>], a double
    quote or a single quote, whatever value it is given; and a string
    with none of these and no [&] is returned unchanged. *)
Theorem escape_html_safe (text : value) :
  (forall c : char,
     In c (HtmlGenerator.escape_html text) -> HtmlGenerator.markup_free c) /\
  (forall s : str, text = VStr s ->
     (forall c, In c s -> HtmlGenerator.markup_free c /\ c <> 38%N) ->
     HtmlGenerator.escape_html text = s).
Proof.
  split.
  - intros c. unfold HtmlGenerator.escape_html.
    destruct (truthy text); simpl; [apply html_escape_markup_free|intros []].
  - intros s -> Hs. unfold HtmlGenerator.escape_html.
    destruct s as [|x s]; [reflexivity|]. cbn [truthy negb py_str].
    now apply html_escape_plain.
Qed.

(** X1 at the text [<b>Tom's & co</b>]: its escaped form holds no [<]. *)
Lemma escape_html_safe_witness :
  ~ In 60%N (HtmlGenerator.escape_html (VStr (lit "<b>Tom's & co</b>"))).
Proof.
  intros H.
  destruct (proj1 (escape_html_safe (VStr (lit "<b>Tom's & co</b>"))) 60%N H)
    as [H1 _].
  now apply H1.
Defined.

(** ** Resolving a link twice *)

Lemma startswith_app (p s : str) : startswith p (p ++ s) = true.
Proof. induction p as [|x p IH]; simpl; [reflexivity|]. now rewrite N.eqb_refl. Qed.

Lemma startswith_app_l (p x y : str) :
  startswith p x = true -> startswith p (x ++ y) = true.
Proof.
  revert x. induction p as [|a p IH]; intros [|b x]; simpl; try reflexivity;
    try discriminate.
  intros H. apply andb_true_iff in H. destruct H as [-> H]. simpl. now apply IH.
Qed.

Lemma startswith_refl (p : str) : startswith p p = true.
Proof. induction p as [|x p IH]; simpl; [reflexivity|]. now rewrite N.eqb_refl. Qed.

Lemma contains_unfold (a s : str) :
  contains a s =
  startswith a s || match s with [] => false | _ :: s' => contains a s' end.
Proof. destruct s; reflexivity. Qed.

Lemma contains_app_l (a x y : str) :
  contains a x = true -> contains a (x ++ y) = true.
Proof.
  induction x as [|b x IH]; rewrite contains_unfold; intros H.
  - rewrite orb_false_r in H. destruct a; [|discriminate].
    now destruct y.
  - apply orb_true_iff in H. destruct H as [H|H].
    + rewrite contains_unfold. now rewrite (startswith_app_l _ _ _ H).
    + rewrite contains_unfold. cbn [List.app]. rewrite (IH H). apply orb_true_r.
Qed.

Lemma contains_app_r (a x : str) : contains a (x ++ a) = true.
Proof.
  induction x as [|b x IH]; rewrite contains_unfold.
  - cbn [List.app]. now rewrite startswith_refl.
  - cbn [List.app]. rewrite IH. apply orb_true_r.
Qed.

(** X2. Resolving the link of a product with no [asin] is idempotent:
    when the stored link is a string, the resolved link, stored back as
    the product's [affiliate_link], resolves to itself: the tag is
    never appended twice. *)
Theorem affiliate_link_idempotent (tag : str) (product : dict) (link : str) :
  truthy (get product "asin" (VStr [])) = false ->
  get product "affiliate_link" (get product "url" (VStr (lit "#"))) = VStr link ->
  exists resolved : str,
    HtmlGenerator.affiliate_link tag product = Ok resolved /\
    HtmlGenerator.affiliate_link tag
      (<["affiliate_link" := VStr resolved]> product) = Ok resolved.
Proof.
  intros Hasin Hlink.
  assert (Hagain : forall r : str,
    (contains (lit "amazon.com") r && negb (contains tag r)) = false ->
    HtmlGenerator.affiliate_link tag (<["affiliate_link" := VStr r]> product) = Ok r).
  { intros r Hr. unfold HtmlGenerator.affiliate_link, get in *.
    rewrite lookup_insert_ne by discriminate. rewrite Hasin.
    rewrite lookup_insert_eq. cbn [bind py_in py_str].
    destruct (contains (lit "amazon.com") r); cbn [bind]; [|reflexivity].
    destruct (contains tag r); [reflexivity|discriminate]. }
  unfold HtmlGenerator.affiliate_link at 1. rewrite Hasin, Hlink.
  cbn [bind py_in py_str].
  destruct (contains (lit "amazon.com") link) eqn:Ha; cbn [bind].
  - destruct (contains tag link) eqn:Ht; cbn [negb].
    + exists link. split; [reflexivity|]. apply Hagain. now rewrite Ha, Ht.
    + eexists. split; [reflexivity|]. apply Hagain.
      rewrite (contains_app_l _ _ _ Ha).
      rewrite !List.app_assoc. now rewrite contains_app_r.
  - exists link. split; [reflexivity|]. apply Hagain. now rewrite Ha.
Qed.

(** X2 at the link [https://amazon.com/dp/B000X?ref=abc]. *)
Lemma affiliate_link_idempotent_witness :
  exists resolved : str,
    HtmlGenerator.affiliate_link Samples.TAG
      (Samples.product_link "https://amazon.com/dp/B000X?ref=abc") = Ok resolved /\
    HtmlGenerator.affiliate_link Samples.TAG
      (<["affiliate_link" := VStr resolved]>
         (Samples.product_link "https://amazon.com/dp/B000X?ref=abc")) = Ok resolved.
Proof.
  exact (affiliate_link_idempotent Samples.TAG
           (Samples.product_link "https://amazon.com/dp/B000X?ref=abc")
           (lit "https://amazon.com/dp/B000X?ref=abc") eq_refl eq_refl).
Defined.

(** ** Stars *)

(** X3. The star string of a rating of integer part [n].  For
    [0 <= n <= 5] it is [n] filled stars followed by [5 - n] empty ones,
    five in all.  Outside that range the string, when one is built, has
    [max(n, 0) + max(5 - n, 0)] stars and so never five: a rating above
    5 shows [n] filled stars and no empty one (seven for a rating of 7).
    When [n] or [5 - n] does not fit a signed 64-bit index, no string is
    built: the repeat raises [OverflowError]. *)
Theorem stars_count (n : Z) :
  (0 <= n <= 5 ->
   HtmlGenerator.stars n =
   Ok (List.repeat 9733%N (Z.to_nat n) ++ List.repeat 9734%N (Z.to_nat (5 - n)))) /\
  (forall s : str,
     HtmlGenerator.stars n = Ok s ->
     List.length s = (Z.to_nat n + Z.to_nat (5 - n))%nat /\
     (0 <= n <= 5 <-> List.length s = 5%nat) /\
     (5 < n -> s = List.repeat 9733%N (Z.to_nat n))) /\
  (n < 6 - 2 ^ 63 \/ 2 ^ 63 <= n ->
   HtmlGenerator.stars n = Raise OverflowError).
Proof.
  destruct (stars_cases n) as [Hin Hout].
  split; [|split; [|exact Hout]].
  - intros H. apply Hin. lia.
  - intros s Hs.
    assert (Hrange : 6 - 2 ^ 63 <= n < 2 ^ 63).
    { destruct (Z.ltb_spec n (6 - 2 ^ 63));
        [rewrite Hout in Hs by lia; discriminate Hs|].
      destruct (Z.leb_spec (2 ^ 63) n);
        [rewrite Hout in Hs by lia; discriminate Hs|]. lia. }
    rewrite (Hin Hrange) in Hs. injection Hs as <-.
    rewrite List.length_app, !List.repeat_length.
    split; [reflexivity|]. split; [lia|].
    intros H5. replace (Z.to_nat (5 - n)) with 0%nat by lia.
    apply List.app_nil_r.
Qed.

(** X3 at a rating of 3, and at the integer part of ['1e19']. *)
Lemma stars_count_witness :
  HtmlGenerator.stars 3 = Ok (List.repeat 9733%N 3 ++ List.repeat 9734%N 2) /\
  HtmlGenerator.stars (10 ^ 19) = Raise OverflowError.
Proof.
  split.
  - exact (proj1 (stars_count 3) ltac:(lia)).
  - exact (proj2 (proj2 (stars_count (10 ^ 19))) ltac:(right; lia)).
Defined.

(** ** Products beyond the sixth *)

(** X4. Only the first six products of a post are rendered: the product
    grid of a list is the grid of its first six, so a seventh product,
    well-formed or not, can neither appear in the page nor fail it. *)
Theorem products_html_first_six (tag : str) (l : list dict) :
  HtmlGenerator.products_html tag l =
  HtmlGenerator.products_html tag (firstn 6 l) /\
  (forall six rest : list dict,
     l = six ++ rest -> List.length six = 6%nat ->
     HtmlGenerator.products_html tag l = HtmlGenerator.products_html tag six).
Proof.
  assert (H : HtmlGenerator.products_html tag l =
              HtmlGenerator.products_html tag (firstn 6 l)).
  { unfold HtmlGenerator.products_html.
    destruct l as [|p l]; [reflexivity|].
    rewrite List.firstn_firstn. reflexivity. }
  split; [exact H|].
  intros six rest Hl Hsix. rewrite H, Hl.
  rewrite List.firstn_app, Hsix, Nat.sub_diag. simpl firstn at 2.
  rewrite List.app_nil_r. f_equal.
  rewrite <- Hsix. apply List.firstn_all.
Qed.

(** X4 at six products followed by one whose rating is ['N/A']. *)
Lemma products_html_first_six_witness :
  HtmlGenerator.products_html Samples.TAG
    (Samples.six_products ++ [Samples.product_rating_text]) =
  HtmlGenerator.products_html Samples.TAG Samples.six_products.
Proof.
  exact (proj2 (products_html_first_six Samples.TAG
                  (Samples.six_products ++ [Samples.product_rating_text]))
           Samples.six_products [Samples.product_rating_text] eq_refl eq_refl).
Defined.

(** ** The navigation bar *)

Lemma str_eqb_eq (a b : str) : str_eqb a b = true <-> a = b.
Proof.
  revert b. induction a as [|x a IH]; intros [|y b]; simpl; split;
    try reflexivity; try discriminate.
  - intros H. apply andb_true_iff in H. destruct H as [Hx Hab].
    apply N.eqb_eq in Hx. apply IH in Hab. congruence.
  - intros [= -> ->]. rewrite N.eqb_refl. now apply IH.
Qed.

(** X5. The navigation bar never marks two links [active]: for every
    configuration the links marked are exactly those whose path is the
    configuration's, at most one, none when the path is not one of the
    four blog paths, and exactly the category's own link on each of the
    four categories' pages. *)
Theorem header_one_active_link (cfg : HtmlGenerator.config) :
  let active :=
    List.filter (fun l => str_eqb (snd (fst l)) (lit "active"))
                (HtmlGenerator.nav_links cfg) in
  (List.length active <= 1)%nat /\
  (forall l, In l active -> fst (fst l) = HtmlGenerator.cfg_path cfg) /\
  (forall c, HtmlGenerator.cfg_path cfg =
             HtmlGenerator.cfg_path (HtmlGenerator.BLOG_CONFIGS c) ->
             List.map (fun l => fst (fst l)) active = [HtmlGenerator.cfg_path cfg]).
Proof.
  intros active. subst active. unfold HtmlGenerator.nav_links.
  cbn [List.map].
  destruct (str_eqb (HtmlGenerator.cfg_path cfg) (lit "blog/sneaker")) eqn:H1;
  destruct (str_eqb (HtmlGenerator.cfg_path cfg) (lit "blog/shoes")) eqn:H2;
  destruct (str_eqb (HtmlGenerator.cfg_path cfg) (lit "blog/workwear")) eqn:H3;
  destruct (str_eqb (HtmlGenerator.cfg_path cfg) (lit "blog/music")) eqn:H4;
  try apply str_eqb_eq in H1; try apply str_eqb_eq in H2;
  try apply str_eqb_eq in H3; try apply str_eqb_eq in H4;
  try (exfalso;
       match goal with
       | Ha : ?x = ?a, Hb : ?x = ?b |- _ =>
           assert (E : a = b) by congruence; vm_compute in E; discriminate E
       end);
  repeat match goal with
         | |- context [List.filter ?f ?l] =>
             let v := eval vm_compute in (List.filter f l) in
             change (List.filter f l) with v
         end;
  (split; [cbn [List.length]; lia|]);
  (split; [intros l Hl;
           repeat (destruct Hl as [Hl|Hl];
                   [subst l; cbn [fst snd];
                    match goal with H : _ = _ |- _ => now rewrite H end|]);
           destruct Hl|]);
  intros c Hc;
  try (cbn [List.map fst snd];
       match goal with H : _ = lit _ |- _ => now rewrite H end);
  exfalso; destruct c; cbn in Hc;
  match goal with H : str_eqb _ _ = false |- _ =>
    rewrite Hc in H; vm_compute in H; discriminate H end.
Qed.

(** X5 on the workwear page: the one link marked is the workwear link. *)
Lemma header_one_active_link_witness :
  List.map (fun l => fst (fst l))
    (List.filter (fun l => str_eqb (snd (fst l)) (lit "active"))
       (HtmlGenerator.nav_links (HtmlGenerator.BLOG_CONFIGS Workwear))) =
  [lit "blog/workwear"].
Proof.
  exact (proj2 (proj2 (header_one_active_link
                         (HtmlGenerator.BLOG_CONFIGS Workwear)))
           Workwear eq_refl).
Defined.

(** ** What the page handler records *)

Section PageHandler.

Variables DOMAIN tag : str.
Variable query : category -> result (list post).
Variable get_item : str -> result (option post).
Variable clock : datetime.

Lemma generate_post_errors (put1 put2 : nat -> str -> result unit)
  (c : category) (posts : list post) (r1 r2 : HtmlGenerator.results) :
  HtmlGenerator.errors r1 = HtmlGenerator.errors r2 ->
  HtmlGenerator.errors
    (fold_left (HtmlGenerator.generate_post DOMAIN tag put1 clock c) posts r1) =
  HtmlGenerator.errors
    (fold_left (HtmlGenerator.generate_post DOMAIN tag put2 clock c) posts r2).
Proof.
  revert r1 r2. induction posts as [|p posts IH]; intros r1 r2 H; [exact H|].
  cbn [fold_left]. apply IH. unfold HtmlGenerator.generate_post.
  destruct (HtmlGenerator.generate_full_html_page DOMAIN tag clock p c);
    [|cbn; now rewrite H].
  destruct (HtmlGenerator.upload_to_s3 put1 _ _),
           (HtmlGenerator.upload_to_s3 put2 _ _); exact H.
Qed.

Lemma generate_category_errors (put1 put2 : nat -> str -> result unit)
  (ev : HtmlGenerator.event) (c : category) (r1 r2 : HtmlGenerator.results) :
  HtmlGenerator.errors r1 = HtmlGenerator.errors r2 ->
  HtmlGenerator.errors
    (HtmlGenerator.generate_category DOMAIN tag query get_item put1 clock ev r1 c) =
  HtmlGenerator.errors
    (HtmlGenerator.generate_category DOMAIN tag query get_item put2 clock ev r2 c).
Proof.
  intros H. unfold HtmlGenerator.generate_category.
  apply generate_post_errors.
  destruct (default true (HtmlGenerator.ev_generate_index ev)); [|exact H].
  destruct (HtmlGenerator.upload_to_s3 put1 _ _),
           (HtmlGenerator.upload_to_s3 put2 _ _); exact H.
Qed.

Lemma categories_errors (put1 put2 : nat -> str -> result unit)
  (ev : HtmlGenerator.event) (keys : list str) (r1 r2 : HtmlGenerator.results) :
  HtmlGenerator.errors r1 = HtmlGenerator.errors r2 ->
  HtmlGenerator.errors
    (fold_left
       (fun r key =>
          match category_of_key key with
          | None => r
          | Some c =>
              HtmlGenerator.generate_category DOMAIN tag query get_item put1
                clock ev r c
          end) keys r1) =
  HtmlGenerator.errors
    (fold_left
       (fun r key =>
          match category_of_key key with
          | None => r
          | Some c =>
              HtmlGenerator.generate_category DOMAIN tag query get_item put2
                clock ev r c
          end) keys r2).
Proof.
  revert r1 r2. induction keys as [|k keys IH]; intros r1 r2 H; [exact H|].
  cbn [fold_left]. apply IH.
  destruct (category_of_key k); [|exact H].
  now apply generate_category_errors.
Qed.

(** X6. The [errors] list of the page handler's summary does not depend
    on what the uploads do: two runs on the same table, event and clock
    record the same errors whatever the outcome of each upload, so a
    failed upload is never recorded as an error. *)
Theorem html_errors_ignore_uploads (put1 put2 : nat -> str -> result unit)
  (ev : HtmlGenerator.event) :
  HtmlGenerator.errors
    (HtmlGenerator.body
       (HtmlGenerator.lambda_handler DOMAIN tag query get_item put1 clock ev)) =
  HtmlGenerator.errors
    (HtmlGenerator.body
       (HtmlGenerator.lambda_handler DOMAIN tag query get_item put2 clock ev)).
Proof.
  unfold HtmlGenerator.lambda_handler. cbn [HtmlGenerator.body].
  now apply categories_errors.
Qed.

Lemma generate_post_outage (put_object : nat -> str -> result unit)
  (c : category) (posts : list post) (r : HtmlGenerator.results) :
  (forall n key, returns (put_object n key) = false) ->
  HtmlGenerator.generated
    (fold_left (HtmlGenerator.generate_post DOMAIN tag put_object clock c) posts r) =
  HtmlGenerator.generated r.
Proof.
  intros Hput. revert r. induction posts as [|p posts IH]; intros r; [reflexivity|].
  cbn [fold_left]. rewrite IH. unfold HtmlGenerator.generate_post.
  destruct (HtmlGenerator.generate_full_html_page DOMAIN tag clock p c);
    [|reflexivity].
  unfold HtmlGenerator.upload_to_s3. now rewrite Hput.
Qed.

(** X7. When every upload fails, the page handler's summary lists
    nothing as generated, whatever the table holds and whatever the
    event asks for. *)
Theorem html_upload_outage (put_object : nat -> str -> result unit)
  (ev : HtmlGenerator.event) :
  (forall n key, returns (put_object n key) = false) ->
  HtmlGenerator.generated
    (HtmlGenerator.body
       (HtmlGenerator.lambda_handler DOMAIN tag query get_item put_object
          clock ev)) = [].
Proof.
  intros Hput. unfold HtmlGenerator.lambda_handler. cbn [HtmlGenerator.body].
  change (@nil HtmlGenerator.artifact)
    with (HtmlGenerator.generated (HtmlGenerator.Results [] [] 0)) at 2.
  generalize (HtmlGenerator.Results [] [] 0).
  generalize (if HtmlGenerator.ev_generate_all ev
              then List.map category_key all_categories
              else [default (lit "sneaker") (HtmlGenerator.ev_category ev)]).
  intros keys. induction keys as [|k keys IH]; intros r; [reflexivity|].
  cbn [fold_left]. rewrite IH.
  destruct (category_of_key k); [|reflexivity].
  unfold HtmlGenerator.generate_category. rewrite generate_post_outage by exact Hput.
  destruct (default true (HtmlGenerator.ev_generate_index ev)); [|reflexivity].
  unfold HtmlGenerator.upload_to_s3. now rewrite Hput.
Qed.

End PageHandler.

(** X7 on a table of one well-formed post: the page renders, both
    uploads fail, and the summary is empty. *)
Lemma html_upload_outage_witness :
  HtmlGenerator.generated
    (HtmlGenerator.body
       (HtmlGenerator.lambda_handler Samples.DOMAIN Samples.TAG
          Samples.table_one_post Samples.no_item Samples.s3_down
          Samples.clock_mid_month Samples.html_event_sneaker)) = [].
Proof.
  exact (html_upload_outage Samples.DOMAIN Samples.TAG Samples.table_one_post
           Samples.no_item Samples.clock_mid_month Samples.s3_down
           Samples.html_event_sneaker (fun _ _ => eq_refl)).
Defined.

Example html_upload_outage_summary :
  HtmlGenerator.body
    (HtmlGenerator.lambda_handler Samples.DOMAIN Samples.TAG
       Samples.table_one_post Samples.no_item Samples.s3_down
       Samples.clock_mid_month Samples.html_event_sneaker) =
  HtmlGenerator.Results [] [] 2.
Proof. vm_compute. reflexivity. Qed.

(* ===================================================================== *)
(** * Further properties of the sitemap generator *)
(* ===================================================================== *)

(** ** Pagination *)

Lemma fetch_loop_answered (limit : Z) (scan : result (list post))
  (rest : list (list post)) (first acc : list post) :
  exists l,
    SitemapHandler.fetch_loop limit scan acc (SitemapHandler.answered first rest)
      = Ok l /\
    firstn (Z.to_nat limit) l =
    firstn (Z.to_nat limit) (acc ++ first ++ List.concat rest).
Proof.
  revert first acc. induction rest as [|next rest IH]; intros first acc.
  - exists (acc ++ first). split; [reflexivity|].
    cbn [List.concat]. now rewrite List.app_nil_r.
  - cbn [SitemapHandler.answered SitemapHandler.fetch_loop List.concat].
    destruct (Z.leb_spec limit (Z.of_nat (List.length (acc ++ first)))) as [Hl|Hl].
    + exists (acc ++ first). split; [reflexivity|].
      rewrite List.app_assoc.
      rewrite (List.firstn_app _ (acc ++ first)).
      replace (Z.to_nat limit - List.length (acc ++ first))%nat with 0%nat by lia.
      cbn [firstn]. now rewrite List.app_nil_r.
    + destruct (IH next (acc ++ first)) as (l & Hl1 & Hl2).
      exists l. split; [exact Hl1|]. rewrite Hl2. now rewrite <- List.app_assoc.
Qed.

Lemma fetch_loop_failing (limit : Z) (scan : result (list post)) (e : exn)
  (read : list (list post)) (acc : list post) :
  Z.of_nat (List.length (acc ++ List.concat read)) < limit ->
  SitemapHandler.fetch_loop limit scan acc (SitemapHandler.failing read e) = scan.
Proof.
  revert acc. induction read as [|items read IH]; intros acc H; [reflexivity|].
  cbn [SitemapHandler.failing SitemapHandler.fetch_loop].
  cbn [List.concat] in H. rewrite List.app_assoc in H.
  destruct (Z.leb_spec limit (Z.of_nat (List.length (acc ++ items)))) as [Hl|Hl].
  - rewrite List.length_app in H. lia.
  - now apply IH.
Qed.

(** X8. The sitemap generator's paginated fetch.  When the index query
    answers every request, the result is the first [limit] posts of the
    pages read, in order, and the scan is not consulted.  When a request
    fails before [limit] posts were read, the pages already read are
    discarded and the result is the first [limit] posts of the scan.  A
    result never has more than [limit] posts. *)
Theorem sitemap_fetch_pagination (limit : Z) (scan : result (list post)) :
  0 <= limit ->
  (forall first rest,
     SitemapHandler.fetch_posts (SitemapHandler.answered first rest) scan limit =
     Ok (firstn (Z.to_nat limit) (first ++ List.concat rest))) /\
  (forall read e,
     Z.of_nat (List.length (List.concat read)) < limit ->
     SitemapHandler.fetch_posts (SitemapHandler.failing read e) scan limit =
     bind scan (fun items => Ok (firstn (Z.to_nat limit) items))) /\
  (forall q l,
     SitemapHandler.fetch_posts q scan limit = Ok l ->
     Z.of_nat (List.length l) <= limit).
Proof.
  intros Hlimit. repeat split.
  - intros first rest. unfold SitemapHandler.fetch_posts.
    destruct (fetch_loop_answered limit scan rest first []) as (l & -> & Hl).
    cbn [bind]. now rewrite Hl.
  - intros read e H. unfold SitemapHandler.fetch_posts.
    now rewrite fetch_loop_failing.
  - intros q l. unfold SitemapHandler.fetch_posts.
    destruct (SitemapHandler.fetch_loop _ _ _ _) as [posts|]; cbn [bind];
      [|discriminate].
    intros [= <-]. pose proof (List.firstn_le_length (Z.to_nat limit) posts). lia.
Qed.

(** X8 at a limit of 3: two answered pages of two posts give the first
    three; a failure after one page gives the scan. *)
Lemma sitemap_fetch_pagination_witness :
  SitemapHandler.fetch_posts
    (SitemapHandler.answered [Samples.post_1_day; Samples.post_3_days]
       [[Samples.post_10_days; Samples.post_40_days]])
    (Ok []) 3 =
  Ok [Samples.post_1_day; Samples.post_3_days; Samples.post_10_days] /\
  SitemapHandler.fetch_posts
    (SitemapHandler.failing [[Samples.post_1_day; Samples.post_3_days]] ValueError)
    (Ok [Samples.post_200_days]) 3 =
  Ok [Samples.post_200_days].
Proof.
  split.
  - exact (proj1 (sitemap_fetch_pagination 3 (Ok []) ltac:(lia))
             [Samples.post_1_day; Samples.post_3_days]
             [[Samples.post_10_days; Samples.post_40_days]]).
  - exact (proj1 (proj2 (sitemap_fetch_pagination 3 (Ok [Samples.post_200_days])
                           ltac:(lia)))
             [[Samples.post_1_day; Samples.post_3_days]] ValueError ltac:(cbn; lia)).
Defined.

(** ** Documents that always render *)

Lemma xml_char_not_surrogate (c : char) :
  xml_char_ok c = true -> is_surrogate c = false.
Proof.
  unfold xml_char_ok, is_surrogate. intros H.
  destruct (N.leb_spec 55296 c), (N.leb_spec c 57343); try reflexivity.
  exfalso.
  repeat (apply orb_true_iff in H; destruct H as [H|H]);
    try (apply N.eqb_eq in H; lia);
    apply andb_true_iff in H; destruct H as [Ha Hb];
    apply N.leb_le in Ha, Hb; lia.
Qed.

Lemma xml_text_encodable (s : str) :
  forallb xml_char_ok s = true -> existsb is_surrogate s = false.
Proof.
  induction s as [|c s IH]; [reflexivity|]. cbn [forallb existsb].
  intros H. apply andb_true_iff in H. destruct H as [Hc Hs].
  now rewrite (xml_char_not_surrogate _ Hc), IH.
Qed.

Lemma prettify_xml_text (texts : list value) :
  Forall (fun v => exists s, v = VStr s /\ forallb xml_char_ok s = true) texts ->
  prettify_xml texts = Ok tt.
Proof.
  intros H. unfold prettify_xml.
  assert (H1 : forallb serialisable texts = true).
  { induction H as [|v l (s & -> & _) _ IH]; [reflexivity|].
    cbn [forallb]. rewrite IH. unfold serialisable. cbn [is_str].
    now rewrite orb_true_r. }
  assert (H2 : forallb encodable texts = true).
  { clear H1. induction H as [|v l (s & -> & Hs) _ IH]; [reflexivity|].
    cbn [forallb encodable]. now rewrite IH, (xml_text_encodable _ Hs). }
  assert (H3 : forallb well_formed texts = true).
  { clear H1 H2. induction H as [|v l (s & -> & Hs) _ IH]; [reflexivity|].
    cbn [forallb well_formed]. now rewrite IH, Hs. }
  now rewrite H1, H2, H3.
Qed.

Lemma str_of_uint_xml (u : Decimal.uint) :
  forallb xml_char_ok (str_of_uint u) = true.
Proof. induction u; cbn [str_of_uint forallb]; try rewrite IHu; reflexivity. Qed.

Lemma pad0_xml (w : nat) (n : Z) : forallb xml_char_ok (pad0 w n) = true.
Proof.
  unfold pad0, digits_of_N. rewrite List.forallb_app, str_of_uint_xml, andb_true_r.
  induction (w - _)%nat as [|k IH]; [reflexivity|]. cbn [List.repeat forallb].
  now rewrite IH.
Qed.

Lemma strftime_date_xml (dt : datetime) :
  forallb xml_char_ok (strftime_date dt) = true.
Proof.
  unfold strftime_date. now rewrite !List.forallb_app, !pad0_xml.
Qed.

Lemma traverse_Forall {A B} (f : A -> result B) (P : B -> Prop)
  (l : list A) (r : list B) :
  (forall a b, f a = Ok b -> P b) ->
  traverse f l = Ok r -> Forall P r.
Proof.
  intros Hf. revert r. induction l as [|a l IH]; intros r; cbn [traverse].
  - intros [= <-]. constructor.
  - destruct (f a) as [b|] eqn:Hb; cbn [bind]; [|discriminate].
    destruct (traverse f l) as [bs|]; cbn [bind]; [|discriminate].
    intros [= <-]. constructor; [now apply (Hf a)|now apply IH].
Qed.

Ltac xml_texts HD :=
  repeat (constructor;
          [eexists; split; [reflexivity|];
           rewrite ?List.forallb_app, ?HD, ?strftime_date_xml; reflexivity|]);
  try constructor.

(** X9. The category sitemap is the category's index entry (priority
    1.0, daily) followed by one entry per post, in the order of the
    posts, each at the post's URL, with the category's priority and a
    change-frequency among daily, weekly, monthly and yearly; for a
    category with no post and a domain that is XML text the render
    returns the index entry alone. *)
Theorem generate_sitemap_shape (DOMAIN : str) (clock : datetime) (c : category)
  (posts : list post) :
  let cfg := SitemapHandler.BLOG_CONFIGS c in
  let index :=
    SitemapHandler.UrlEntry (DOMAIN ++ lit "/" ++ SitemapHandler.cfg_path cfg)
      (strftime_date (now_utc clock)) (lit "daily") (lit "1.0") None in
  (forall doc,
     SitemapHandler.generate_sitemap DOMAIN clock c posts = Ok doc ->
     exists entries,
       doc = index :: entries /\
       List.map SitemapHandler.u_loc entries =
       List.map
         (fun p => DOMAIN ++ lit "/" ++ SitemapHandler.cfg_path cfg ++ lit "/" ++
                   py_str (get (attrs p) "slug" (get (attrs p) "id" VNone)))
         posts /\
       Forall
         (fun u =>
            SitemapHandler.u_priority u = SitemapHandler.cfg_priority cfg /\
            In (SitemapHandler.u_changefreq u)
               [lit "daily"; lit "weekly"; lit "monthly"; lit "yearly"])
         entries) /\
  (forallb xml_char_ok DOMAIN = true ->
   SitemapHandler.generate_sitemap DOMAIN clock c [] = Ok [index]).
Proof.
  intros cfg index. split.
  - intros doc. unfold SitemapHandler.generate_sitemap. fold cfg. fold index.
    destruct (traverse _ posts) as [entries|] eqn:Ht; cbn [bind]; [|discriminate].
    destruct (prettify_xml _); cbn [bind]; [|discriminate].
    intros [= <-]. exists entries. split; [reflexivity|]. split.
    + eapply traverse_map; [|exact Ht].
      intros p u. unfold SitemapHandler.url_entry_of.
      destruct (SitemapHandler.lastmod_of _ _); cbn [bind]; [|discriminate].
      destruct (SitemapHandler.image_of _); cbn [bind]; [|discriminate].
      now intros [= <-].
    + eapply traverse_Forall; [|exact Ht].
      intros p u. unfold SitemapHandler.url_entry_of.
      destruct (SitemapHandler.lastmod_of _ _); cbn [bind]; [|discriminate].
      destruct (SitemapHandler.image_of _); cbn [bind]; [|discriminate].
      intros [= <-]. cbn [SitemapHandler.u_priority SitemapHandler.u_changefreq].
      split; [reflexivity|].
      unfold SitemapHandler.changefreq_of, SitemapHandler.changefreq_of_age.
      assert (Hd : In (SitemapHandler.cfg_changefreq (SitemapHandler.BLOG_CONFIGS c))
                      [lit "daily"; lit "weekly"; lit "monthly"; lit "yearly"]).
      { destruct c; cbn; auto. }
      destruct (truthy _); [|exact Hd].
      destruct (as_datetime _) as [pub_dt|]; cbn [bind try_except]; [|exact Hd].
      destruct (dt_sub _ _) as [age|]; cbn [bind try_except]; [|exact Hd].
      destruct (_ <? 7); [cbn; auto|].
      destruct (_ <? 30); [cbn; auto|].
      destruct (_ <? 180); cbn; auto.
  - intros HD. unfold SitemapHandler.generate_sitemap. fold cfg. fold index.
    cbn [traverse bind].
    rewrite prettify_xml_text; [reflexivity|].
    subst index cfg. cbn [List.flat_map SitemapHandler.url_texts List.app
      SitemapHandler.u_loc SitemapHandler.u_lastmod SitemapHandler.u_changefreq
      SitemapHandler.u_priority SitemapHandler.u_image].
    destruct c; xml_texts HD.
Qed.

(** X9 for the sneaker category, the default domain and no post. *)
Lemma generate_sitemap_shape_witness :
  SitemapHandler.generate_sitemap Samples.DOMAIN Samples.clock_mid_month Sneaker []
  = Ok [SitemapHandler.UrlEntry (lit "https://shoeswiper.com/blog/sneaker")
          (lit "2024-05-15") (lit "daily") (lit "1.0") None].
Proof.
  exact (proj2 (generate_sitemap_shape Samples.DOMAIN Samples.clock_mid_month
                  Sneaker []) eq_refl).
Defined.

(** X10. For a domain that is XML text the static-pages sitemap always
    renders: eleven entries dated today, among them the site root and
    the landing page of every category. *)
Theorem static_sitemap_renders (DOMAIN : str) (clock : datetime) :
  forallb xml_char_ok DOMAIN = true ->
  exists doc,
    SitemapHandler.generate_static_pages_sitemap DOMAIN clock = Ok doc /\
    List.length doc = 11%nat /\
    Forall (fun u => SitemapHandler.u_lastmod u = strftime_date (now_utc clock)) doc /\
    In DOMAIN (List.map SitemapHandler.u_loc doc) /\
    forall c,
      In (DOMAIN ++ lit "/" ++
          SitemapHandler.cfg_path (SitemapHandler.BLOG_CONFIGS c))
         (List.map SitemapHandler.u_loc doc).
Proof.
  intros HD. unfold SitemapHandler.generate_static_pages_sitemap.
  rewrite prettify_xml_text.
  - eexists. split; [reflexivity|]. split; [reflexivity|]. split.
    + unfold SitemapHandler.static_pages. cbn [List.map List.app all_categories].
      repeat constructor.
    + unfold SitemapHandler.static_pages. cbn [List.map List.app all_categories
        SitemapHandler.u_loc].
      split; [now left|]. intros c. destruct c; cbn [In]; tauto.
  - unfold SitemapHandler.static_pages.
    cbn [List.map List.app all_categories List.flat_map SitemapHandler.url_texts
      SitemapHandler.u_loc SitemapHandler.u_lastmod SitemapHandler.u_changefreq
      SitemapHandler.u_priority SitemapHandler.u_image].
    xml_texts HD.
Qed.

(** X10 for the default domain. *)
Lemma static_sitemap_renders_witness :
  exists doc,
    SitemapHandler.generate_static_pages_sitemap Samples.DOMAIN
      Samples.clock_mid_month = Ok doc /\
    List.length doc = 11%nat.
Proof.
  destruct (static_sitemap_renders Samples.DOMAIN Samples.clock_mid_month eq_refl)
    as (doc & H1 & H2 & _).
  exists doc. split; [exact H1|exact H2].
Defined.

(** ** What the sitemap handler reports *)

Section SitemapSummary.

Variable DOMAIN : str.
Variable query : category -> SitemapHandler.pages.
Variable scan : category -> result (list post).
Variable put_object : nat -> str -> result unit.
Variable ping : str -> bool.
Variable clock : datetime.

(** The fields a run keeps in step: nothing is pinged or indexed while
    the categories are processed, the locations collected for the index
    are the URLs of the records, and every record is canonical. *)
Lemma record_upload_steady (r : SitemapHandler.results) (key : str)
  (rec : str -> SitemapHandler.sitemap_record) :
  let r' := SitemapHandler.record_upload DOMAIN put_object r key rec in
  (forall url, SitemapHandler.record_urls (rec url) = [url]) ->
  SitemapHandler.canonical DOMAIN (rec (DOMAIN ++ lit "/" ++ key)) ->
  SitemapHandler.pings r' = SitemapHandler.pings r /\
  SitemapHandler.sitemap_index r' = SitemapHandler.sitemap_index r /\
  (SitemapHandler.sitemaps_info r =
   List.flat_map SitemapHandler.record_urls (SitemapHandler.sitemaps r) ->
   SitemapHandler.sitemaps_info r' =
   List.flat_map SitemapHandler.record_urls (SitemapHandler.sitemaps r')) /\
  (Forall (SitemapHandler.canonical DOMAIN) (SitemapHandler.sitemaps r) ->
   Forall (SitemapHandler.canonical DOMAIN) (SitemapHandler.sitemaps r')).
Proof.
  intros r' Hurl Hcan. subst r'. unfold SitemapHandler.record_upload.
  destruct (SitemapHandler.upload_to_s3 _ _ _); cbn; repeat split; auto.
  - intros ->. now rewrite List.flat_map_app; cbn; rewrite Hurl.
  - intros H. apply Forall_app. split; [exact H|]. now constructor.
Qed.

Lemma record_error_steady (r : SitemapHandler.results) (c : category) (e : exn) :
  let r' := SitemapHandler.record_error r c e in
  SitemapHandler.pings r' = SitemapHandler.pings r /\
  SitemapHandler.sitemap_index r' = SitemapHandler.sitemap_index r /\
  (SitemapHandler.sitemaps_info r =
   List.flat_map SitemapHandler.record_urls (SitemapHandler.sitemaps r) ->
   SitemapHandler.sitemaps_info r' =
   List.flat_map SitemapHandler.record_urls (SitemapHandler.sitemaps r')) /\
  (Forall (SitemapHandler.canonical DOMAIN) (SitemapHandler.sitemaps r) ->
   Forall (SitemapHandler.canonical DOMAIN) (SitemapHandler.sitemaps r')).
Proof.
  cbn. repeat split.
  - intros ->. rewrite List.flat_map_app. cbn. now rewrite List.app_nil_r.
  - intros H. apply Forall_app. split; [exact H|]. now constructor.
Qed.

Lemma generate_category_steady (r : SitemapHandler.results) (c : category) :
  let r' := SitemapHandler.generate_category DOMAIN query scan put_object clock r c in
  SitemapHandler.pings r' = SitemapHandler.pings r /\
  SitemapHandler.sitemap_index r' = SitemapHandler.sitemap_index r /\
  (SitemapHandler.sitemaps_info r =
   List.flat_map SitemapHandler.record_urls (SitemapHandler.sitemaps r) ->
   SitemapHandler.sitemaps_info r' =
   List.flat_map SitemapHandler.record_urls (SitemapHandler.sitemaps r')) /\
  (Forall (SitemapHandler.canonical DOMAIN) (SitemapHandler.sitemaps r) ->
   Forall (SitemapHandler.canonical DOMAIN) (SitemapHandler.sitemaps r')).
Proof.
  intros r'. subst r'. unfold SitemapHandler.generate_category.
  destruct (SitemapHandler.fetch_posts _ _ _) as [posts|e];
    [|apply record_error_steady].
  destruct (SitemapHandler.generate_sitemap _ _ _ _) as [doc|e];
    [|apply record_error_steady].
  pose proof (record_upload_steady r
    (SitemapHandler.cfg_path (SitemapHandler.BLOG_CONFIGS c) ++ lit "/sitemap.xml")
    (fun url => SitemapHandler.MainSitemap c url (List.length posts))
    (fun _ => eq_refl) eq_refl) as H1.
  cbv zeta in H1.
  set (r1 := SitemapHandler.record_upload _ _ r _ _) in *.
  destruct (SitemapHandler.generate_news_sitemap _ _ _ _) as [[news|]|e].
  - pose proof (record_upload_steady r1
      (SitemapHandler.cfg_path (SitemapHandler.BLOG_CONFIGS c) ++
       lit "/sitemap-news.xml")
      (SitemapHandler.NewsSitemap c) (fun _ => eq_refl) eq_refl) as H2.
    cbv zeta in H2. destruct H1 as (P1 & I1 & F1 & C1).
    destruct H2 as (P2 & I2 & F2 & C2).
    repeat split; [now rewrite P2|now rewrite I2|auto|auto].
  - exact H1.
  - pose proof (record_error_steady r1 c e) as H2. cbv zeta in H2.
    destruct H1 as (P1 & I1 & F1 & C1). destruct H2 as (P2 & I2 & F2 & C2).
    repeat split; [now rewrite P2|now rewrite I2|auto|auto].
Qed.

Lemma categories_steady (keys : list str) (r : SitemapHandler.results) :
  let r' :=
    fold_left
      (fun r key =>
         match category_of_key key with
         | None => r
         | Some c =>
             SitemapHandler.generate_category DOMAIN query scan put_object clock r c
         end) keys r in
  SitemapHandler.pings r' = SitemapHandler.pings r /\
  SitemapHandler.sitemap_index r' = SitemapHandler.sitemap_index r /\
  (SitemapHandler.sitemaps_info r =
   List.flat_map SitemapHandler.record_urls (SitemapHandler.sitemaps r) ->
   SitemapHandler.sitemaps_info r' =
   List.flat_map SitemapHandler.record_urls (SitemapHandler.sitemaps r')) /\
  (Forall (SitemapHandler.canonical DOMAIN) (SitemapHandler.sitemaps r) ->
   Forall (SitemapHandler.canonical DOMAIN) (SitemapHandler.sitemaps r')).
Proof.
  revert r. induction keys as [|k keys IH]; intros r; [cbn; auto|].
  cbn [fold_left]. cbv zeta in IH.
  destruct (category_of_key k) as [c|]; [|apply IH].
  pose proof (generate_category_steady r c) as H1. cbv zeta in H1.
  set (r1 := SitemapHandler.generate_category _ _ _ _ _ r c) in *.
  destruct (IH r1) as (P2 & I2 & F2 & C2). destruct H1 as (P1 & I1 & F1 & C1).
  repeat split; [now rewrite P2|now rewrite I2|auto|auto].
Qed.

(** The summary once the static sitemap is recorded. *)
Lemma static_steady (ev : SitemapHandler.event) :
  let categories :=
    match SitemapHandler.ev_category ev with
    | Some k => [k]
    | None => List.map category_key all_categories
    end in
  let r2 :=
    SitemapHandler.record_upload DOMAIN put_object
      (fold_left
         (fun r key =>
            match category_of_key key with
            | None => r
            | Some c =>
                SitemapHandler.generate_category DOMAIN query scan put_object
                  clock r c
            end) categories (SitemapHandler.Results [] [] None None [] 0))
      (lit "sitemap-static.xml") SitemapHandler.StaticSitemap in
  SitemapHandler.pings r2 = [] /\
  SitemapHandler.sitemap_index r2 = None /\
  SitemapHandler.sitemaps_info r2 =
  List.flat_map SitemapHandler.record_urls (SitemapHandler.sitemaps r2) /\
  Forall (SitemapHandler.canonical DOMAIN) (SitemapHandler.sitemaps r2).
Proof.
  intros categories r2.
  pose proof (categories_steady categories
                (SitemapHandler.Results [] [] None None [] 0)) as H1.
  cbv zeta in H1. destruct H1 as (P1 & I1 & F1 & C1).
  pose proof (record_upload_steady
    (fold_left
       (fun r key =>
          match category_of_key key with
          | None => r
          | Some c =>
              SitemapHandler.generate_category DOMAIN query scan put_object
                clock r c
          end) categories (SitemapHandler.Results [] [] None None [] 0))
    (lit "sitemap-static.xml") SitemapHandler.StaticSitemap
    (fun _ => eq_refl) eq_refl) as H2.
  cbv zeta in H2. fold r2 in H2. destruct H2 as (P2 & I2 & F2 & C2).
  repeat split.
  - now rewrite P2, P1.
  - now rewrite I2, I1.
  - apply F2, F1. reflexivity.
  - apply C2, C1. constructor.
Qed.

(** X13. The locations the sitemap handler collects for the sitemap
    index are exactly the URLs of the sitemaps its summary reports, in
    order: a sitemap whose upload failed, or whose render raised, is in
    neither list. *)
Theorem sitemap_index_lists_reported (ev : SitemapHandler.event) :
  let r := SitemapHandler.body
             (SitemapHandler.lambda_handler DOMAIN query scan put_object ping
                clock ev) in
  SitemapHandler.sitemaps_info r =
  List.flat_map SitemapHandler.record_urls (SitemapHandler.sitemaps r).
Proof.
  intros r. subst r. unfold SitemapHandler.lambda_handler.
  destruct (SitemapHandler.ev_ping_only ev); [reflexivity|].
  destruct (static_steady ev) as (_ & _ & F & _). cbv zeta in F. cbv zeta.
  cbn [SitemapHandler.body].
  set (r2 := SitemapHandler.record_upload _ _ _ _ _) in *.
  destruct (SitemapHandler.sitemaps_info r2) eqn:Hinfo;
    cbn [SitemapHandler.sitemap_index SitemapHandler.sitemaps
         SitemapHandler.sitemaps_info];
    [destruct (SitemapHandler.sitemap_index r2)|
     destruct (SitemapHandler.upload_to_s3 _ _ _)];
    try destruct (SitemapHandler.ev_skip_ping ev);
    cbn [SitemapHandler.sitemaps SitemapHandler.sitemaps_info];
    now rewrite <- F.
Qed.

(** X14. The sitemap handler announces only what it published.  Outside
    a ping-only run, search engines are pinged only when the sitemap
    index was uploaded and the event does not ask to skip the ping; the
    index is uploaded only when at least one sitemap was; and when the
    index is there and the ping is not skipped, every search engine is
    pinged.  A ping-only run uploads and records nothing. *)
Theorem sitemap_pings_follow_index (ev : SitemapHandler.event) :
  let r := SitemapHandler.body
             (SitemapHandler.lambda_handler DOMAIN query scan put_object ping
                clock ev) in
  (SitemapHandler.ev_ping_only ev = false ->
   (SitemapHandler.pings r <> [] ->
    SitemapHandler.sitemap_index r = Some (DOMAIN ++ lit "/sitemap.xml") /\
    SitemapHandler.ev_skip_ping ev = false) /\
   (SitemapHandler.sitemap_index r <> None -> SitemapHandler.sitemaps r <> []) /\
   (SitemapHandler.sitemap_index r <> None ->
    SitemapHandler.ev_skip_ping ev = false ->
    List.map fst (SitemapHandler.pings r) = SitemapHandler.SEARCH_ENGINES)) /\
  (SitemapHandler.ev_ping_only ev = true ->
   SitemapHandler.sitemaps r = [] /\ SitemapHandler.puts r = 0%nat /\
   SitemapHandler.sitemap_index r = None /\ SitemapHandler.robots_txt r = None).
Proof.
  intros r. subst r. unfold SitemapHandler.lambda_handler.
  destruct (SitemapHandler.ev_ping_only ev).
  { split; [discriminate|]. intros _. cbn. auto. }
  split; [|discriminate]. intros _.
  destruct (static_steady ev) as (P & I & F & _). cbv zeta in P, I, F. cbv zeta.
  cbn [SitemapHandler.body].
  set (r2 := SitemapHandler.record_upload _ _ _ _ _) in *.
  destruct (SitemapHandler.sitemaps_info r2) eqn:Hinfo.
  - cbn [SitemapHandler.sitemap_index]. rewrite I.
    cbn [SitemapHandler.sitemap_index SitemapHandler.pings SitemapHandler.sitemaps].
    rewrite P. repeat split; intros; congruence.
  - assert (Hs : SitemapHandler.sitemaps r2 <> []).
    { intros E. rewrite E in F. cbn in F. congruence. }
    cbn [SitemapHandler.sitemap_index SitemapHandler.sitemaps
         SitemapHandler.sitemaps_info SitemapHandler.pings].
    destruct (SitemapHandler.upload_to_s3 _ _ _);
      destruct (SitemapHandler.ev_skip_ping ev);
      cbn [SitemapHandler.sitemap_index SitemapHandler.sitemaps
           SitemapHandler.sitemaps_info SitemapHandler.pings];
      rewrite ?P; repeat split; intros; try congruence;
      unfold SitemapHandler.ping_search_engines;
      rewrite List.map_map; apply List.map_id.
Qed.

Lemma sitemaps_canonical (ev : SitemapHandler.event) :
  Forall (SitemapHandler.canonical DOMAIN)
    (SitemapHandler.sitemaps
       (SitemapHandler.body
          (SitemapHandler.lambda_handler DOMAIN query scan put_object ping
             clock ev))).
Proof.
  unfold SitemapHandler.lambda_handler.
  destruct (SitemapHandler.ev_ping_only ev); [constructor|].
  destruct (static_steady ev) as (_ & _ & _ & C). cbv zeta in C. cbv zeta.
  cbn [SitemapHandler.body].
  set (r2 := SitemapHandler.record_upload _ _ _ _ _) in *.
  destruct (SitemapHandler.sitemaps_info r2);
    cbn [SitemapHandler.sitemap_index SitemapHandler.sitemaps];
    [destruct (SitemapHandler.sitemap_index r2)|
     destruct (SitemapHandler.upload_to_s3 _ _ _)];
    try destruct (SitemapHandler.ev_skip_ping ev);
    cbn [SitemapHandler.sitemaps]; exact C.
Qed.

Lemma robots_sitemap_lines (robots_clock : datetime) (url : str) :
  In (lit "Sitemap: " ++ url) (SitemapHandler.robots_lines DOMAIN robots_clock) <->
  url = DOMAIN ++ lit "/sitemap.xml" \/
  url = DOMAIN ++ lit "/sitemap-static.xml" \/
  exists c, url = DOMAIN ++ lit "/" ++
                  SitemapHandler.cfg_path (SitemapHandler.BLOG_CONFIGS c) ++
                  lit "/sitemap.xml".
Proof.
  unfold SitemapHandler.robots_lines.
  cbn [List.map List.app all_categories In]. split.
  - intros H.
    repeat (destruct H as [H|H];
            [first
               [ exfalso;
                 apply (f_equal (startswith (lit "Sitemap: "))) in H;
                 rewrite (startswith_app (lit "Sitemap: ") url) in H;
                 vm_compute in H; discriminate H
               | apply List.app_inv_head in H; subst url;
                 first [ now left | now (right; left)
                       | right; right; now exists Sneaker
                       | right; right; now exists Shoes
                       | right; right; now exists Workwear
                       | right; right; now exists Music ] ]|]).
    destruct H.
  - intros [->|[->|[c ->]]]; [tauto|tauto|]. destruct c; cbn; tauto.
Qed.

(** X15. What [robots.txt] advertises of a run's sitemaps: the URL of
    every category sitemap and of the static sitemap the handler reports
    is on a [Sitemap:] line of [robots.txt], and the URL of a news
    sitemap it reports never is. *)
Theorem robots_advertises_reported (ev : SitemapHandler.event)
  (robots_clock : datetime) (rec : SitemapHandler.sitemap_record) :
  In rec
    (SitemapHandler.sitemaps
       (SitemapHandler.body
          (SitemapHandler.lambda_handler DOMAIN query scan put_object ping
             clock ev))) ->
  match rec with
  | SitemapHandler.MainSitemap _ url _ | SitemapHandler.StaticSitemap url =>
      In (lit "Sitemap: " ++ url) (SitemapHandler.robots_lines DOMAIN robots_clock)
  | SitemapHandler.NewsSitemap _ url =>
      ~ In (lit "Sitemap: " ++ url) (SitemapHandler.robots_lines DOMAIN robots_clock)
  | SitemapHandler.SitemapError _ _ => True
  end.
Proof.
  intros Hin.
  pose proof (proj1 (List.Forall_forall _ _) (sitemaps_canonical ev) rec Hin) as Hc.
  destruct rec as [c url n|c url|url|c e]; cbn in Hc; [| | |exact I].
  - apply robots_sitemap_lines. right; right. now exists c.
  - rewrite robots_sitemap_lines. subst url.
    intros [H|[H|[c' H]]]; apply List.app_inv_head in H;
      [destruct c; vm_compute in H; discriminate H
      |destruct c; vm_compute in H; discriminate H|].
    destruct c, c'; vm_compute in H; discriminate H.
  - apply robots_sitemap_lines. right; now left.
Qed.

End SitemapSummary.

(** X14 on a run over all categories, every upload succeeding: the three
    search engines are pinged. *)
Lemma sitemap_pings_follow_index_witness :
  List.map fst
    (SitemapHandler.pings
       (SitemapHandler.body
          (SitemapHandler.lambda_handler Samples.DOMAIN Samples.index_one_post
             Samples.scan_empty Samples.s3_ok Samples.ping_ok
             Samples.clock_mid_month Samples.sitemap_event_all))) =
  SitemapHandler.SEARCH_ENGINES.
Proof.
  apply (proj2 (proj2 (proj1
           (sitemap_pings_follow_index Samples.DOMAIN Samples.index_one_post
              Samples.scan_empty Samples.s3_ok Samples.ping_ok
              Samples.clock_mid_month Samples.sitemap_event_all) eq_refl)));
    [vm_compute; discriminate|reflexivity].
Defined.

(** X15 on the same run: the sneaker news sitemap it reports is not in
    [robots.txt]. *)
Lemma robots_advertises_reported_witness :
  ~ In (lit "Sitemap: https://shoeswiper.com/blog/sneaker/sitemap-news.xml")
       (SitemapHandler.robots_lines Samples.DOMAIN Samples.clock_mid_month).
Proof.
  apply (robots_advertises_reported Samples.DOMAIN Samples.index_one_post
           Samples.scan_empty Samples.s3_ok Samples.ping_ok
           Samples.clock_mid_month Samples.sitemap_event_all
           Samples.clock_mid_month
           (SitemapHandler.NewsSitemap Sneaker
              (lit "https://shoeswiper.com/blog/sneaker/sitemap-news.xml"))).
  vm_compute. right; left. reflexivity.
Defined.

(** X11 at the cutoff of 13 May 2024: a post published on 14 May with
    no UTC offset is dropped, one published the same day with [Z] is
    kept, and so is one stamped [+0000]. *)
Lemma is_recent_spec_witness :
  SitemapHandler.is_recent Samples.cutoff_mid_month Samples.post_naive = false /\
  SitemapHandler.is_recent Samples.cutoff_mid_month Samples.post_1_day = true /\
  SitemapHandler.is_recent Samples.cutoff_mid_month Samples.post_basic_offset
  = true.
Proof.
  split; [|split].
  - exact (proj1 (proj2 (proj2
             (is_recent_spec Samples.cutoff_mid_month 0 Samples.post_naive eq_refl)))
             (Datetime 2024 5 14 12 0 0 0 None) eq_refl eq_refl).
  - exact (proj2 (proj2 (proj2
             (is_recent_spec Samples.cutoff_mid_month 0 Samples.post_1_day eq_refl)))
             (Datetime 2024 5 14 12 0 0 0 (Some 0)) 0 eq_refl eq_refl eq_refl).
  - exact (proj2 (proj2 (proj2
             (is_recent_spec Samples.cutoff_mid_month 0 Samples.post_basic_offset
                eq_refl)))
             (Datetime 2024 5 14 12 0 0 0 (Some 0)) 0 eq_refl eq_refl eq_refl).
Defined.

(** X12 on 15 May 2024: a post ten days old gives no news document; with
    a post one day old before it, the document lists that post alone. *)
Lemma news_sitemap_selection_witness :
  SitemapHandler.generate_news_sitemap Samples.DOMAIN Samples.clock_mid_month
    Sneaker [Samples.post_10_days] = Ok None /\
  exists doc,
    SitemapHandler.generate_news_sitemap Samples.DOMAIN Samples.clock_mid_month
      Sneaker [Samples.post_1_day; Samples.post_10_days] = Ok (Some doc) /\
    List.map SitemapHandler.n_title doc =
    [get (attrs Samples.post_1_day) "title" (VStr (lit "Untitled"))].
Proof.
  split.
  - exact (proj1 (proj1
             (news_sitemap_selection Samples.DOMAIN Samples.clock_mid_month
                Samples.cutoff_mid_month Sneaker [Samples.post_10_days] eq_refl))
             eq_refl).
  - eexists. split; [vm_compute; reflexivity|].
    exact (proj2
             (news_sitemap_selection Samples.DOMAIN Samples.clock_mid_month
                Samples.cutoff_mid_month Sneaker
                [Samples.post_1_day; Samples.post_10_days] eq_refl)
             _ eq_refl).
Defined.
(* ===================================================================== *)
(** * Further properties of the feed generator *)
(* ===================================================================== *)

(** ** The status of a run *)

Section FeedStatus.

Variable DOMAIN : str.
Variables query scan : category -> result (list post).
Variable put_object : nat -> str -> result unit.
Variables generate_rss generate_atom : category -> list post -> result str.
Variable generate_opml : result str.


(** ** Which blogs a run processes *)



End FeedStatus.

(** ** The RSS renderer *)

Lemma str_eqb_refl (a : str) : str_eqb a a = true.
Proof. now apply str_eqb_eq. Qed.

Lemma lookup_str_snoc_found (k p : str) (seen : list (str * str))
  (e : str * str) :
  lookup_str k seen = Some p -> lookup_str k (seen ++ [e]) = Some p.
Proof.
  unfold lookup_str. induction seen as [|x seen IH]; cbn [List.find List.app].
  - discriminate.
  - destruct (str_eqb (fst x) k); [trivial|exact IH].
Qed.

Lemma lookup_str_snoc_new (k u p : str) (seen : list (str * str)) :
  lookup_str k seen = None ->
  lookup_str k (seen ++ [(u, p)]) = if str_eqb u k then Some p else None.
Proof.
  unfold lookup_str. induction seen as [|x seen IH]; cbn [List.find List.app fst].
  - now destruct (str_eqb u k).
  - destruct (str_eqb (fst x) k); [discriminate|exact IH].
Qed.

Lemma assign_prefixes_keeps (k p : str) (uris : list str)
  (seen : list (str * str)) :
  lookup_str k seen = Some p ->
  lookup_str k (assign_prefixes seen uris) = Some p.
Proof.
  revert seen. induction uris as [|u uris IH]; intros seen H;
    cbn [assign_prefixes]; [exact H|].
  destruct (lookup_str u seen); [now apply IH|].
  destruct (str_eqb _ (lit "xml")); [now apply IH|].
  apply IH. now apply lookup_str_snoc_found.
Qed.

(** The Dublin Core namespace is serialised under its registered prefix
    [dc] wherever a tag of the tree is in it. *)
Lemma assign_prefixes_dc (uris : list str) (seen : list (str * str)) :
  In RssHandler.dc_namespace uris ->
  lookup_str RssHandler.dc_namespace seen = None \/
  lookup_str RssHandler.dc_namespace seen = Some (lit "dc") ->
  lookup_str RssHandler.dc_namespace (assign_prefixes seen uris) =
  Some (lit "dc").
Proof.
  assert (Hreg : lookup_str RssHandler.dc_namespace registered_namespaces =
                 Some (lit "dc")) by (vm_compute; reflexivity).
  assert (Hxml : str_eqb (lit "dc") (lit "xml") = false)
    by (vm_compute; reflexivity).
  revert seen. induction uris as [|u uris IH]; intros seen Hin Hseen;
    [destruct Hin|].
  destruct Hseen as [Hn|Hs]; [|now apply assign_prefixes_keeps].
  cbn [assign_prefixes].
  destruct (str_eqb u RssHandler.dc_namespace) eqn:Hu.
  - apply str_eqb_eq in Hu. subst u. rewrite Hn, Hreg, Hxml.
    apply assign_prefixes_keeps. rewrite lookup_str_snoc_new by exact Hn.
    now rewrite str_eqb_refl.
  - destruct Hin as [->|Hin]; [now rewrite str_eqb_refl in Hu|].
    clear Hreg Hxml.
    destruct (lookup_str u seen); [apply IH; auto|].
    destruct (str_eqb _ (lit "xml")); [apply IH; auto|].
    apply IH; [exact Hin|]. left.
    rewrite lookup_str_snoc_new by exact Hn. now rewrite Hu.
Qed.

Lemma duplicate_free_common (x : str) (l1 l2 : list str) :
  In x l1 -> In x l2 -> duplicate_free (l1 ++ l2) = false.
Proof.
  induction l1 as [|y l1 IH]; intros H1 H2; [destruct H1|].
  cbn [List.app duplicate_free]. destruct H1 as [->|H1].
  - replace (existsb (str_eqb x) (l1 ++ l2)) with true; [reflexivity|].
    symmetry. apply List.existsb_exists. exists x.
    split; [apply List.in_or_app; now right|apply str_eqb_refl].
  - rewrite (IH H1 H2). apply andb_false_r.
Qed.

(** The root of a feed with one [dc:creator] element has two
    [xmlns:dc] attributes: the one line 110 sets and the one the
    serialiser adds for the tag. *)
Lemma rss_root_duplicate (uris : list str) :
  In RssHandler.dc_namespace uris ->
  duplicate_free
    (root_attribute_names (List.map fst RssHandler.rss_attributes) uris) = false.
Proof.
  intros H. unfold root_attribute_names.
  apply duplicate_free_common with (x := lit "xmlns:dc").
  - pose proof (assign_prefixes_dc uris [] H (or_introl eq_refl)) as Hl.
    unfold lookup_str in Hl.
    destruct (List.find _ _) as [e|] eqn:Hf; [|discriminate].
    injection Hl as Hl. apply List.find_some in Hf. destruct Hf as [Hin _].
    apply List.in_map_iff. exists e. split; [|exact Hin].
    destruct e as [k p]. cbn [snd] in Hl |- *. now subst p.
  - cbn [List.map RssHandler.rss_attributes fst In]. do 3 right. now left.
Qed.

Lemma traverse_nonempty {A B} (f : A -> result B) (a : A) (l : list A)
  (r : list B) :
  traverse f (a :: l) = Ok r -> exists b r', r = b :: r'.
Proof.
  cbn [traverse]. destruct (f a) as [b|]; cbn [bind]; [|discriminate].
  destruct (traverse f l) as [r'|]; cbn [bind]; [|discriminate].
  intros [= <-]. now eexists _, _.
Qed.

Section RssDocument.

Variable DOMAIN : str.
Variable json_loads : str -> result (list value).

(** What the renderer answers on one post or more: the exception of the
    first item that cannot be built, else one of the three exceptions of
    the serialise-and-re-read step, which has a duplicate attribute to
    refuse when nothing else stops it earlier. *)
Lemma generate_rss_cases (clock : datetime) (c : category) (p : post)
  (posts : list post) :
  (forall e,
     traverse (RssHandler._add_item DOMAIN json_loads clock c) (p :: posts)
     = Raise e ->
     RssHandler.generate_rss DOMAIN json_loads clock c (p :: posts) = Raise e) /\
  (forall items,
     traverse (RssHandler._add_item DOMAIN json_loads clock c) (p :: posts)
     = Ok items ->
     In (RssHandler.generate_rss DOMAIN json_loads clock c (p :: posts))
        [Raise TypeError; Raise UnicodeEncodeError; Raise ExpatError]).
Proof.
  unfold RssHandler.generate_rss. split.
  - now intros e ->.
  - intros items Ht. rewrite Ht. cbn [bind].
    destruct (traverse_nonempty _ _ _ _ Ht) as (i & items' & ->).
    unfold prettify_document.
    destruct (negb (forallb is_str _ && forallb serialisable _));
      [cbn; tauto|].
    destruct (negb (forallb encodable _)); [cbn; tauto|].
    rewrite rss_root_duplicate; [cbn; tauto|].
    right. cbn [List.flat_map RssHandler.item_namespaces List.app In].
    right. now left.
Qed.

Lemma generate_rss_nonempty (clock : datetime) (c : category) (p : post)
  (posts : list post) :
  returns (RssHandler.generate_rss DOMAIN json_loads clock c (p :: posts))
  = false.
Proof.
  destruct (generate_rss_cases clock c p posts) as [H1 H2].
  destruct (traverse (RssHandler._add_item DOMAIN json_loads clock c)
              (p :: posts)) as [items|e].
  - destruct (H2 items eq_refl) as [<-|[<-|[<-|[]]]]; reflexivity.
  - now rewrite (H1 e eq_refl).
Qed.

(** X22. The RSS renderer returns no document for a blog that has a
    post.  Line 110 sets [xmlns:dc] on the root and line 180 adds a
    [dc:creator] element to every item, for which the serialiser
    declares [xmlns:dc] on the root a second time; [minidom.parseString]
    refuses the duplicate.  On one post or more the renderer therefore
    raises: the exception of the first item that cannot be built, else
    [TypeError] or [UnicodeEncodeError] from a text that cannot be
    written, else [ExpatError].  It returns only on the empty list. *)
Theorem generate_rss_duplicate_namespace (clock : datetime) (c : category)
  (posts : list post) :
  posts <> [] ->
  (exists e,
     RssHandler.generate_rss DOMAIN json_loads clock c posts = Raise e) /\
  (forall e,
     traverse (RssHandler._add_item DOMAIN json_loads clock c) posts = Raise e ->
     RssHandler.generate_rss DOMAIN json_loads clock c posts = Raise e) /\
  (forall items,
     traverse (RssHandler._add_item DOMAIN json_loads clock c) posts = Ok items ->
     In (RssHandler.generate_rss DOMAIN json_loads clock c posts)
        [Raise TypeError; Raise UnicodeEncodeError; Raise ExpatError]).
Proof.
  destruct posts as [|p posts]; [congruence|]. intros _.
  destruct (generate_rss_cases clock c p posts) as [H1 H2].
  split; [|split; [exact H1|exact H2]].
  pose proof (generate_rss_nonempty clock c p posts) as H.
  destruct (RssHandler.generate_rss _ _ _ _ _) as [doc|e];
    [discriminate H|now exists e].
Qed.

End RssDocument.

(** X22 on the sneaker blog holding one post. *)
Lemma generate_rss_duplicate_namespace_witness :
  exists e,
    RssHandler.generate_rss Samples.DOMAIN Samples.json_refused
      Samples.clock_mid_month Sneaker [Samples.post_1_day] = Raise e.
Proof.
  apply (generate_rss_duplicate_namespace Samples.DOMAIN Samples.json_refused
           Samples.clock_mid_month Sneaker [Samples.post_1_day]).
  discriminate.
Defined.

(** The same render raises [ExpatError]; on no post, every blog's feed
    is rendered. *)
Example generate_rss_samples :
  RssHandler.generate_rss Samples.DOMAIN Samples.json_refused
    Samples.clock_mid_month Sneaker [Samples.post_1_day] = Raise ExpatError /\
  RssHandler.generate_rss Samples.DOMAIN Samples.json_refused
    Samples.clock_mid_month Sneaker [Samples.post_naive; Samples.post_3_days]
  = Raise ExpatError /\
  Forall
    (fun c =>
       RssHandler.generate_rss Samples.DOMAIN Samples.json_refused
         Samples.clock_mid_month c [] = Ok [])
    all_categories.
Proof. repeat constructor; vm_compute; reflexivity. Qed.

(** The sibling of the change-frequency code reads a timestamp without
    offset as UTC. *)
Example format_rfc822_naive :
  RssHandler._format_rfc822 (Datetime 2024 5 14 12 0 0 0 None) =
  lit "Tue, 14 May 2024 12:00:00 +0000" /\
  RssHandler._format_rfc822 (Datetime 2024 5 14 12 0 0 0 (Some 0)) =
  lit "Tue, 14 May 2024 12:00:00 +0000".
Proof. split; vm_compute; reflexivity. Qed.

(** ** The status of a run with the RSS renderer of the source *)

Section FeedRun.

Variable DOMAIN : str.
Variables query scan : category -> result (list post).
Variable put_object : nat -> str -> result unit.
Variable json_loads : str -> result (list value).
Variable clock : category -> datetime.
Variable render : list RssHandler.rss_item -> str.
Variable generate_atom : category -> list post -> result str.
Variable generate_opml : result str.

Lemma process_blog_fails (r : RssHandler.results) (blog_type : str) :
  exists f,
    RssHandler.process_blog DOMAIN query scan put_object
      (fun c posts =>
         bind (RssHandler.generate_rss DOMAIN json_loads (clock c) c posts)
              (fun items => Ok (render items)))
      generate_atom r blog_type = RssHandler.record_failure r f.
Proof.
  unfold RssHandler.process_blog.
  destruct (category_of_key blog_type) as [c|]; [|now eexists].
  destruct (RssHandler.fetch_posts _ _ _) as [[|p posts]|e]; try now eexists.
  pose proof (generate_rss_nonempty DOMAIN json_loads (clock c) c p posts) as H.
  destruct (RssHandler.generate_rss _ _ _ _ _) as [doc|e];
    [discriminate H|]. cbn [bind]. now eexists.
Qed.

Lemma blogs_fail (blogs : list str) (r : RssHandler.results) :
  let r' :=
    fold_left
      (RssHandler.process_blog DOMAIN query scan put_object
         (fun c posts =>
            bind (RssHandler.generate_rss DOMAIN json_loads (clock c) c posts)
                 (fun items => Ok (render items)))
         generate_atom) blogs r in
  RssHandler.success r' = RssHandler.success r /\
  RssHandler.puts r' = RssHandler.puts r /\
  List.length (RssHandler.failed r') =
  (List.length (RssHandler.failed r) + List.length blogs)%nat.
Proof.
  revert r. induction blogs as [|b blogs IH]; intros r; cbn [fold_left].
  - cbn. repeat split. lia.
  - destruct (process_blog_fails r b) as (f & ->).
    destruct (IH (RssHandler.record_failure r f)) as (H1 & H2 & H3).
    cbn zeta in *. rewrite H1, H2, H3. cbn. rewrite List.length_app. cbn.
    repeat split. lia.
Qed.

Lemma blogs_to_process_nonempty (ev : RssHandler.event) :
  RssHandler.blogs_to_process ev <> [].
Proof.
  unfold RssHandler.blogs_to_process.
  set (from_path := match RssHandler.ev_path_blog_type ev with
                    | Some b => _ | None => _ end).
  assert (H : from_path <> []).
  { subst from_path. destruct (RssHandler.ev_path_blog_type ev) as [[|x b]|];
      try discriminate. now destruct (category_of_key (x :: b)). }
  revert H. generalize from_path.
  induction (RssHandler.ev_sns_blog_types ev) as [|m rest IH]; intros acc H;
    cbn [fold_left]; [exact H|].
  apply IH. now destruct m.
Qed.

(** X16. With the RSS renderer of the source, the feed handler never
    answers 200.  Every blog it processes is recorded as failed before
    any upload: because it is not configured, because its posts cannot
    be fetched, because it has none, or because the renderer raises on
    the posts it has.  Every run processes at least one blog, so the
    answer is 207 whatever the event, the tables and the storage.  The
    only upload attempted is the OPML document's, and [success] holds
    nothing but that document's URL. *)
Theorem rss_handler_never_complete (ev : RssHandler.event) :
  let r :=
    RssHandler.lambda_handler DOMAIN query scan put_object
      (fun c posts =>
         bind (RssHandler.generate_rss DOMAIN json_loads (clock c) c posts)
              (fun items => Ok (render items)))
      generate_atom generate_opml ev in
  RssHandler.statusCode r = 207 /\
  (List.length (RssHandler.blogs_to_process ev) <=
   List.length (RssHandler.failed (RssHandler.body r)))%nat /\
  RssHandler.puts (RssHandler.body r) = (if returns generate_opml then 1 else 0)%nat /\
  RssHandler.success (RssHandler.body r) =
  (if returns generate_opml &&
      RssHandler.upload_to_s3 put_object 0 (lit "blog/feeds.opml")
   then [RssHandler.Opml (DOMAIN ++ lit "/blog/feeds.opml")] else []).
Proof.
  intros r. subst r. unfold RssHandler.lambda_handler.
  destruct (blogs_fail (RssHandler.blogs_to_process ev)
              (RssHandler.Results [] [] 0)) as (H1 & H2 & H3).
  cbn zeta in H1, H2, H3. cbn [RssHandler.success RssHandler.puts
    RssHandler.failed List.length Nat.add] in H1, H2, H3.
  pose proof (blogs_to_process_nonempty ev) as Hne.
  set (r1 := fold_left _ _ _) in *.
  assert (Hf : RssHandler.failed r1 <> []).
  { intros E. rewrite E in H3. destruct (RssHandler.blogs_to_process ev);
      [congruence|discriminate H3]. }
  cbn [RssHandler.statusCode RssHandler.body].
  destruct generate_opml as [doc|e]; cbn [returns andb].
  - unfold RssHandler.record_upload. rewrite H2, H1.
    destruct (RssHandler.upload_to_s3 put_object 0 (lit "blog/feeds.opml"));
      cbn [RssHandler.failed RssHandler.puts RssHandler.success List.app];
      (split; [now destruct (RssHandler.failed r1)|]);
      (split; [lia|]); split; reflexivity.
  - cbn [RssHandler.record_failure RssHandler.failed RssHandler.puts
         RssHandler.success].
    split; [now destruct (RssHandler.failed r1)|].
    split; [rewrite List.length_app; lia|]. now split.
Qed.

End FeedRun.

(** X16 on the scheduled run over a table of one post per blog: the
    four blogs fail, the OPML document alone is uploaded. *)
Example rss_handler_sample_run :
  let r :=
    RssHandler.lambda_handler Samples.DOMAIN Samples.table_one_post
      Samples.table_one_post Samples.s3_ok
      (fun c posts =>
         bind (RssHandler.generate_rss Samples.DOMAIN Samples.json_refused
                 Samples.clock_mid_month c posts)
              (fun items => Ok []))
      Samples.render_raises Samples.opml_ok Samples.rss_event_all in
  RssHandler.statusCode r = 207 /\
  RssHandler.success (RssHandler.body r) =
  [RssHandler.Opml (lit "https://shoeswiper.com/blog/feeds.opml")] /\
  RssHandler.failed (RssHandler.body r) =
  List.map (fun c => RssHandler.BlogError (category_key c) ExpatError)
           all_categories.
Proof. repeat split; vm_compute; reflexivity. Qed.

(** ** The fallback sort *)

Lemma insert_desc_perm (x : post) (l r : list post) :
  RssHandler.insert_desc x l = Ok r -> Permutation (x :: l) r.
Proof.
  revert r. induction l as [|y l IH]; intros r; cbn [RssHandler.insert_desc].
  - now intros [= <-].
  - destruct (RssHandler.value_lt _ _) as [[|]|]; cbn [bind]; try discriminate.
    + destruct (RssHandler.insert_desc x l) as [r'|]; cbn [bind]; [|discriminate].
      intros [= <-]. rewrite perm_swap. constructor. now apply IH.
    + now intros [= <-].
Qed.

Lemma sort_desc_perm (l r : list post) :
  RssHandler.sort_desc l = Ok r -> Permutation l r.
Proof.
  revert r. induction l as [|x l IH]; intros r; cbn [RssHandler.sort_desc].
  - now intros [= <-].
  - destruct (RssHandler.sort_desc l) as [r'|]; cbn [bind]; [|discriminate].
    intros H. apply insert_desc_perm in H. rewrite <- H. constructor. now apply IH.
Qed.

(** The fallback sort is stable: posts none of which has a key less
    than another's keep the order of the scan. *)
Lemma insert_desc_stable (P : post -> bool) (x : post) (l r : list post) :
  (forall a b, P a = true -> P b = true ->
               RssHandler.value_lt (RssHandler.sort_key a) (RssHandler.sort_key b)
               = Ok false) ->
  RssHandler.insert_desc x l = Ok r ->
  List.filter P r = List.filter P (x :: l).
Proof.
  intros HP. revert r.
  induction l as [|y l IH]; intros r; cbn [RssHandler.insert_desc].
  - now intros [= <-].
  - destruct (RssHandler.value_lt _ _) as [[|]|] eqn:Hlt; cbn [bind];
      try discriminate.
    + destruct (RssHandler.insert_desc x l) as [r'|]; cbn [bind]; [|discriminate].
      intros [= <-]. cbn [List.filter]. rewrite (IH r' eq_refl).
      cbn [List.filter].
      destruct (P x) eqn:Hx, (P y) eqn:Hy; try reflexivity.
      rewrite (HP x y Hx Hy) in Hlt. discriminate Hlt.
    + now intros [= <-].
Qed.

Lemma sort_desc_stable (P : post -> bool) (l r : list post) :
  (forall a b, P a = true -> P b = true ->
               RssHandler.value_lt (RssHandler.sort_key a) (RssHandler.sort_key b)
               = Ok false) ->
  RssHandler.sort_desc l = Ok r ->
  List.filter P r = List.filter P l.
Proof.
  intros HP. revert r. induction l as [|x l IH]; intros r;
    cbn [RssHandler.sort_desc].
  - now intros [= <-].
  - destruct (RssHandler.sort_desc l) as [r'|]; cbn [bind]; [|discriminate].
    intros H. rewrite (insert_desc_stable P x r' r HP H).
    cbn [List.filter]. now rewrite (IH r' eq_refl).
Qed.

(** X17. The feed generator's fallback, when the indexed query fails
    and the scan answers, for a limit that is not negative.  The scanned
    posts are put in descending key order, posts that the order does not
    separate keeping their scan order, and the result is the first
    [limit] posts of that arrangement: [min(limit, n)] posts of the [n]
    scanned, those cut being the last in the order.  No post is invented
    or repeated. *)
Theorem rss_fallback_sort (e : exn) (items : list post) (limit : Z)
  (l : list post) :
  0 <= limit ->
  RssHandler.fetch_posts (Raise e) (Ok items) limit = Ok l ->
  exists sorted,
    Permutation items sorted /\
    Sorted RssHandler.not_less sorted /\
    (forall P : post -> bool,
       (forall a b, P a = true -> P b = true ->
                    RssHandler.value_lt (RssHandler.sort_key a)
                      (RssHandler.sort_key b) = Ok false) ->
       List.filter P sorted = List.filter P items) /\
    l = firstn (Z.to_nat limit) sorted /\
    Z.of_nat (List.length l) = Z.min limit (Z.of_nat (List.length items)).
Proof.
  intros Hlimit. unfold RssHandler.fetch_posts. cbn [bind].
  destruct (RssHandler.sort_desc items) as [r|] eqn:Hs; cbn [bind]; [|discriminate].
  intros [= <-]. exists r.
  pose proof (sort_desc_perm _ _ Hs) as Hp.
  split; [exact Hp|]. split; [now apply sort_desc_sorted in Hs|].
  split; [intros P HP; now apply sort_desc_stable|].
  split; [reflexivity|].
  rewrite List.length_firstn, <- (Permutation_length Hp). lia.
Qed.

(** X17 on a scan holding the older post first, with a limit of 1: the
    newer post alone is returned. *)
Lemma rss_fallback_sort_witness :
  exists sorted,
    Permutation [Samples.post_3_days; Samples.post_1_day] sorted /\
    Sorted RssHandler.not_less sorted /\
    [Samples.post_1_day] = firstn 1 sorted.
Proof.
  destruct (rss_fallback_sort ValueError
              [Samples.post_3_days; Samples.post_1_day] 1
              [Samples.post_1_day] ltac:(lia) eq_refl)
    as (sorted & Hp & Hs & _ & Hl & _).
  exists sorted. repeat split; assumption.
Defined.

Lemma insert_desc_strings (x : post) (l : list post) :
  is_str (RssHandler.sort_key x) = true ->
  Forall (fun p => is_str (RssHandler.sort_key p) = true) l ->
  exists r, RssHandler.insert_desc x l = Ok r.
Proof.
  intros Hx Hl. induction Hl as [|y l Hy Hl IH]; cbn [RssHandler.insert_desc].
  - now eexists.
  - destruct (RssHandler.sort_key x) as [| |sx| |]; try discriminate.
    destruct (RssHandler.sort_key y) as [| |sy| |]; try discriminate.
    cbn [RssHandler.value_lt bind].
    destruct (str_ltb sx sy); [|now eexists].
    destruct IH as (r & ->). cbn [bind]. now eexists.
Qed.

(** X18. The fallback sort cannot fail on string keys: when every
    scanned post has a string [published_at], or none (the key is then
    the empty string), the fallback returns. *)
Theorem rss_fallback_string_keys (e : exn) (items : list post) (limit : Z) :
  Forall (fun p => is_str (RssHandler.sort_key p) = true) items ->
  exists l, RssHandler.fetch_posts (Raise e) (Ok items) limit = Ok l.
Proof.
  intros H. unfold RssHandler.fetch_posts. cbn [bind].
  assert (Hs : exists r, RssHandler.sort_desc items = Ok r /\
                         Forall (fun p => is_str (RssHandler.sort_key p) = true) r).
  { induction H as [|x l Hx Hl IH]; cbn [RssHandler.sort_desc].
    - exists []. now split.
    - destruct IH as (r & -> & Hr). cbn [bind].
      destruct (insert_desc_strings x r Hx Hr) as (r' & Hr').
      exists r'. split; [exact Hr'|].
      apply insert_desc_perm in Hr'.
      eapply Permutation_Forall; [exact Hr'|]. now constructor. }
  destruct Hs as (r & -> & _). cbn [bind]. now eexists.
Qed.

(** X18 on a post with a string key and one with no [published_at]. *)
Lemma rss_fallback_string_keys_witness :
  exists l,
    RssHandler.fetch_posts (Raise ValueError)
      (Ok [Samples.post_untitled; Samples.post_1_day]) 50 = Ok l.
Proof.
  apply (rss_fallback_string_keys ValueError
           [Samples.post_untitled; Samples.post_1_day] 50).
  repeat constructor.
Defined.

(** ** Media types *)

Lemma endswith_app (s y t : str) :
  (List.length s <= List.length t)%nat ->
  RssHandler.endswith s (y ++ t) = RssHandler.endswith s t.
Proof.
  intros H. unfold RssHandler.endswith. rewrite List.length_app.
  replace (List.length s <=? List.length y + List.length t)%nat with true
    by (symmetry; apply Nat.leb_le; lia).
  replace (List.length s <=? List.length t)%nat with true
    by (symmetry; apply Nat.leb_le; lia).
  rewrite List.skipn_app.
  rewrite (List.skipn_all2 y) by lia. cbn [List.app].
  replace (List.length y + List.length t - List.length s - List.length y)%nat
    with (List.length t - List.length s)%nat by lia.
  reflexivity.
Qed.

(** X20. The media type of an image URL is decided by its last
    characters, letter case ignored: a URL ending in [.png], [.gif] or
    [.webp] in any mix of cases gets [image/png], [image/gif] or
    [image/webp]; every other URL, with or without extension, gets
    [image/jpeg]; no other type is ever returned. *)
Theorem get_mime_type_by_suffix (url : str) :
  In (RssHandler._get_mime_type url)
     [lit "image/png"; lit "image/gif"; lit "image/webp"; lit "image/jpeg"] /\
  (forall stem ext,
     url = stem ++ ext ->
     (List.map ascii_lower ext = lit ".png" ->
      RssHandler._get_mime_type url = lit "image/png") /\
     (List.map ascii_lower ext = lit ".gif" ->
      RssHandler._get_mime_type url = lit "image/gif") /\
     (List.map ascii_lower ext = lit ".webp" ->
      RssHandler._get_mime_type url = lit "image/webp")) /\
  ((List.length url < 4)%nat -> RssHandler._get_mime_type url = lit "image/jpeg").
Proof.
  split; [|split].
  - unfold RssHandler._get_mime_type.
    destruct (RssHandler.endswith _ _); [cbn; tauto|].
    destruct (RssHandler.endswith _ _); [cbn; tauto|].
    destruct (RssHandler.endswith _ _); cbn; tauto.
  - intros stem ext ->. unfold RssHandler._get_mime_type.
    rewrite List.map_app.
    repeat split; intros ->; rewrite !endswith_app by (cbn; lia); reflexivity.
  - intros H. unfold RssHandler._get_mime_type, RssHandler.endswith.
    rewrite List.length_map.
    replace (List.length (lit ".png") <=? List.length url)%nat with false
      by (symmetry; apply Nat.leb_gt; cbn; lia).
    replace (List.length (lit ".gif") <=? List.length url)%nat with false
      by (symmetry; apply Nat.leb_gt; cbn; lia).
    replace (List.length (lit ".webp") <=? List.length url)%nat with false
      by (symmetry; apply Nat.leb_gt; cbn; lia).
    reflexivity.
Qed.

(** X20 at [https://cdn.example.com/a.GIF]. *)
Lemma get_mime_type_by_suffix_witness :
  RssHandler._get_mime_type (lit "https://cdn.example.com/a.GIF") = lit "image/gif".
Proof.
  exact (proj1 (proj2 (proj1 (proj2
           (get_mime_type_by_suffix (lit "https://cdn.example.com/a.GIF")))
           (lit "https://cdn.example.com/a") (lit ".GIF") eq_refl)) eq_refl).
Defined.

(** ** Entry identifiers *)

Lemma le_bytes_range (n : nat) (x : Z) :
  Forall (fun b => 0 <= b < 256) (Md5.le_bytes n x).
Proof.
  revert x. induction n as [|n IH]; intros x; cbn [Md5.le_bytes]; constructor.
  - apply Z.mod_pos_bound. lia.
  - apply IH.
Qed.

Lemma le_bytes_length (n : nat) (x : Z) : List.length (Md5.le_bytes n x) = n.
Proof.
  revert x. induction n as [|n IH]; intros x; cbn [Md5.le_bytes List.length];
    [reflexivity|]. now rewrite IH.
Qed.

Lemma digest_bytes (msg : list Z) :
  List.length (Md5.digest msg) = 16%nat /\
  Forall (fun b => 0 <= b < 256) (Md5.digest msg).
Proof.
  unfold Md5.digest.
  destruct (fold_left Md5.process_block _ Md5.init) as [[[a b] c] d].
  split.
  - now rewrite !List.length_app, !le_bytes_length.
  - repeat (apply Forall_app; split); apply le_bytes_range.
Qed.

Lemma hex_digit_ok (x : Z) :
  0 <= x < 16 -> Md5.is_hex_digit (Md5.hex_digit x) = true.
Proof.
  intros H. unfold Md5.is_hex_digit, Md5.hex_digit.
  destruct (Z.ltb_spec x 10).
  - replace (48 <=? Z.to_N (48 + x))%N with true by (symmetry; apply N.leb_le; lia).
    replace (Z.to_N (48 + x) <=? 57)%N with true by (symmetry; apply N.leb_le; lia).
    reflexivity.
  - replace (97 <=? Z.to_N (87 + x))%N with true by (symmetry; apply N.leb_le; lia).
    replace (Z.to_N (87 + x) <=? 102)%N with true by (symmetry; apply N.leb_le; lia).
    apply orb_true_r.
Qed.

Lemma hex_bytes_chars (l : list Z) :
  Forall (fun b => 0 <= b < 256) l ->
  List.length (List.flat_map Md5.hex_byte l) = (2 * List.length l)%nat /\
  Forall (fun c => Md5.is_hex_digit c = true) (List.flat_map Md5.hex_byte l).
Proof.
  intros H. induction H as [|b l Hb _ [IH1 IH2]]; [now split|].
  cbn [List.flat_map Md5.hex_byte List.app List.length]. split.
  - rewrite IH1. lia.
  - constructor; [|constructor; [|exact IH2]]; apply hex_digit_ok.
    + split; [apply Z.div_pos; lia|apply Z.div_lt_upper_bound; lia].
    + apply Z.mod_pos_bound. lia.
Qed.

Lemma hexdigest_chars (msg : list Z) :
  List.length (Md5.hexdigest msg) = 32%nat /\
  Forall (fun c => Md5.is_hex_digit c = true) (Md5.hexdigest msg).
Proof.
  unfold Md5.hexdigest. destruct (digest_bytes msg) as [Hl Hr].
  destruct (hex_bytes_chars _ Hr) as [H1 H2]. split; [|exact H2].
  rewrite H1, Hl. reflexivity.
Qed.

Lemma uuid_groups (h : str) :
  List.length h = 32%nat ->
  List.length (firstn 8 h) = 8%nat /\
  List.length (firstn 4 (skipn 8 h)) = 4%nat /\
  List.length (firstn 4 (skipn 12 h)) = 4%nat /\
  List.length (firstn 4 (skipn 16 h)) = 4%nat /\
  List.length (skipn 20 h) = 12%nat /\
  firstn 8 h ++ firstn 4 (skipn 8 h) ++ firstn 4 (skipn 12 h) ++
  firstn 4 (skipn 16 h) ++ skipn 20 h = h.
Proof.
  intros H. do 32 (destruct h as [|? h]; [discriminate|]).
  destruct h; [|discriminate]. repeat split.
Qed.

(** X21. The identifier [_generate_uuid] returns is laid out as
    a UUID: five groups of 8, 4, 4, 4 and 12 characters among [0-9a-f],
    joined by hyphens, 36 characters in all, the groups together being
    the MD5 digest of the content in hexadecimal.  It raises only when
    the content cannot be encoded: it returns whenever the content has
    no surrogate code point. *)
Theorem generate_uuid_layout (content : str) :
  (forall uuid,
     RssHandler._generate_uuid content = Ok uuid ->
     exists a b c d e,
       uuid = a ++ lit "-" ++ b ++ lit "-" ++ c ++ lit "-" ++ d ++ lit "-" ++ e /\
       List.length a = 8%nat /\ List.length b = 4%nat /\ List.length c = 4%nat /\
       List.length d = 4%nat /\ List.length e = 12%nat /\
       Forall (fun x => Md5.is_hex_digit x = true) (a ++ b ++ c ++ d ++ e) /\
       (forall bytes, Md5.encode content = Ok bytes ->
                      a ++ b ++ c ++ d ++ e = Md5.hexdigest bytes)) /\
  (Forall (fun x => is_surrogate x = false /\ (x < 1114112)%N) content ->
   exists uuid, RssHandler._generate_uuid content = Ok uuid).
Proof.
  split.
  - intros uuid. unfold RssHandler._generate_uuid.
    destruct (Md5.encode content) as [bytes|]; cbn [bind]; [|discriminate].
    destruct (hexdigest_chars bytes) as [Hl Hf].
    intros [= <-].
    exists (firstn 8 (Md5.hexdigest bytes)),
           (firstn 4 (skipn 8 (Md5.hexdigest bytes))),
           (firstn 4 (skipn 12 (Md5.hexdigest bytes))),
           (firstn 4 (skipn 16 (Md5.hexdigest bytes))),
           (skipn 20 (Md5.hexdigest bytes)).
    split; [reflexivity|].
    destruct (uuid_groups _ Hl) as (L1 & L2 & L3 & L4 & L5 & Hcat).
    repeat (split; [assumption|]). rewrite Hcat. split; [exact Hf|].
    now intros ? [= <-].
  - intros H. unfold RssHandler._generate_uuid, Md5.encode, Py.encode.
    assert (Ht : exists bs, traverse Py.utf8_char content = Ok bs).
    { induction H as [|x l [Hx1 Hx2] _ IH]; [now eexists|].
      cbn [traverse]. destruct IH as (bs & ->).
      unfold Py.utf8_char. cbv zeta. rewrite Hx1.
      destruct (_ <? 128); [now eexists|].
      destruct (_ <? 2048); [now eexists|].
      destruct (_ <? 65536); [now eexists|].
      replace (Z.of_N x <? 1114112) with true by (symmetry; apply Z.ltb_lt; lia).
      now eexists. }
    destruct Ht as (bs & ->). cbn [bind]. now eexists.
Qed.

(** X21 at the URL of an entry. *)
Lemma generate_uuid_layout_witness :
  exists uuid,
    RssHandler._generate_uuid (lit "https://shoeswiper.com/blog/sneaker/one")
    = Ok uuid.
Proof.
  apply (proj2 (generate_uuid_layout
                  (lit "https://shoeswiper.com/blog/sneaker/one"))).
  repeat (constructor; [split; reflexivity|]). constructor.
Defined.

(** RFC 1321, appendix A.5: the digests of the test suite. *)
Example md5_test_suite :
  Md5.hexdigest [] = lit "d41d8cd98f00b204e9800998ecf8427e" /\
  (forall bytes, Md5.encode (lit "abc") = Ok bytes ->
     Md5.hexdigest bytes = lit "900150983cd24fb0d6963f7d28e17f72") /\
  (forall bytes, Md5.encode (lit "message digest") = Ok bytes ->
     Md5.hexdigest bytes = lit "f96b697d7cb7938d525a2f31aaf161d0") /\
  (forall bytes,
     Md5.encode (lit "12345678901234567890123456789012345678901234567890123456789012345678901234567890")
     = Ok bytes ->
     Md5.hexdigest bytes = lit "57edf4a22be3c955ac49da2e2107b67a").
Proof.
  repeat split; try (intros bytes [= <-]); vm_compute; reflexivity.
Qed.

(** ** Which blogs a run processes, on a sample *)

